(** * Task-Master: the AI-flow layer, the sprint-planner page and the task
    server actions, embedded in Rocq.

    Sources embedded here:
    - [sprint-planner-flow.ts]    ([deduplicateTasks], [suggestSprintPlan],
      [sprintPlannerPrompt], [sprintPlannerFlow]);
    - [scope-creep-detector-flow.ts], [risk-analysis-flow.ts],
      [retrospective-generator-flow.ts] (schemas, prompts, flows);
    - [app/sprint-planner/page.tsx] ([handleFetchProjectTasks], [onSubmit]);
    - [app/scope-creep-detector/page.tsx] ([onSubmit]);
    - [lib/actions/taskActions.ts] ([getTasksByProjectId], [updateTask],
      [deleteTask]). *)

From stdpp Require Import gmap strings list.
From Stdlib Require Import NArith ZArith Ascii.
From Stdlib Require DecimalString.

Local Open Scope N_scope.

(** ** JavaScript strings

    A JavaScript string is a sequence of UTF-16 code units; [trim],
    [split], [includes] and [startsWith] all work on code units.  A code
    unit is a number below 2^16; nothing below depends on the bound. *)

Abbreviation jsstring := (list N).

(** ASCII literals of the sources, as code units. *)
Fixpoint lit (s : string) : jsstring :=
  match s with
  | EmptyString => []
  | String a s' => N_of_ascii a :: lit s'
  end.

(** Code units written by number where the source has them inside string
    literals: line feed, the double quote, the en dash of the task-line
    format. *)
Definition LF : N := 10.
Definition nl : jsstring := [LF].
Definition dq : jsstring := [34].
Definition endash : jsstring := [0x2013].

(** [WhiteSpace] and [LineTerminator] of ECMAScript, the code units that
    [String.prototype.trim] removes. *)
Definition isWhiteSpace (c : N) : bool :=
  ((9 <=? c) && (c <=? 13))
  || (c =? 32) || (c =? 0xA0) || (c =? 0x1680)
  || ((0x2000 <=? c) && (c <=? 0x200A))
  || (c =? 0x2028) || (c =? 0x2029) || (c =? 0x202F)
  || (c =? 0x205F) || (c =? 0x3000) || (c =? 0xFEFF).

Fixpoint trimStart (s : jsstring) : jsstring :=
  match s with
  | [] => []
  | c :: s' => if isWhiteSpace c then trimStart s' else s
  end.

(** A string that is empty or starts with a code unit [trimStart]
    keeps. *)
Definition startsClean (s : jsstring) : Prop :=
  match s with
  | [] => True
  | c :: _ => isWhiteSpace c = false
  end.

Definition trimEnd (s : jsstring) : jsstring := rev (trimStart (rev s)).

Definition trim (s : jsstring) : jsstring := trimEnd (trimStart s).

(** [s.split(sep)] for a separator of one code unit, which is how the
    sources call it ([split('\n')]).  The empty string splits into one
    empty piece. *)
Fixpoint split (sep : N) (s : jsstring) : list jsstring :=
  match s with
  | [] => [[]]
  | c :: s' =>
      if c =? sep then [] :: split sep s'
      else match split sep s' with
           | piece :: pieces => (c :: piece) :: pieces
           | [] => [[c]]
           end
  end.

(** [pieces.join(sep)]. *)
Fixpoint join (sep : jsstring) (pieces : list jsstring) : jsstring :=
  match pieces with
  | [] => []
  | [piece] => piece
  | piece :: rest => piece ++ sep ++ join sep rest
  end.

Fixpoint startsWith (prefix s : jsstring) : bool :=
  match prefix, s with
  | [], _ => true
  | _ :: _, [] => false
  | p :: prefix', c :: s' => (c =? p) && startsWith prefix' s'
  end.

(** [s.includes(pat)]: [pat] occurs at some position of [s]. *)
Fixpoint includes (pat s : jsstring) : bool :=
  startsWith pat s ||
  match s with
  | [] => false
  | _ :: s' => includes pat s'
  end.

(** JavaScript truthiness of a string: the empty string is falsy. *)
Definition nonEmpty (s : jsstring) : bool :=
  match s with [] => false | _ :: _ => true end.

(** [a || b] on strings. *)
Definition orElse (a b : jsstring) : jsstring := if nonEmpty a then a else b.

(** ** sprint-planner-flow.ts: deduplicateTasks *)

(** The [filter] callback of [deduplicateTasks] with its captured
    [seen] set threaded through the traversal:
    [if (!line || seen.has(line)) return false; seen.add(line); return true]. *)
Fixpoint filterSeen (seen : gset jsstring) (lines : list jsstring)
  : list jsstring :=
  match lines with
  | [] => []
  | line :: rest =>
      if negb (nonEmpty line) || bool_decide (line ∈ seen)
      then filterSeen seen rest
      else line :: filterSeen ({[ line ]} ∪ seen) rest
  end.

Definition deduplicateTasks (tasksText : jsstring) : jsstring :=
  let seen : gset jsstring := ∅ in
  let lines := filterSeen seen (map trim (split LF tasksText)) in
  join nl lines.

(** Position of the first occurrence of [x] in [l]. *)
Fixpoint indexOf (x : jsstring) (l : list jsstring) : option nat :=
  match l with
  | [] => None
  | y :: l' => if bool_decide (y = x) then Some 0%nat
               else S <$> indexOf x l'
  end.

(** ** Exceptions, promises and the hosted model

    A value thrown in JavaScript is an [Error] carrying a message, or
    something else ([error instanceof Error] is false). *)
Inductive Thrown : Type :=
  | JsError (message : jsstring)
  | NotAnError.

(** How a promise settles. *)
Inductive Settled (A : Type) : Type :=
  | Fulfilled (a : A)
  | Rejected (error : Thrown).
Arguments Fulfilled {A} a.
Arguments Rejected {A} error.

(** Completion of a synchronous block of statements. *)
Inductive Completion (A : Type) : Type :=
  | Normal (a : A)
  | Abrupt (error : Thrown).
Arguments Normal {A} a.
Arguments Abrupt {A} error.

(** An asynchronous computation of the server: the prompts it submitted
    to the hosted model, in order, and how its promise settled.
    [console.warn] and [console.error] only write to the server log and
    are left out. *)
Definition Async (A : Type) : Type := (list jsstring * Settled A)%type.

#[export] Instance Async_ret : MRet Async := fun A a => ([], Fulfilled a).

#[export] Instance Async_bind : MBind Async := fun A B k m =>
  match m with
  | (sent, Fulfilled a) => let '(sent', r) := k a in (sent ++ sent', r)
  | (sent, Rejected error) => (sent, Rejected error)
  end.

Definition throw {A} (error : Thrown) : Async A := ([], Rejected error).

(** [try { await m } catch (error) { handler }]. *)
Definition tryCatch {A} (m : Async A) (handler : Thrown -> Async A) : Async A :=
  match m with
  | (sent, Fulfilled a) => (sent, Fulfilled a)
  | (sent, Rejected error) =>
      let '(sent', r) := handler error in (sent ++ sent', r)
  end.

Definition sentUpstream {A} (m : Async A) : list jsstring := fst m.
Definition settled {A} (m : Async A) : Settled A := snd m.

(** What one call of the hosted model gives back for a rendered prompt,
    as the prompt library hands it to the flow: an exception (transport
    failure, or an answer that does not parse into the output schema),
    no output object, or an output object of the schema's type. *)
Inductive Reply (O : Type) : Type :=
  | ModelThrows (error : Thrown)
  | NoOutput
  | Output (o : O).
Arguments ModelThrows {O} error.
Arguments NoOutput {O}.
Arguments Output {O} o.

Definition Model (O : Type) : Type := jsstring -> Reply O.

(** ** JavaScript numbers

    The sources only look at a number through its truthiness
    ([{{#if n}}], [n || 0]), its [String(n)] image (interpolation) and
    zod's [nonnegative()]. *)
Class JsNumber (num : Type) : Type := {
  toBoolean : num -> bool;
  numberToString : num -> jsstring;
  nonnegative : num -> bool
}.

(** Integers (story points, effort) as an instance. *)
Definition Z_toString (z : Z) : jsstring :=
  lit (DecimalString.NilEmpty.string_of_int (Z.to_int z)).

#[export] Instance Z_JsNumber : JsNumber Z := {
  toBoolean z := negb (z =? 0)%Z;
  numberToString := Z_toString;
  nonnegative z := (0 <=? z)%Z
}.


(** ** Prompt templates (Handlebars, as the prompt library compiles them)

    A template is given as Handlebars parses it: a block tag standing
    alone on its line ([{{#if x}}], [{{/if}}]) leaves no text, not even
    its line break.  The prompt library compiles templates with HTML
    escaping switched off, so [{{x}}] and [{{{x}}}] both insert the
    value as it is. *)
Inductive Value (num : Type) : Type :=
  | VString (s : jsstring)
  | VNumber (n : num).
Arguments VString {num} s.
Arguments VNumber {num} n.

#[local] Set Warnings "-register-all".

(** [Text s] is literal text, [Var x] is [{{x}}], [Raw x] is [{{{x}}}]
    and [If x body] is [{{#if x}}body{{/if}}]. *)
Inductive Node : Type :=
  | Text (s : jsstring)
  | Var (name : string)
  | Raw (name : string)
  | If (name : string) (body : list Node).

Abbreviation Template := (list Node).

Section Handlebars.
Context {num : Type} `{JsNumber num}.

(** The [if] helper: [undefined], the empty string, [0] and [NaN]
    take the (here absent) [else] branch. *)
Definition isTruthy (v : option (Value num)) : bool :=
  match v with
  | None => false
  | Some (VString s) => nonEmpty s
  | Some (VNumber n) => toBoolean n
  end.

(** An interpolated value; [undefined] prints as nothing. *)
Definition display (v : option (Value num)) : jsstring :=
  match v with
  | None => []
  | Some (VString s) => s
  | Some (VNumber n) => numberToString n
  end.

Fixpoint renderNode (ctx : gmap string (Value num)) (n : Node) : jsstring :=
  match n with
  | Text s => s
  | Var name => display (ctx !! name)
  | Raw name => display (ctx !! name)
  | If name body =>
      if isTruthy (ctx !! name)
      then concat (map (renderNode ctx) body)
      else []
  end.

Definition render (t : Template) (ctx : gmap string (Value num)) : jsstring :=
  concat (map (renderNode ctx) t).

(** What the instructional section of an optional field contributes to
    a rendered prompt: nothing when the field is undefined or falsy,
    else its label, the value and its closing text. *)
Definition optionalSection (label : jsstring) (value : option jsstring)
    (closing : jsstring) : jsstring :=
  match value with
  | Some s => if nonEmpty s then label ++ s ++ closing else []
  | None => []
  end.

Definition optionalNumberSection (label : jsstring) (value : option num)
    (closing : jsstring) : jsstring :=
  match value with
  | Some n => if toBoolean n then label ++ numberToString n ++ closing else []
  | None => []
  end.

(** An optional string field of an input record as an object property. *)
Definition optional (name : string) (v : option jsstring)
  : gmap string (Value num) :=
  match v with
  | Some s => {[ name := VString s ]}
  | None => ∅
  end.

Definition optionalNumber (name : string) (v : option num)
  : gmap string (Value num) :=
  match v with
  | Some n => {[ name := VNumber n ]}
  | None => ∅
  end.
End Handlebars.

(** ** The flow library: schemas, prompts, flows *)

(** One issue of a schema check: the field and the violated constraint. *)
Record Issue : Type := { path : string; constraint : jsstring }.

(** The error a failed schema check raises.  Its wording belongs to the
    library; the model keeps the field paths and the constraints'
    messages. *)
Definition issueText (i : Issue) : jsstring :=
  lit (path i) ++ lit ": " ++ constraint i.

Definition validationError (issues : list Issue) : Thrown :=
  JsError (lit "Schema validation failed. " ++ join (lit "; ") (map issueText issues)).

(** [z.string().min(n, message)] on field [name]. *)
Definition minLength (name : string) (n : nat) (message : jsstring)
    (value : jsstring) : list Issue :=
  if (length value <? n)%nat then [ {| path := name; constraint := message |} ] else [].

(** [await prompt(input)]: render the template on the input, submit it,
    hand back [{output}]. *)
Definition definePrompt {num I O} `{JsNumber num} (template : Template)
    (context : I -> gmap string (Value num))
    (model : Model O) (input : I) : Async (option O) :=
  let rendered := render template (context input) in
  match model rendered with
  | ModelThrows error => ([rendered], Rejected error)
  | NoOutput => ([rendered], Fulfilled None)
  | Output o => ([rendered], Fulfilled (Some o))
  end.

(** [ai.defineFlow({inputSchema, outputSchema}, body)]: the input is
    checked against [inputSchema] before [body] runs.  An output of
    type [O] conforms to [outputSchema]; a model answer that does not is
    a [ModelThrows] of the prompt call. *)
Definition defineFlow {I O} (inputSchema : I -> list Issue)
    (body : I -> Async O) (input : I) : Async O :=
  match inputSchema input with
  | [] => body input
  | issues => throw (validationError issues)
  end.

(** ** Classifying a failure by its message

    Helpers for the [if]/[else if]/[else] chains of the sprint planner,
    in the [catch] clause of [suggestSprintPlan] and in the [catch]
    clause of the page's [onSubmit]. *)

(** ASCII letters fold to lower case; [toLowerCase] of U+0130 is [i]
    followed by U+0307 and of U+212A is [k].  Unicode sends every other
    code unit to code units outside ASCII; the model leaves those in
    place, which does not change where an ASCII pattern occurs. *)
Definition lowerCodeUnit (c : N) : jsstring :=
  if (65 <=? c) && (c <=? 90) then [c + 32]
  else if c =? 0x130 then [0x69; 0x307]
  else if c =? 0x212A then [0x6B]
  else [c].

Definition toLowerCase (s : jsstring) : jsstring := concat (map lowerCodeUnit s).

(** The condition of the first branch:
    [message.includes("503") || message.toLowerCase().includes("model is overloaded")
     || message.toLowerCase().includes("service unavailable")]. *)
Definition isServiceError (message : jsstring) : bool :=
  includes (lit "503") message
  || includes (lit "model is overloaded") (toLowerCase message)
  || includes (lit "service unavailable") (toLowerCase message).

(** Matching under the [i] flag (without [u]): an ASCII letter of the
    pattern matches the same letter in either case, and no code unit
    outside ASCII. *)
Definition eqIgnoreCase (p c : N) : bool :=
  (c =? p) || ((97 <=? p) && (p <=? 122) && (c =? p - 32)).

Fixpoint matchWord (word s : jsstring) : option jsstring :=
  match word, s with
  | [], _ => Some []
  | _ :: _, [] => None
  | p :: word', c :: s' =>
      if eqIgnoreCase p c then cons c <$> matchWord word' s' else None
  end.

Definition isDigit (c : N) : bool := (48 <=? c) && (c <=? 57).

(** The alternatives of [/50\d|overloaded|unavailable/i] tried in order
    at the start of [s]. *)
Definition match50x (s : jsstring) : option jsstring :=
  match s with
  | 53 :: 48 :: d :: _ => if isDigit d then Some [53; 48; d] else None
  | _ => None
  end.

Definition matchHere (s : jsstring) : option jsstring :=
  match match50x s with
  | Some m => Some m
  | None =>
      match matchWord (lit "overloaded") s with
      | Some m => Some m
      | None => matchWord (lit "unavailable") s
      end
  end.

(** [message.match(/50\d|overloaded|unavailable/i)]: the leftmost match. *)
Fixpoint serviceErrorMatch (s : jsstring) : option jsstring :=
  match matchHere s with
  | Some m => Some m
  | None => match s with
            | [] => None
            | _ :: s' => serviceErrorMatch s'
            end
  end.

Definition serviceUnavailableMessage (detail : jsstring) : jsstring :=
  lit "The AI service is currently overloaded or unavailable (" ++ detail
  ++ lit "). Please try again in a few moments.".

Definition isTaggedAIError (message : jsstring) : bool :=
  startsWith (lit "AI_EMPTY_RESPONSE:") message
  || startsWith (lit "AI_FORMAT_ERROR:") message.

(** ** sprint-planner-flow.ts *)
Module SprintPlannerFlow.
Section WithNumber.
Context {num : Type} `{JsNumber num}.

Record SprintPlanInput : Type := {
  tasksText : jsstring;
  sprintDuration : option jsstring;
  teamSize : option jsstring;
  teamStoryPointCapacity : option num;
  sprintGoal : option jsstring
}.

Record SprintPlanOutput : Type := {
  sprintPlan : jsstring;
  warningsOrSuggestions : option jsstring
}.

(** [SprintPlanInputSchema]: [tasksText] is [z.string()] with no
    further constraint, the other fields are optional; every record of
    the type conforms. *)
Definition SprintPlanInputSchema (input : SprintPlanInput) : list Issue := [].

(** The input record as the object the template is rendered on; an
    [undefined] field is an absent property. *)
Definition context (input : SprintPlanInput) : gmap string (Value num) :=
  <[ "tasksText" := VString (tasksText input) ]>
    (optional "sprintDuration" (sprintDuration input)
     ∪ optional "teamSize" (teamSize input)
     ∪ optionalNumber "teamStoryPointCapacity" (teamStoryPointCapacity input)
     ∪ optional "sprintGoal" (sprintGoal input)).

Definition sprintPlannerPrompt_text1 : jsstring :=
  concat
    [ lit "You are an expert sprint planning assistant. Given a list of upcoming tasks with their priorities and estimated story points (SP), and information about the team's sprint, create an optimal sprint plan."; nl;
      nl;
      lit "## Inputs:"; nl;
      nl ].

Definition sprintPlannerPrompt_text2 : jsstring :=
  concat
    [ nl;
      lit "### Task List:"; nl ].

Definition sprintPlannerPrompt_text3 : jsstring :=
  concat
    [ nl;
      nl;
      lit "Each task in the Task List is described in the format:"; nl;
      lit "<Task Title> "; endash; lit " <Priority: High/Medium/Low> "; endash; lit " <Story Points: number>"; nl;
      lit "(If priority is "; dq; lit "N/A"; dq; lit " or story points are "; dq; lit "0"; dq; lit " for some tasks, acknowledge this and proceed with planning based on available information.)"; nl;
      nl;
      lit "## Your Goal:"; nl;
      nl;
      lit "1. Select the best combination of tasks to fit within the given capacity (if provided), prioritizing high-priority tasks and tasks that align with the sprint goal (if provided)."; nl;
      lit "2. If story points are available for tasks and a team story point capacity is given, use these as the primary measure for fitting tasks into the sprint. If story points are not consistently available, or capacity is described qualitatively (e.g., team size and duration), make a reasonable judgment."; nl;
      lit "3. Output a markdown-formatted response with these sections exactly as follows:"; nl;
      nl;
      lit "---"; nl;
      nl;
      lit "## Sprint Plan"; nl;
      lit "[List selected tasks, each on a new line. For each task, include its title, priority, and story points. Briefly (1 sentence) describe the purpose or value of including this task in the sprint. If a task was vague, note that.]"; nl;
      nl;
      lit "## Deferred Tasks"; nl;
      lit "[List tasks not included in the sprint plan, especially if they were high or medium priority but couldn't fit due to capacity constraints or other reasons. State the reason for deferral if clear (e.g., "; dq; lit "Exceeds capacity"; dq; lit ", "; dq; lit "Lower priority than selected tasks"; dq; lit "). If no tasks are deferred, explicitly state "; dq; lit "N/A"; dq; lit " or "; dq; lit "None"; dq; lit ".]"; nl;
      nl;
      lit "## Warnings & Suggestions"; nl;
      lit "[Provide actionable tips. For example:"; nl;
      lit "- Suggest breaking down very large tasks (e.g., tasks with SP > 13, or significantly larger than others)."; nl;
      lit "- Identify potential high load on the team if the plan is very ambitious."; nl;
      lit "- Note if critical information (like consistent story points or clear priorities) was missing for many tasks, making planning difficult."; nl;
      lit "- Suggest clarifying ambiguous tasks."; nl;
      lit "- If the sprint goal was provided and some selected tasks don't align well, mention this as a point for discussion.]"; nl;
      nl;
      lit "---"; nl;
      nl;
      lit "Only include markdown text in the response, starting with "; dq; lit "## Sprint Plan"; dq; lit ". Do not invent details not provided in the inputs."; nl;
      lit "Structure your entire response strictly according to the SprintPlanOutputSchema. The 'sprintPlan' field in the output schema should contain the "; dq; lit "## Sprint Plan"; dq; lit " and "; dq; lit "## Deferred Tasks"; dq; lit " sections. The 'warningsOrSuggestions' field should contain the "; dq; lit "## Warnings & Suggestions"; dq; lit " section."; nl ].

(** The template of [sprintPlannerPrompt]. *)
Definition sprintPlannerPrompt : Template :=
  [ Text sprintPlannerPrompt_text1;
    If "sprintDuration"
      [ Text (lit "- Sprint Duration: ");
        Var "sprintDuration";
        Text nl ];
    If "teamSize"
      [ Text (lit "- Team Size: ");
        Var "teamSize";
        Text nl ];
    If "teamStoryPointCapacity"
      [ Text (lit "- Team Capacity: ");
        Var "teamStoryPointCapacity";
        Text (concat
              [ lit " story points per sprint"; nl ]) ];
    If "sprintGoal"
      [ Text (lit "- Sprint Goal: ");
        Var "sprintGoal";
        Text nl ];
    Text sprintPlannerPrompt_text2;
    Raw "tasksText";
    Text sprintPlannerPrompt_text3 ].

Definition prompt : Model SprintPlanOutput -> SprintPlanInput
                    -> Async (option SprintPlanOutput) :=
  definePrompt sprintPlannerPrompt context.

Definition AI_EMPTY_RESPONSE : jsstring :=
  lit "AI_EMPTY_RESPONSE: AI did not return a valid plan. The output was empty.".

Definition AI_FORMAT_ERROR : jsstring :=
  lit "AI_FORMAT_ERROR: AI response is missing the required '## Sprint Plan' heading. This might indicate an unexpected AI output structure or a problem with the AI model's adherence to the output schema.".

Definition sprintPlannerFlow (model : Model SprintPlanOutput)
  : SprintPlanInput -> Async SprintPlanOutput :=
  defineFlow SprintPlanInputSchema (fun input =>
    tryCatch
      (output ← prompt model input;
       match output with
       | None => throw (JsError AI_EMPTY_RESPONSE)
       | Some output =>
           if negb (includes (lit "## Sprint Plan") (sprintPlan output))
           then throw (JsError AI_FORMAT_ERROR)
           else mret output
       end)
      (fun error => throw error)).

(** The [catch] clause of [suggestSprintPlan]. *)
Definition userFriendlyMessage (error : Thrown) : jsstring :=
  let userFriendlyMessage :=
    lit "An unexpected error occurred while generating the sprint plan. Please check server console for details and try again." in
  match error with
  | JsError message =>
      if isServiceError message then
        let serviceErrorDetail :=
          match serviceErrorMatch message with
          | Some m => m
          | None => lit "Error"
          end in
        serviceUnavailableMessage serviceErrorDetail
      else if isTaggedAIError message then message
      else orElse message userFriendlyMessage
  | NotAnError => userFriendlyMessage
  end.

(** The record [{ ...input, tasksText: text }]. *)
Definition withTasksText (input : SprintPlanInput) (text : jsstring) : SprintPlanInput :=
  {| tasksText := text;
     sprintDuration := sprintDuration input;
     teamSize := teamSize input;
     teamStoryPointCapacity := teamStoryPointCapacity input;
     sprintGoal := sprintGoal input |}.

(** The [try] block of [suggestSprintPlan] up to its [return]: it
    builds [flowInput], calls the flow and returns the flow's promise
    without awaiting it.  None of these statements throws on a record
    of the type. *)
Definition suggestSprintPlan_try (model : Model SprintPlanOutput)
    (input : SprintPlanInput) : Completion (Async SprintPlanOutput) :=
  let flowInput := withTasksText input (deduplicateTasks (tasksText input)) in
  Normal (sprintPlannerFlow model flowInput).

(** [suggestSprintPlan]: the promise returned from the [try] block
    settles the function's own promise; the [catch] clause runs only
    for an exception thrown while the block itself executes. *)
Definition suggestSprintPlan (model : Model SprintPlanOutput)
    (input : SprintPlanInput) : Async SprintPlanOutput :=
  match suggestSprintPlan_try model input with
  | Normal promise => promise
  | Abrupt error => throw (JsError (userFriendlyMessage error))
  end.

(** The prompt [suggestSprintPlan] has the flow render for [input]. *)
Definition promptOf (input : SprintPlanInput) : jsstring :=
  render sprintPlannerPrompt
    (context (withTasksText input (deduplicateTasks (tasksText input)))).
End WithNumber.
Arguments SprintPlanInput : clear implicits.
End SprintPlannerFlow.

(** ** scope-creep-detector-flow.ts *)
Module ScopeCreepFlow.
Record ScopeCreepInput : Type := {
  currentTasksText : jsstring;
  originalTasksText : option jsstring;
  sprintGoal : option jsstring
}.

(** [z.enum(["None", "Low", "Moderate", "High"])]. *)
Inductive CreepLevel : Type :=
  | CreepLevel_None
  | CreepLevel_Low
  | CreepLevel_Moderate
  | CreepLevel_High.

Record ScopeCreepOutput : Type := {
  analysisReport : jsstring;
  creepLevel : CreepLevel;
  recommendations : option jsstring
}.

Definition ScopeCreepInputSchema (input : ScopeCreepInput) : list Issue :=
  minLength "currentTasksText" 1 (lit "Current sprint tasks cannot be empty.")
    (currentTasksText input).

(** The issue this schema raises. *)
Definition emptyCurrentTasks : Issue :=
  {| path := "currentTasksText";
     constraint := lit "Current sprint tasks cannot be empty." |}.

(** The input record as the object the template is rendered on; an
    [undefined] field is an absent property. *)
Definition context (input : ScopeCreepInput) : gmap string (Value Z) :=
  <[ "currentTasksText" := VString (currentTasksText input) ]>
    (optional "originalTasksText" (originalTasksText input)
     ∪ optional "sprintGoal" (sprintGoal input)).

Definition scopeCreepDetectorPrompt_text1 : jsstring :=
  concat
    [ lit "You are an AI assistant specializing in Agile project management, specifically in detecting sprint scope creep."; nl;
      lit "Your goal is to help teams identify when a sprint's scope is expanding beyond its original commitments or capacity."; nl;
      nl;
      lit "You will be provided with:"; nl;
      lit "1.  **Current Sprint Tasks:** A list of tasks currently planned or being worked on in the sprint. Tasks might include implicit priority or effort."; nl;
      lit "2.  **Original Sprint Tasks (Optional):** The list of tasks that were committed to at the beginning of the sprint. This is the baseline."; nl;
      lit "3.  **Sprint Goal (Optional):** The main objective of the sprint."; nl;
      nl;
      lit "Your Analysis Steps:"; nl;
      lit "1.  **Baseline Comparison (if Original Sprint Tasks provided):**"; nl;
      lit "    a.  Compare 'Current Sprint Tasks' against 'Original Sprint Tasks'."; nl;
      lit "    b.  Identify tasks in the 'Current' list that are NOT in the 'Original' list. These are "; dq; lit "Newly Added Tasks."; dq; nl;
      lit "    c.  For each newly added task, assess its relevance to the 'Sprint Goal' (if provided). Note if it seems to support or detract from the goal."; nl;
      lit "    d.  Comment on any significant increase in the total number of tasks or perceived workload due to these additions."; nl;
      lit "2.  **Current Scope Assessment (if Original Sprint Tasks NOT provided):**"; nl;
      lit "    a.  Analyze the 'Current Sprint Tasks' list in isolation."; nl;
      lit "    b.  Look for:"; nl;
      lit "        - A very high volume of tasks relative to typical sprint capacity (use general knowledge if capacity isn't specified)."; nl;
      lit "        - Tasks that seem unrelated to the 'Sprint Goal' (if provided)."; nl;
      lit "        - A mix of many low-priority items if high-priority items are also present and numerous."; nl;
      lit "    c.  Clearly state that without an original baseline, "; dq; lit "creep"; dq; lit " is harder to definitively quantify, but you can highlight potential risks of overload or lack of focus."; nl;
      nl;
      lit "Output Generation (Strictly follow the schema):"; nl;
      nl;
      lit "-   **analysisReport (Markdown Format):**"; nl;
      lit "    *   Start with a concise summary statement of your findings regarding scope creep."; nl;
      lit "    *   If 'Original Sprint Tasks' were provided and new tasks identified:"; nl;
      lit "        *   Create a "; dq; lit "## Newly Added Tasks"; dq; lit " section."; nl;
      lit "        *   List each new task (e.g., using bullet points)."; nl;
      lit "        *   Briefly comment on its potential impact (e.g., "; dq; lit "Adds X effort,"; dq; lit " "; dq; lit "May divert focus from goal"; dq; lit ") and alignment with the 'Sprint Goal'."; nl;
      lit "    *   If 'Original Sprint Tasks' were NOT provided:"; nl;
      lit "        *   Describe the current scope based on 'Current Sprint Tasks'."; nl;
      lit "        *   Point out any observations about its size, focus, or potential risks (e.g., "; dq; lit "The current scope includes X tasks. Without a baseline, it's hard to measure creep, but ensure these align with the team's capacity and the sprint goal."; dq; lit ")."; nl;
      lit "    *   If a 'Sprint Goal' was provided, mention any tasks (new or original) that seem to deviate significantly from it."; nl;
      nl;
      lit "-   **creepLevel (Enum: "; dq; lit "None"; dq; lit ", "; dq; lit "Low"; dq; lit ", "; dq; lit "Moderate"; dq; lit ", "; dq; lit "High"; dq; lit "):**"; nl;
      lit "    *   **"; dq; lit "None"; dq; lit ":** Current tasks align well with original (if provided) and goal. Scope seems stable and focused."; nl;
      lit "    *   **"; dq; lit "Low"; dq; lit ":** Minor additions, mostly aligned with the goal. Slight increase in work."; nl;
      lit "    *   **"; dq; lit "Moderate"; dq; lit ":** Several new tasks, some potentially misaligned or of lower priority. Noticeable increase in workload or potential distraction from the goal."; nl;
      lit "    *   **"; dq; lit "High"; dq; lit ":** Significant number of new tasks, many misaligned or of questionable priority. Clear signs of potential overload, lack of focus, or risk to the sprint goal. If original tasks are missing but current tasks appear excessive, unfocused, or contain many new unexpected items, this can also be "; dq; lit "Moderate"; dq; lit " to "; dq; lit "High"; dq; lit "."; nl;
      nl;
      lit "-   **recommendations (Optional string):**"; nl;
      lit "    *   If creepLevel is "; dq; lit "Moderate"; dq; lit " or "; dq; lit "High"; dq; lit ", provide 1-2 brief, actionable recommendations."; nl;
      lit "    *   Examples: "; dq; lit "Re-evaluate newly added tasks against the sprint goal and team capacity."; dq; lit ", "; dq; lit "Discuss with the Product Owner if these new tasks are critical for the current sprint."; dq; lit ", "; dq; lit "Consider moving non-critical new items to the backlog to protect the sprint goal."; dq; nl;
      nl;
      lit "Input Details:"; nl;
      lit "Current Sprint Tasks:"; nl ].

Definition scopeCreepDetectorPrompt_text2 : jsstring :=
  concat
    [ nl;
      nl ].

Definition scopeCreepDetectorPrompt_text3 : jsstring :=
  nl.

Definition scopeCreepDetectorPrompt_text4 : jsstring :=
  concat
    [ nl;
      lit "Remember to structure your entire response strictly according to the ScopeCreepOutputSchema (analysisReport as Markdown, creepLevel as one of the enum values, and optional recommendations)."; nl ].

(** The template of [scopeCreepDetectorPrompt]. *)
Definition scopeCreepDetectorPrompt : Template :=
  [ Text scopeCreepDetectorPrompt_text1;
    Raw "currentTasksText";
    Text scopeCreepDetectorPrompt_text2;
    If "originalTasksText"
      [ Text (concat
              [ lit "Original Sprint Tasks:"; nl ]);
        Raw "originalTasksText";
        Text nl ];
    Text scopeCreepDetectorPrompt_text3;
    If "sprintGoal"
      [ Text (concat
              [ lit "Sprint Goal:"; nl ]);
        Raw "sprintGoal";
        Text nl ];
    Text scopeCreepDetectorPrompt_text4 ].

Definition prompt : Model ScopeCreepOutput -> ScopeCreepInput
                    -> Async (option ScopeCreepOutput) :=
  definePrompt scopeCreepDetectorPrompt context.

Definition scopeCreepDetectorFlow (model : Model ScopeCreepOutput)
  : ScopeCreepInput -> Async ScopeCreepOutput :=
  defineFlow ScopeCreepInputSchema (fun input =>
    output ← prompt model input;
    match output with
    | None => throw (JsError (lit "AI did not return a valid scope creep analysis."))
    | Some output => mret output
    end).

Definition detectScopeCreep (model : Model ScopeCreepOutput)
    (input : ScopeCreepInput) : Async ScopeCreepOutput :=
  scopeCreepDetectorFlow model input.
End ScopeCreepFlow.

(** ** risk-analysis-flow.ts *)
Module RiskAnalysisFlow.
Record RiskAnalysisInput : Type := {
  tasksJson : jsstring;
  teamContext : option jsstring
}.

(** [z.enum(["Low", "Medium", "High", "Critical"])]. *)
Inductive RiskLevel : Type := Low | Medium | High | Critical.

Record TaskSummary : Type := {
  id : jsstring;
  title : jsstring;
  priority : option jsstring
}.

Module MemberRisk.
Record MemberRisk : Type := {
  memberIdOrName : jsstring;
  riskLevel : RiskLevel;
  riskFactors : list jsstring;
  relevantTasksSummary : list TaskSummary
}.
End MemberRisk.

Module TaskRisk.
Record TaskRisk : Type := {
  taskId : jsstring;
  taskTitle : jsstring;
  riskLevel : RiskLevel;
  riskFactors : list jsstring
}.
End TaskRisk.

Record RiskAnalysisOutput : Type := {
  memberRiskAnalysis : list MemberRisk.MemberRisk;
  taskRiskAnalysis : list TaskRisk.TaskRisk;
  overallAssessment : jsstring;
  recommendations : list jsstring
}.

(** [tasksJson] is [z.string()], [teamContext] optional. *)
Definition RiskAnalysisInputSchema (input : RiskAnalysisInput) : list Issue := [].

(** The input record as the object the template is rendered on; an
    [undefined] field is an absent property. *)
Definition context (input : RiskAnalysisInput) : gmap string (Value Z) :=
  <[ "tasksJson" := VString (tasksJson input) ]>
    (optional "teamContext" (teamContext input)).

Definition sprintRiskAnalysisPrompt_text1 : jsstring :=
  concat
    [ lit "You are an expert Agile Coach and Project Manager specializing in risk assessment for software development sprints."; nl;
      lit "Your task is to analyze a list of tasks and provide a risk report."; nl;
      nl;
      lit "You will be provided with:"; nl;
      lit "1.  **Tasks JSON:** A JSON string representing an array of tasks. Each task includes an id, title, status, and may include an assignee, priority ('Low', 'Medium', 'High', 'Critical'), and effort (numeric)."; nl;
      lit "2.  **Team Context (Optional):** A brief text description of the team (e.g., "; dq; lit "Team of 5 developers, 2-week sprint, focus on backend features"; dq; lit ", "; dq; lit "Team is new to this technology"; dq; lit ")."; nl;
      nl;
      lit "Your Analysis Steps:"; nl;
      lit "1.  **Parse Tasks:** Interpret the tasks from the provided JSON string."; nl;
      lit "2.  **Member-Level Risk Assessment:**"; nl;
      lit "    a.  Identify unique assignees from the tasks. These are your team members for this analysis."; nl;
      lit "    b.  For each member, assess their risk level ("; dq; lit "Low"; dq; lit ", "; dq; lit "Medium"; dq; lit ", "; dq; lit "High"; dq; lit ", "; dq; lit "Critical"; dq; lit ") based on:"; nl;
      lit "        - The number of tasks assigned."; nl;
      lit "        - The number of 'High' or 'Critical' priority tasks assigned."; nl;
      lit "        - The total 'effort' of tasks assigned, if effort data is present and seems significant."; nl;
      lit "        - If 'teamContext' suggests constraints (e.g., a junior member, someone part-time), factor that in."; nl;
      lit "    c.  List specific 'riskFactors' for each member (e.g., "; dq; lit "3 Critical tasks assigned"; dq; lit ", "; dq; lit "Total effort of 15 points exceeds typical individual capacity of 10"; dq; lit ")."; nl;
      lit "    d.  Include a 'relevantTasksSummary' listing key tasks (id, title, priority) contributing to their risk."; nl;
      lit "3.  **Task-Level Risk Assessment:**"; nl;
      lit "    a.  Identify tasks that pose a risk. Focus on tasks that are:"; nl;
      lit "        - 'High' or 'Critical' priority but have no assignee."; nl;
      lit "        - 'High' or 'Critical' priority and are assigned to a member you've identified as 'High' or 'Critical' risk."; nl;
      lit "        - Have unusually high effort if assigned to a single individual who might be a bottleneck."; nl;
      lit "    b.  Assign a 'riskLevel' to these tasks and list 'riskFactors'."; nl;
      lit "4.  **Overall Assessment:** Provide a brief summary of the sprint's risk profile."; nl;
      lit "5.  **Recommendations:** Offer 2-3 actionable recommendations to mitigate the highest-priority risks."; nl;
      nl;
      lit "Input Details:"; nl;
      lit "Tasks JSON:"; nl ].

Definition sprintRiskAnalysisPrompt_text2 : jsstring :=
  concat
    [ nl;
      nl ].

Definition sprintRiskAnalysisPrompt_text3 : jsstring :=
  concat
    [ nl;
      lit "Structure your entire response strictly according to the RiskAnalysisOutputSchema."; nl;
      lit "Focus on identifying assignees from the tasks provided. If a task has no assignee, note that as a risk for high-priority items."; nl;
      lit "Base "; dq; lit "overload"; dq; lit " on the quantity and priority of tasks provided in the input for each assignee. Do not assume external knowledge of team capacity unless given in teamContext."; nl;
      lit "Prioritize actionable insights."; nl ].

(** The template of [sprintRiskAnalysisPrompt]. *)
Definition sprintRiskAnalysisPrompt : Template :=
  [ Text sprintRiskAnalysisPrompt_text1;
    Raw "tasksJson";
    Text sprintRiskAnalysisPrompt_text2;
    If "teamContext"
      [ Text (concat
              [ lit "Team Context:"; nl ]);
        Raw "teamContext";
        Text nl ];
    Text sprintRiskAnalysisPrompt_text3 ].

Definition prompt : Model RiskAnalysisOutput -> RiskAnalysisInput
                    -> Async (option RiskAnalysisOutput) :=
  definePrompt sprintRiskAnalysisPrompt context.

Definition riskAnalysisFlow (model : Model RiskAnalysisOutput)
  : RiskAnalysisInput -> Async RiskAnalysisOutput :=
  defineFlow RiskAnalysisInputSchema (fun input =>
    output ← prompt model input;
    match output with
    | None => throw (JsError (lit "AI did not return a valid risk analysis."))
    | Some output => mret output
    end).

Definition analyzeSprintRisks (model : Model RiskAnalysisOutput)
    (input : RiskAnalysisInput) : Async RiskAnalysisOutput :=
  riskAnalysisFlow model input.
End RiskAnalysisFlow.

(** ** retrospective-generator-flow.ts *)
Module RetrospectiveFlow.
Record SprintRetrospectiveInput : Type := {
  tasksJson : jsstring;
  sprintGoal : option jsstring;
  teamSentiment : option jsstring;
  additionalNotes : option jsstring
}.

Record SprintRetrospectiveOutput : Type := {
  sprintSummary : jsstring;
  whatWentWell : list jsstring;
  whatCouldBeImproved : list jsstring;
  actionItems : list jsstring
}.

Definition SprintRetrospectiveInputSchema (input : SprintRetrospectiveInput)
  : list Issue := [].

(** The input record as the object the template is rendered on; an
    [undefined] field is an absent property. *)
Definition context (input : SprintRetrospectiveInput) : gmap string (Value Z) :=
  <[ "tasksJson" := VString (tasksJson input) ]>
    (optional "sprintGoal" (sprintGoal input)
     ∪ optional "teamSentiment" (teamSentiment input)
     ∪ optional "additionalNotes" (additionalNotes input)).

Definition sprintRetrospectivePrompt_text1 : jsstring :=
  concat
    [ lit "You are an expert Agile Coach facilitating a sprint retrospective."; nl;
      lit "Your goal is to help the team reflect on the past sprint and identify key learnings and improvements."; nl;
      nl;
      lit "You will be provided with:"; nl;
      lit "1.  **Tasks JSON:** A JSON string of tasks from the sprint. Analyze this for completion rates (tasks with status 'Done' are considered completed), types of tasks completed vs. not, any apparent delays (e.g., many 'In Progress' tasks, or high-priority tasks not 'Done'), and patterns."; nl;
      lit "2.  **Sprint Goal (Optional):** The stated objective of the sprint. Assess if the completed tasks align with this goal."; nl;
      lit "3.  **Team Sentiment (Optional):** User's input on the team's general mood or significant non-task events. Incorporate this into the tone and focus of the retrospective."; nl;
      lit "4.  **Additional Notes (Optional):** Other observations like commit summaries or external factors. Use this to enrich the context."; nl;
      nl;
      lit "Based on all available inputs, generate a balanced and constructive retrospective. Structure your response strictly according to the SprintRetrospectiveOutputSchema."; nl;
      nl;
      lit "Your Analysis Steps:"; nl;
      lit "1.  **Sprint Summary:** Write a concise (2-3 sentences) overview of the sprint. Mention if the sprint goal (if provided) was met, and give a general sense of accomplishment based on task completion."; nl;
      lit "2.  **What Went Well:** Identify 3-5 positive aspects. Consider:"; nl;
      lit "    *   Successfully completed tasks, especially high-priority ones or those aligned with the sprint goal."; nl;
      lit "    *   Positive team sentiment or collaboration mentioned."; nl;
      lit "    *   Efficient handling of certain task types (if discernible from descriptions/categories)."; nl;
      lit "    *   Overcoming challenges mentioned in notes."; nl;
      lit "3.  **What Could Be Improved:** Identify 3-5 areas for improvement. Consider:"; nl;
      lit "    *   Tasks not completed, especially if high-priority or goal-related."; nl;
      lit "    *   Potential bottlenecks (e.g., many tasks stuck 'In Review', or tasks with high effort still 'In Progress')."; nl;
      lit "    *   Negative team sentiment or challenges mentioned."; nl;
      lit "    *   Deviation from the sprint goal."; nl;
      lit "    *   Recurring issues if patterns are visible in task descriptions/categories (e.g., "; dq; lit "multiple bug fixes related to X component"; dq; lit ")."; nl;
      lit "4.  **Action Items:** Suggest 2-3 concrete, actionable steps for the next sprint based on "; dq; lit "What Could Be Improved."; dq; lit " Make them specific and achievable. For example, instead of "; dq; lit "Improve testing,"; dq; lit " suggest "; dq; lit "Dedicate specific time for integration testing before sprint review."; dq; nl;
      nl;
      lit "Input Details:"; nl;
      lit "Tasks JSON:"; nl ].

Definition sprintRetrospectivePrompt_text2 : jsstring :=
  concat
    [ nl;
      nl ].

Definition sprintRetrospectivePrompt_text3 : jsstring :=
  nl.

Definition sprintRetrospectivePrompt_text4 : jsstring :=
  nl.

Definition sprintRetrospectivePrompt_text5 : jsstring :=
  concat
    [ nl;
      lit "Provide a thoughtful and objective retrospective. Focus on processes and outcomes, not on blaming individuals."; nl;
      lit "Ensure each section (whatWentWell, whatCouldBeImproved, actionItems) contains distinct points."; nl ].

(** The template of [sprintRetrospectivePrompt]. *)
Definition sprintRetrospectivePrompt : Template :=
  [ Text sprintRetrospectivePrompt_text1;
    Raw "tasksJson";
    Text sprintRetrospectivePrompt_text2;
    If "sprintGoal"
      [ Text (concat
              [ lit "Sprint Goal:"; nl ]);
        Raw "sprintGoal";
        Text nl ];
    Text sprintRetrospectivePrompt_text3;
    If "teamSentiment"
      [ Text (concat
              [ lit "Team Sentiment:"; nl ]);
        Raw "teamSentiment";
        Text nl ];
    Text sprintRetrospectivePrompt_text4;
    If "additionalNotes"
      [ Text (concat
              [ lit "Additional Notes:"; nl ]);
        Raw "additionalNotes";
        Text nl ];
    Text sprintRetrospectivePrompt_text5 ].

Definition prompt : Model SprintRetrospectiveOutput -> SprintRetrospectiveInput
                    -> Async (option SprintRetrospectiveOutput) :=
  definePrompt sprintRetrospectivePrompt context.

(** The flow first runs [JSON.parse(input.tasksJson)] inside a
    [try]/[catch] whose two outcomes only differ in what is logged;
    the prompt call follows in both. *)
Definition generateSprintRetrospectiveFlow (model : Model SprintRetrospectiveOutput)
  : SprintRetrospectiveInput -> Async SprintRetrospectiveOutput :=
  defineFlow SprintRetrospectiveInputSchema (fun input =>
    output ← prompt model input;
    match output with
    | None => throw (JsError (lit "AI did not return a valid sprint retrospective."))
    | Some output => mret output
    end).

Definition generateSprintRetrospective (model : Model SprintRetrospectiveOutput)
    (input : SprintRetrospectiveInput) : Async SprintRetrospectiveOutput :=
  generateSprintRetrospectiveFlow model input.
End RetrospectiveFlow.

(** ** types/index.ts *)
Module Types.
Inductive Priority : Type := Low | Medium | High | Critical.

Definition priorityText (p : Priority) : jsstring :=
  match p with
  | Low => lit "Low"
  | Medium => lit "Medium"
  | High => lit "High"
  | Critical => lit "Critical"
  end.

(** [createdAt] is a [Date], kept as its milliseconds since the epoch. *)
Record Task (num : Type) : Type := {
  id : jsstring;
  title : jsstring;
  description : jsstring;
  status : jsstring;
  category : option jsstring;
  createdAt : Z;
  assignee : option jsstring;
  projectId : jsstring;
  priority : option Priority;
  effort : option num
}.
Arguments id {num} t.
Arguments title {num} t.
Arguments description {num} t.
Arguments status {num} t.
Arguments category {num} t.
Arguments createdAt {num} t.
Arguments assignee {num} t.
Arguments projectId {num} t.
Arguments priority {num} t.
Arguments effort {num} t.
End Types.

(** ** contexts/AuthContext.tsx and hooks/use-toast *)
Module AuthContext.
Record User : Type := {
  id : jsstring;
  email : jsstring;
  name : jsstring;
  avatar : option jsstring
}.
End AuthContext.

Module UseToast.
Inductive Variant : Type := default | destructive.

Record Toast : Type := {
  variant : Variant;
  title : jsstring;
  description : jsstring
}.
End UseToast.

(** [getUserScopedKey] of the pages. *)
Definition getUserScopedKey (baseKey : jsstring) (userId : option jsstring) : jsstring :=
  match userId with
  | Some userId =>
      if nonEmpty userId then baseKey ++ lit "-" ++ userId
      else baseKey ++ lit "-unauthenticated"
  | None => baseKey ++ lit "-unauthenticated"
  end.

(** ** app/sprint-planner/page.tsx *)
Module SprintPlannerPage.
Section WithNumber.
Context {num : Type} `{JsNumber num}.

Abbreviation SprintPlanInput := (SprintPlannerFlow.SprintPlanInput num).
Abbreviation SprintPlanOutput := SprintPlannerFlow.SprintPlanOutput.
Abbreviation Task := (Types.Task num).

(** [SprintPlanInputClientSchema], on the form values after the
    [preprocess] step has turned the capacity input into a number or
    [undefined]. *)
Definition SprintPlanInputClientSchema (values : SprintPlanInput) : list Issue :=
  minLength "tasksText" 1 (lit "Tasks text cannot be empty.")
    (SprintPlannerFlow.tasksText values)
  ++ match SprintPlannerFlow.teamStoryPointCapacity values with
     | Some n =>
         if nonnegative n then []
         else [ {| path := "teamStoryPointCapacity";
                   constraint := lit "Story points must be non-negative." |} ]
     | None => []
     end.

(** The issue this schema raises on an empty task list. *)
Definition emptyTasksText : Issue :=
  {| path := "tasksText"; constraint := lit "Tasks text cannot be empty." |}.

(** The component's state ([useState], [useForm]) and the toasts it
    has raised, oldest first. *)
Record PageState : Type := {
  aiResponse : option SprintPlanOutput;
  isSubmittingToAI : bool;
  isFetchingProjectTasks : bool;
  form : SprintPlanInput;
  formErrors : list Issue;
  toasts : list UseToast.Toast
}.

Definition setAiResponse (v : option SprintPlanOutput) (st : PageState) : PageState :=
  {| aiResponse := v; isSubmittingToAI := isSubmittingToAI st;
     isFetchingProjectTasks := isFetchingProjectTasks st; form := form st;
     formErrors := formErrors st; toasts := toasts st |}.

Definition setIsSubmittingToAI (v : bool) (st : PageState) : PageState :=
  {| aiResponse := aiResponse st; isSubmittingToAI := v;
     isFetchingProjectTasks := isFetchingProjectTasks st; form := form st;
     formErrors := formErrors st; toasts := toasts st |}.

Definition setIsFetchingProjectTasks (v : bool) (st : PageState) : PageState :=
  {| aiResponse := aiResponse st; isSubmittingToAI := isSubmittingToAI st;
     isFetchingProjectTasks := v; form := form st;
     formErrors := formErrors st; toasts := toasts st |}.

Definition toast (t : UseToast.Toast) (st : PageState) : PageState :=
  {| aiResponse := aiResponse st; isSubmittingToAI := isSubmittingToAI st;
     isFetchingProjectTasks := isFetchingProjectTasks st; form := form st;
     formErrors := formErrors st; toasts := toasts st ++ [t] |}.

Definition setFormErrors (v : list Issue) (st : PageState) : PageState :=
  {| aiResponse := aiResponse st; isSubmittingToAI := isSubmittingToAI st;
     isFetchingProjectTasks := isFetchingProjectTasks st; form := form st;
     formErrors := v; toasts := toasts st |}.

(** [form.setValue('tasksText', v)]. *)
Definition form_setValue_tasksText (v : jsstring) (st : PageState) : PageState :=
  {| aiResponse := aiResponse st; isSubmittingToAI := isSubmittingToAI st;
     isFetchingProjectTasks := isFetchingProjectTasks st;
     form := {| SprintPlannerFlow.tasksText := v;
                SprintPlannerFlow.sprintDuration := SprintPlannerFlow.sprintDuration (form st);
                SprintPlannerFlow.teamSize := SprintPlannerFlow.teamSize (form st);
                SprintPlannerFlow.teamStoryPointCapacity :=
                  SprintPlannerFlow.teamStoryPointCapacity (form st);
                SprintPlannerFlow.sprintGoal := SprintPlannerFlow.sprintGoal (form st) |};
     formErrors := formErrors st; toasts := toasts st |}.

(** The callback of [todoTasks.map(...)]. *)
Definition formatTask (task : Task) : jsstring :=
  let title := orElse (Types.title task) (lit "Untitled Task") in
  let priority :=
    match Types.priority task with
    | Some p => Types.priorityText p
    | None => lit "N/A"
    end in
  let effort :=
    match Types.effort task with
    | Some n => if toBoolean n then numberToString n else lit "0"
    | None => lit "0"
    end in
  title ++ lit " " ++ endash ++ lit " " ++ priority
        ++ lit " " ++ endash ++ lit " " ++ effort.

Definition isToDo (task : Task) : bool :=
  bool_decide (Types.status task = lit "To Do").

(** The [try] block of [handleFetchProjectTasks] after
    [await getTasksByProjectId(...)] has given [projectTasks]. *)
Definition loadProjectTasks (projectTasks : list Task) (st : PageState) : PageState :=
  if (0 <? length projectTasks)%nat then
    let todoTasks := filter (fun task => isToDo task = true) projectTasks in
    if (0 <? length todoTasks)%nat then
      let formattedTasks := join nl (map formatTask todoTasks) in
      toast {| UseToast.variant := UseToast.default;
               UseToast.title := lit "Tasks Loaded";
               UseToast.description := lit "'To Do' tasks from your active project have been loaded. Format: Title " ++ endash ++ lit " Priority " ++ endash ++ lit " Story Points." |}
        (form_setValue_tasksText formattedTasks st)
    else
      toast {| UseToast.variant := UseToast.default;
               UseToast.title := lit "No 'To Do' Tasks";
               UseToast.description := lit "No tasks found in the 'To Do' column of your active project." |}
        (form_setValue_tasksText [] st)
  else
    toast {| UseToast.variant := UseToast.default;
             UseToast.title := lit "No Tasks Found";
             UseToast.description := lit "No tasks found for the active project in Firestore." |}
      (form_setValue_tasksText [] st).

(** [handleFetchProjectTasks]; [getTasksByProjectId] is the server
    action the page imports, given as how its promise settles. *)
Definition handleFetchProjectTasks
    (user : option AuthContext.User)
    (localStorage : gmap jsstring jsstring)
    (getTasksByProjectId : jsstring -> jsstring -> Settled (list Task))
    (st : PageState) : PageState :=
  match user with
  | None =>
      toast {| UseToast.variant := UseToast.destructive;
               UseToast.title := lit "Error";
               UseToast.description := lit "You must be logged in to load project tasks." |} st
  | Some user =>
      if negb (nonEmpty (AuthContext.id user)) then
        toast {| UseToast.variant := UseToast.destructive;
                 UseToast.title := lit "Error";
                 UseToast.description := lit "You must be logged in to load project tasks." |} st
      else
        let st := setIsFetchingProjectTasks true st in
        let activeProjectIdKey :=
          getUserScopedKey (lit "taskMasterActiveProjectId") (Some (AuthContext.id user)) in
        let activeProjectId := localStorage !! activeProjectIdKey in
        match activeProjectId with
        | Some activeProjectId =>
            if nonEmpty activeProjectId then
              let st :=
                match getTasksByProjectId activeProjectId (AuthContext.id user) with
                | Fulfilled projectTasks => loadProjectTasks projectTasks st
                | Rejected error =>
                    toast {| UseToast.variant := UseToast.destructive;
                             UseToast.title := lit "Error Loading Tasks";
                             UseToast.description := lit "Could not load tasks. Check console logs." |} st
                end in
              setIsFetchingProjectTasks false st
            else
              setIsFetchingProjectTasks false
                (toast {| UseToast.variant := UseToast.destructive;
                          UseToast.title := lit "No Active Project";
                          UseToast.description := lit "Please select a project on the board page first." |} st)
        | None =>
            setIsFetchingProjectTasks false
              (toast {| UseToast.variant := UseToast.destructive;
                        UseToast.title := lit "No Active Project";
                        UseToast.description := lit "Please select a project on the board page first." |} st)
        end
  end.

(** The message of the [catch] clause of [onSubmit]. *)
Definition errorMessage (error : Thrown) : jsstring :=
  let errorMessage := lit "Could not generate sprint plan. Please try again." in
  match error with
  | JsError message =>
      if isServiceError message then
        serviceUnavailableMessage
          (match serviceErrorMatch message with
           | Some m => orElse m (lit "Error")
           | None => lit "Error"
           end)
      else if isTaggedAIError message then message
      else orElse message errorMessage
  | NotAnError => errorMessage
  end.

(** [onSubmit] before its [await]. *)
Definition onSubmit_begin (st : PageState) : PageState :=
  setAiResponse None (setIsSubmittingToAI true st).

(** [onSubmit] once [suggestSprintPlan(data)] has settled: the rest of
    the [try] block or the [catch] clause, then [finally]. *)
Definition onSubmit_settle (response : Settled SprintPlanOutput)
    (st : PageState) : PageState :=
  let st :=
    match response with
    | Fulfilled response =>
        toast {| UseToast.variant := UseToast.default;
                 UseToast.title := lit "Sprint Plan Suggested!";
                 UseToast.description := lit "The AI has generated a sprint plan for you." |}
          (setAiResponse (Some response) st)
    | Rejected error =>
        setAiResponse None
          (toast {| UseToast.variant := UseToast.destructive;
                    UseToast.title := lit "AI Error";
                    UseToast.description := errorMessage error |} st)
    end in
  setIsSubmittingToAI false st.

(** One submission run to its end: the page state afterwards and the
    prompts that reached the model. *)
Definition onSubmit (model : Model SprintPlanOutput) (data : SprintPlanInput)
    (st : PageState) : PageState * list jsstring :=
  let call := SprintPlannerFlow.suggestSprintPlan model data in
  (onSubmit_settle (settled call) (onSubmit_begin st), sentUpstream call).

(** [form.handleSubmit(onSubmit)]: the resolver checks the form values
    against the client schema and [onSubmit] runs only when they pass. *)
Definition handleSubmit (model : Model SprintPlanOutput) (st : PageState)
  : PageState * list jsstring :=
  match SprintPlanInputClientSchema (form st) with
  | [] => onSubmit model (form st) (setFormErrors [] st)
  | issues => (setFormErrors issues st, [])
  end.
End WithNumber.
Arguments PageState : clear implicits.
End SprintPlannerPage.

(** ** app/scope-creep-detector/page.tsx *)
Module ScopeCreepPage.
Abbreviation ScopeCreepOutput := ScopeCreepFlow.ScopeCreepOutput.

(** The part of the component's state that [onSubmit] writes, and the
    toasts raised, oldest first. *)
Record PageState : Type := {
  aiResponse : option ScopeCreepOutput;
  isSubmittingToAI : bool;
  toasts : list UseToast.Toast
}.

(** [onSubmit] once [detectScopeCreep(data)] has settled. *)
Definition onSubmit_settle (response : Settled ScopeCreepOutput)
    (st : PageState) : PageState :=
  match response with
  | Fulfilled response =>
      {| aiResponse := Some response;
         isSubmittingToAI := false;
         toasts := toasts st ++
           [ {| UseToast.variant := UseToast.default;
                UseToast.title := lit "Scope Analysis Complete!";
                UseToast.description := lit "The AI has analyzed the sprint scope." |} ] |}
  | Rejected error =>
      {| aiResponse :=
           Some {| ScopeCreepFlow.analysisReport := lit "Error generating analysis.";
                   ScopeCreepFlow.creepLevel := ScopeCreepFlow.CreepLevel_None;
                   ScopeCreepFlow.recommendations := Some (lit "An unexpected error occurred.") |};
         isSubmittingToAI := false;
         toasts := toasts st ++
           [ {| UseToast.variant := UseToast.destructive;
                UseToast.title := lit "AI Error";
                UseToast.description := lit "Could not analyze scope. Please try again." |} ] |}
  end.

Definition onSubmit (model : Model ScopeCreepOutput)
    (data : ScopeCreepFlow.ScopeCreepInput) (st : PageState)
  : PageState * list jsstring :=
  let st := {| aiResponse := None; isSubmittingToAI := true; toasts := toasts st |} in
  let call := ScopeCreepFlow.detectScopeCreep model data in
  (onSubmit_settle (settled call) st, sentUpstream call).
End ScopeCreepPage.

(** ** lib/firebase.ts and lib/actions/taskActions.ts *)
Module TaskActions.
Section WithNumber.
Context {num : Type}.

Abbreviation Task := (Types.Task num).

(** The fields of [FirebaseOptions] that [areEssentialConfigsPresent]
    reads. *)
Record FirebaseOptions : Type := {
  apiKey : option jsstring;
  authDomain : option jsstring;
  projectId : option jsstring;
  appId : option jsstring
}.

Definition truthy (v : option jsstring) : bool :=
  match v with Some s => nonEmpty s | None => false end.

Definition areEssentialConfigsPresent (config : FirebaseOptions) : bool :=
  truthy (apiKey config) && truthy (authDomain config)
  && truthy (projectId config) && truthy (appId config).

(** A document of [projects]: the task actions read its [ownerId]
    only, which a document may lack. *)
Record ProjectDoc : Type := { ownerId : option jsstring }.

(** The database: [projects/{projectId}] and
    [projects/{projectId}/tasks/{taskId}].  A task document holds the
    fields of a [Task] (its own [id] field is the document id);
    [createdAt] is stored as a timestamp. *)
Record Firestore : Type := {
  projects : gmap jsstring ProjectDoc;
  tasks : gmap (jsstring * jsstring) Task
}.

(** Requests made to the database. *)
Inductive Request : Type :=
  | GetProject (projectId : jsstring)
  | QueryTasks (projectId : jsstring)
  | SetTask (projectId taskId : jsstring)
  | DeleteTask (projectId taskId : jsstring).

(** The server's world: its configuration, whether the SDK can hand
    out a database handle, the database, the requests made so far, and
    for the requests to come whether each one fails (a request beyond
    the list succeeds). *)
Record World : Type := {
  firebaseConfig : FirebaseOptions;
  sdkWorks : bool;
  store : Firestore;
  requests : list Request;
  faults : list bool
}.

(** A server action in progress: state passing with exceptions. *)
Definition Action (A : Type) : Type := World -> Completion A * World.

#[export] Instance Action_ret : MRet Action := fun A a w => (Normal a, w).

#[export] Instance Action_bind : MBind Action := fun A B k m w =>
  match m w with
  | (Normal a, w') => k a w'
  | (Abrupt error, w') => (Abrupt error, w')
  end.

Definition tryCatch {A} (m : Action A) (handler : Thrown -> Action A) : Action A :=
  fun w =>
    match m w with
    | (Normal a, w') => (Normal a, w')
    | (Abrupt error, w') => handler error w'
    end.

(** One request: it is recorded, fails if the world says so, and
    otherwise runs [effect] on the database. *)
Definition request {A} (r : Request) (effect : Firestore -> A * Firestore)
  : Action A :=
  fun w =>
    let fails := match faults w with b :: _ => b | [] => false end in
    if fails then
      (Abrupt (JsError (lit "FirebaseError")),
       {| firebaseConfig := firebaseConfig w; sdkWorks := sdkWorks w;
          store := store w; requests := requests w ++ [r];
          faults := tail (faults w) |})
    else
      let '(a, db) := effect (store w) in
      (Normal a,
       {| firebaseConfig := firebaseConfig w; sdkWorks := sdkWorks w;
          store := db; requests := requests w ++ [r];
          faults := tail (faults w) |}).

Inductive Db : Type := db.

(** [_getDbInstance]: [null] without the essential configuration or
    when [initializeFirebaseFromConfig] gets no handle from the SDK
    (its exceptions are caught there).  The cached app and database
    instances only save repeated initialisation. *)
Definition _getDbInstance : Action (option Db) :=
  fun w =>
    if negb (areEssentialConfigsPresent (firebaseConfig w)) then (Normal None, w)
    else if sdkWorks w then (Normal (Some db), w)
    else (Normal None, w).

(** [getDoc(doc(db, 'projects', projectId))]. *)
Definition getDoc_project (projectId : jsstring) : Action (option ProjectDoc) :=
  request (GetProject projectId) (fun fs => (projects fs !! projectId, fs)).

(** Insertion of a task into a list sorted by [createdAt], latest first. *)
Fixpoint insertByCreatedAtDesc (t : Task) (l : list Task) : list Task :=
  match l with
  | [] => [t]
  | t' :: l' =>
      if (Types.createdAt t' <? Types.createdAt t)%Z then t :: l
      else t' :: insertByCreatedAtDesc t l'
  end.

Definition tasksOf (fs : Firestore) (projectId : jsstring) : list (jsstring * Task) :=
  omap (fun '((p, taskId), t) =>
          if bool_decide (p = projectId) then Some (taskId, t) else None)
       (map_to_list (tasks fs)).

(** The rebuilding of a [Task] from a document snapshot:
    [id: docSnap.id], [projectId: projectId], the other fields from
    the data. *)
Definition taskOfSnapshot (projectId : jsstring) (snap : jsstring * Task) : Task :=
  let '(docId, data) := snap in
  {| Types.id := docId;
     Types.title := Types.title data;
     Types.description := Types.description data;
     Types.status := Types.status data;
     Types.category := Types.category data;
     Types.createdAt := Types.createdAt data;
     Types.assignee := Types.assignee data;
     Types.projectId := projectId;
     Types.priority := Types.priority data;
     Types.effort := Types.effort data |}.

(** [getDocs(query(tasksColRef, orderBy('createdAt', 'desc')))]
    followed by the [forEach] that rebuilds the tasks. *)
Definition getDocs_tasks (projectId : jsstring) : Action (list Task) :=
  request (QueryTasks projectId) (fun fs =>
    (foldr insertByCreatedAtDesc []
       (map (taskOfSnapshot projectId) (tasksOf fs projectId)), fs)).

(** [setDoc(taskRef, updateData, { merge: true })]: the fields given
    replace those of the document, the others stay; a missing
    document is created. *)
Definition mergeTask (updateData : Task) (old : option Task) : Task :=
  match old with
  | None => updateData
  | Some old =>
      {| Types.id := Types.id updateData;
         Types.title := Types.title updateData;
         Types.description := Types.description updateData;
         Types.status := Types.status updateData;
         Types.category :=
           match Types.category updateData with Some c => Some c | None => Types.category old end;
         Types.createdAt := Types.createdAt updateData;
         Types.assignee :=
           match Types.assignee updateData with Some a => Some a | None => Types.assignee old end;
         Types.projectId := Types.projectId updateData;
         Types.priority :=
           match Types.priority updateData with Some p => Some p | None => Types.priority old end;
         Types.effort :=
           match Types.effort updateData with Some e => Some e | None => Types.effort old end |}
  end.

Definition setDoc_task (projectId taskId : jsstring) (updateData : Task) : Action unit :=
  request (SetTask projectId taskId) (fun fs =>
    (tt, {| projects := projects fs;
            tasks := <[ (projectId, taskId) :=
                        mergeTask updateData (tasks fs !! (projectId, taskId)) ]> (tasks fs) |})).

Definition deleteDoc_task (projectId taskId : jsstring) : Action unit :=
  request (DeleteTask projectId taskId) (fun fs =>
    (tt, {| projects := projects fs;
            tasks := delete (projectId, taskId) (tasks fs) |})).

(** [!projectSnap.exists() || projectSnap.data()?.ownerId !== userId]. *)
Definition notOwnedBy (userId : jsstring) (projectSnap : option ProjectDoc) : bool :=
  match projectSnap with
  | None => true
  | Some data => negb (bool_decide (ownerId data = Some userId))
  end.

Definition getTasksByProjectId (projectId userId : jsstring) : Action (list Task) :=
  tryCatch
    (db ← _getDbInstance;
     match db with
     | None => mret []
     | Some db =>
         if negb (nonEmpty userId) || negb (nonEmpty projectId) then mret []
         else
           projectSnap ← getDoc_project projectId;
           if notOwnedBy userId projectSnap then mret []
           else getDocs_tasks projectId
     end)
    (fun error => mret []).

Definition updateTask (taskData : Task) (userId : jsstring) : Action (option Task) :=
  tryCatch
    (db ← _getDbInstance;
     match db with
     | None => mret None
     | Some db =>
         if negb (nonEmpty userId) || negb (nonEmpty (Types.projectId taskData))
            || negb (nonEmpty (Types.id taskData))
         then mret None
         else
           projectSnap ← getDoc_project (Types.projectId taskData);
           if notOwnedBy userId projectSnap then mret None
           else
             _ ← setDoc_task (Types.projectId taskData) (Types.id taskData) taskData;
             mret (Some taskData)
     end)
    (fun error => mret None).

Definition deleteTask (projectId taskId userId : jsstring) : Action bool :=
  tryCatch
    (db ← _getDbInstance;
     match db with
     | None => mret false
     | Some db =>
         if negb (nonEmpty userId) || negb (nonEmpty projectId)
            || negb (nonEmpty taskId)
         then mret false
         else
           projectSnap ← getDoc_project projectId;
           if notOwnedBy userId projectSnap then mret false
           else
             _ ← deleteDoc_task projectId taskId;
             mret true
     end)
    (fun error => mret false).

(** A request that reads or writes the tasks of [projectId]. *)
Definition touchesTasksOf (projectId : jsstring) (r : Request) : bool :=
  match r with
  | GetProject _ => false
  | QueryTasks p => bool_decide (p = projectId)
  | SetTask p _ => bool_decide (p = projectId)
  | DeleteTask p _ => bool_decide (p = projectId)
  end.
(** What the task actions leave behind when the project check turns
    the caller away: the failure value, the database as it was, and at
    most the request for the project document. *)
Definition guardedOutcome {A} (w : World) (projectId : jsstring)
    (failure : A) (run : Completion A * World) : Prop :=
  fst run = Normal failure
  /\ store (snd run) = store w
  /\ (requests (snd run) = requests w
      \/ requests (snd run) = requests w ++ [GetProject projectId]).
End WithNumber.
Arguments Firestore : clear implicits.
Arguments World : clear implicits.
Arguments Action : clear implicits.
End TaskActions.

(** ** Sample data

    Scenario 1 of the specification (a task list with a repeated
    line), and answers of the model used in the examples below. *)
Module Samples.
Definition taskLine (title priority points : string) : jsstring :=
  lit title ++ lit " " ++ endash ++ lit " " ++ lit priority
  ++ lit " " ++ endash ++ lit " " ++ lit points.

Definition scenario1 : SprintPlannerFlow.SprintPlanInput Z :=
  {| SprintPlannerFlow.tasksText :=
       taskLine "Fix bug" "High" "3" ++ nl ++ taskLine "Fix bug" "High" "3" ++ nl
       ++ taskLine "Write docs" "Low" "1";
     SprintPlannerFlow.sprintDuration := Some (lit "2 weeks");
     SprintPlannerFlow.teamSize := None;
     SprintPlannerFlow.teamStoryPointCapacity := None;
     SprintPlannerFlow.sprintGoal := None |}.

Definition noTasks : SprintPlannerFlow.SprintPlanInput Z :=
  {| SprintPlannerFlow.tasksText := [];
     SprintPlannerFlow.sprintDuration := None;
     SprintPlannerFlow.teamSize := None;
     SprintPlannerFlow.teamStoryPointCapacity := None;
     SprintPlannerFlow.sprintGoal := None |}.

Definition withCapacity (capacity : option Z) : SprintPlannerFlow.SprintPlanInput Z :=
  {| SprintPlannerFlow.tasksText := taskLine "Fix bug" "High" "3";
     SprintPlannerFlow.sprintDuration := None;
     SprintPlannerFlow.teamSize := None;
     SprintPlannerFlow.teamStoryPointCapacity := capacity;
     SprintPlannerFlow.sprintGoal := None |}.

Definition planWithoutHeading : SprintPlannerFlow.SprintPlanOutput :=
  {| SprintPlannerFlow.sprintPlan := lit "Selected: Fix bug, Write docs";
     SprintPlannerFlow.warningsOrSuggestions := None |}.

Definition planWithHeading : SprintPlannerFlow.SprintPlanOutput :=
  {| SprintPlannerFlow.sprintPlan :=
       lit "## Sprint Plan" ++ nl ++ lit "- Fix bug" ++ nl ++ lit "## Deferred Tasks" ++ nl ++ lit "None";
     SprintPlannerFlow.warningsOrSuggestions := None |}.

Definition answers {O} (reply : Reply O) : Model O := fun _ => reply.

Definition freshPage : SprintPlannerPage.PageState Z :=
  {| SprintPlannerPage.aiResponse := None;
     SprintPlannerPage.isSubmittingToAI := false;
     SprintPlannerPage.isFetchingProjectTasks := false;
     SprintPlannerPage.form := noTasks;
     SprintPlannerPage.formErrors := [];
     SprintPlannerPage.toasts := [] |}.

(** A page that still shows the plan of an earlier submission. *)
Definition pageWithPlan : SprintPlannerPage.PageState Z :=
  {| SprintPlannerPage.aiResponse := Some planWithHeading;
     SprintPlannerPage.isSubmittingToAI := false;
     SprintPlannerPage.isFetchingProjectTasks := false;
     SprintPlannerPage.form := scenario1;
     SprintPlannerPage.formErrors := [];
     SprintPlannerPage.toasts := [] |}.

(** Current tasks that hold every original line and one more. *)
Definition grownSprint : ScopeCreepFlow.ScopeCreepInput :=
  {| ScopeCreepFlow.currentTasksText := lit "Login page" ++ nl ++ lit "Export to CSV";
     ScopeCreepFlow.originalTasksText := Some (lit "Login page");
     ScopeCreepFlow.sprintGoal := None |}.

Definition noCurrentTasks : ScopeCreepFlow.ScopeCreepInput :=
  {| ScopeCreepFlow.currentTasksText := [];
     ScopeCreepFlow.originalTasksText := None;
     ScopeCreepFlow.sprintGoal := None |}.

Definition noCreepFound : ScopeCreepFlow.ScopeCreepOutput :=
  {| ScopeCreepFlow.analysisReport := lit "Scope is stable.";
     ScopeCreepFlow.creepLevel := ScopeCreepFlow.CreepLevel_None;
     ScopeCreepFlow.recommendations := None |}.

Definition freshScopePage : ScopeCreepPage.PageState :=
  {| ScopeCreepPage.aiResponse := None;
     ScopeCreepPage.isSubmittingToAI := false;
     ScopeCreepPage.toasts := [] |}.

(** A project of Alice with three tasks, one of them without a title,
    priority or effort. *)
Definition alice : AuthContext.User :=
  {| AuthContext.id := lit "mock-user-alice-at-example.com";
     AuthContext.email := lit "alice@example.com";
     AuthContext.name := lit "alice";
     AuthContext.avatar := None |}.

Definition task (taskId title status : string) (createdAt : Z)
    (priority : option Types.Priority) (effort : option Z) : Types.Task Z :=
  {| Types.id := lit taskId;
     Types.title := lit title;
     Types.description := [];
     Types.status := lit status;
     Types.category := None;
     Types.createdAt := createdAt;
     Types.assignee := None;
     Types.projectId := lit "proj-1";
     Types.priority := priority;
     Types.effort := effort |}.

Definition loginTask : Types.Task Z :=
  task "task-1" "Login page" "To Do" 1000 (Some Types.High) (Some 5%Z).

Definition untitledTask : Types.Task Z :=
  task "task-2" EmptyString "To Do" 2000 None None.

Definition doneTask : Types.Task Z :=
  task "task-3" "Set up CI" "Done" 3000 (Some Types.Medium) (Some 3%Z).

Definition localStorage : gmap jsstring jsstring :=
  {[ getUserScopedKey (lit "taskMasterActiveProjectId") (Some (AuthContext.id alice))
     := lit "proj-1" ]}.

Definition firestore : TaskActions.Firestore Z :=
  {| TaskActions.projects :=
       {[ lit "proj-1" := {| TaskActions.ownerId := Some (AuthContext.id alice) |} ]};
     TaskActions.tasks :=
       {[ (lit "proj-1", lit "task-1") := loginTask;
          (lit "proj-1", lit "task-2") := untitledTask;
          (lit "proj-1", lit "task-3") := doneTask ]} |}.

Definition server : TaskActions.World Z :=
  {| TaskActions.firebaseConfig :=
       {| TaskActions.apiKey := Some (lit "key");
          TaskActions.authDomain := Some (lit "example.firebaseapp.com");
          TaskActions.projectId := Some (lit "example");
          TaskActions.appId := Some (lit "1:2:web:3") |};
     TaskActions.sdkWorks := true;
     TaskActions.store := firestore;
     TaskActions.requests := [];
     TaskActions.faults := [] |}.

(** The server action as the page sees it, run against [server]. *)
Definition getTasksByProjectId (projectId userId : jsstring)
  : Settled (list (Types.Task Z)) :=
  match fst (TaskActions.getTasksByProjectId projectId userId server) with
  | Normal tasks => Fulfilled tasks
  | Abrupt error => Rejected error
  end.
End Samples.

(** ** lib/actions/taskActions.ts: addTask, and the worlds the actions
    run in *)
Module TaskActionsAdd.
Section WithNumber.
Context {num : Type}.

Abbreviation Task := (Types.Task num).
Abbreviation World := (TaskActions.World num).

#[local] Existing Instance TaskActions.Action_ret.
#[local] Existing Instance TaskActions.Action_bind.

(** [Omit<Task, 'id' | 'createdAt'>]; an optional field that is [None]
    is a key the object does not have. *)
Record TaskData : Type := {
  title : jsstring;
  description : jsstring;
  status : jsstring;
  category : option jsstring;
  assignee : option jsstring;
  projectId : jsstring;
  priority : option Types.Priority;
  effort : option num
}.

(** [{ ...taskData, id, createdAt }]. *)
Definition withIdAndCreatedAt (taskData : TaskData) (id : jsstring) (createdAt : Z)
  : Task :=
  {| Types.id := id;
     Types.title := title taskData;
     Types.description := description taskData;
     Types.status := status taskData;
     Types.category := category taskData;
     Types.createdAt := createdAt;
     Types.assignee := assignee taskData;
     Types.projectId := projectId taskData;
     Types.priority := priority taskData;
     Types.effort := effort taskData |}.

(** [setDoc(taskDocRef, taskToSaveInFirestore)] without [merge]: the
    document is replaced.  [serverTimestamp()] is stored as the time
    the server writes at. *)
Definition setDoc_newTask (projectId taskId : jsstring) (taskToSave : Task)
  : TaskActions.Action num unit :=
  TaskActions.request (TaskActions.SetTask projectId taskId) (fun fs =>
    (tt, {| TaskActions.projects := TaskActions.projects fs;
            TaskActions.tasks :=
              <[ (projectId, taskId) := taskToSave ]> (TaskActions.tasks fs) |})).

(** [addTask]; [randomUUID] is what [crypto.randomUUID()] gives,
    [serverTime] what [serverTimestamp()] becomes in the document and
    [now] what [new Date()] is when the action returns. *)
Definition addTask (taskData : TaskData) (userId : jsstring)
    (randomUUID : jsstring) (serverTime now : Z) : TaskActions.Action num (option Task) :=
  TaskActions.tryCatch
    (db ← TaskActions._getDbInstance;
     match db with
     | None => mret None
     | Some db =>
         if negb (nonEmpty userId) || negb (nonEmpty (projectId taskData))
         then mret None
         else
           projectSnap ← TaskActions.getDoc_project (projectId taskData);
           if TaskActions.notOwnedBy userId projectSnap then mret None
           else
             let newTaskId := lit "task-" ++ randomUUID in
             let taskToSaveInFirestore :=
               withIdAndCreatedAt taskData newTaskId serverTime in
             _ ← setDoc_newTask (projectId taskData) newTaskId taskToSaveInFirestore;
             mret (Some (withIdAndCreatedAt taskData newTaskId now))
     end)
    (fun error => mret None).

(** The server can hand out a database handle. *)
Definition ready (w : World) : bool :=
  TaskActions.areEssentialConfigsPresent (TaskActions.firebaseConfig w)
  && TaskActions.sdkWorks w.

(** The next request of [w] fails. *)
Definition nextFails (w : World) : bool :=
  match TaskActions.faults w with b :: _ => b | [] => false end.

(** The world after request [r] was made, with [fs] as the database. *)
Definition after (r : TaskActions.Request) (fs : TaskActions.Firestore num) (w : World)
  : World :=
  {| TaskActions.firebaseConfig := TaskActions.firebaseConfig w;
     TaskActions.sdkWorks := TaskActions.sdkWorks w;
     TaskActions.store := fs;
     TaskActions.requests := TaskActions.requests w ++ [r];
     TaskActions.faults := tail (TaskActions.faults w) |}.

(** The database with the task documents [tasks]. *)
Definition withTasks (fs : TaskActions.Firestore num)
    (tasks : gmap (jsstring * jsstring) Task) : TaskActions.Firestore num :=
  {| TaskActions.projects := TaskActions.projects fs; TaskActions.tasks := tasks |}.

(** The project exists and [userId] owns it. *)
Definition owns (fs : TaskActions.Firestore num) (userId projectId : jsstring) : Prop :=
  exists doc, TaskActions.projects fs !! projectId = Some doc
              /\ TaskActions.ownerId doc = Some userId.

(** [getDocs] on the tasks of [projectId], as [getTasksByProjectId]
    returns them. *)
Definition tasksInOrder (fs : TaskActions.Firestore num) (projectId : jsstring)
  : list Task :=
  foldr TaskActions.insertByCreatedAtDesc []
    (map (TaskActions.taskOfSnapshot projectId) (TaskActions.tasksOf fs projectId)).

(** Latest first: no task is followed by a later one. *)
Definition latestFirst (l : list Task) : Prop :=
  forall i j a b, (l !! i) = Some a -> (l !! j) = Some b -> (i < j)%nat ->
                  (Types.createdAt b <= Types.createdAt a)%Z.
End WithNumber.
Arguments TaskData : clear implicits.
End TaskActionsAdd.

(** ** components/task-board.tsx: deleting, moving and adding columns *)
Module TaskBoard.
Section WithNumber.
Context {num : Type}.

Abbreviation Task := (Types.Task num).
Abbreviation World := (TaskActions.World num).

(** [Project] of types/index.ts. *)
Record Project : Type := {
  id : jsstring;
  name : jsstring;
  description : jsstring;
  key : jsstring;
  type : option jsstring;
  lead : option jsstring;
  leadAvatar : option jsstring;
  ownerId : jsstring
}.

(** [DEFAULT_TASK_STATUSES] of types/index.ts. *)
Definition DEFAULT_TASK_STATUSES : list jsstring :=
  [lit "To Do"; lit "In Progress"; lit "In Review"; lit "Done"].

(** [getProjectColumnsKey]. *)
Definition getProjectColumnsKey (projectId userId : jsstring) : jsstring :=
  lit "taskMasterProjectColumns_" ++ projectId ++ lit "_" ++ userId.

(** The state of the board that the three handlers read or write, the
    toasts raised, oldest first, and the column lists written to local
    storage: [(key, statuses)] stands for
    [localStorage.setItem(key, JSON.stringify(statuses))]. *)
Record BoardState : Type := {
  tasks : list Task;
  taskToDelete : option Task;
  draggedTaskId : option jsstring;
  activeColumnStatuses : list jsstring;
  isAddColumnDialogOpen : bool;
  newColumnNameInput : jsstring;
  toasts : list UseToast.Toast;
  savedColumns : list (jsstring * list jsstring)
}.

Definition setTasks (v : list Task) (st : BoardState) : BoardState :=
  {| tasks := v; taskToDelete := taskToDelete st; draggedTaskId := draggedTaskId st;
     activeColumnStatuses := activeColumnStatuses st;
     isAddColumnDialogOpen := isAddColumnDialogOpen st;
     newColumnNameInput := newColumnNameInput st;
     toasts := toasts st; savedColumns := savedColumns st |}.

Definition setTaskToDelete (v : option Task) (st : BoardState) : BoardState :=
  {| tasks := tasks st; taskToDelete := v; draggedTaskId := draggedTaskId st;
     activeColumnStatuses := activeColumnStatuses st;
     isAddColumnDialogOpen := isAddColumnDialogOpen st;
     newColumnNameInput := newColumnNameInput st;
     toasts := toasts st; savedColumns := savedColumns st |}.

Definition setDraggedTaskId (v : option jsstring) (st : BoardState) : BoardState :=
  {| tasks := tasks st; taskToDelete := taskToDelete st; draggedTaskId := v;
     activeColumnStatuses := activeColumnStatuses st;
     isAddColumnDialogOpen := isAddColumnDialogOpen st;
     newColumnNameInput := newColumnNameInput st;
     toasts := toasts st; savedColumns := savedColumns st |}.

Definition toast (t : UseToast.Toast) (st : BoardState) : BoardState :=
  {| tasks := tasks st; taskToDelete := taskToDelete st; draggedTaskId := draggedTaskId st;
     activeColumnStatuses := activeColumnStatuses st;
     isAddColumnDialogOpen := isAddColumnDialogOpen st;
     newColumnNameInput := newColumnNameInput st;
     toasts := toasts st ++ [t]; savedColumns := savedColumns st |}.

(** [!currentProject || !user?.id] is false: both are there. *)
Definition projectAndUser (currentProject : option Project)
    (user : option AuthContext.User) : option (Project * AuthContext.User) :=
  match currentProject, user with
  | Some project, Some user =>
      if nonEmpty (AuthContext.id user) then Some (project, user) else None
  | _, _ => None
  end.

(** [tasks.find(t => t.id === taskId)]. *)
Definition findTask (taskId : jsstring) (l : list Task) : option Task :=
  List.find (fun t => bool_decide (Types.id t = taskId)) l.

(** [tasks.map(t => t.id === taskId ? replacement : t)]. *)
Definition replaceTask (taskId : jsstring) (replacement : Task) (l : list Task)
  : list Task :=
  (fun t => if bool_decide (Types.id t = taskId) then replacement else t) <$> l.

(** [tasks.filter(t => t.id !== taskId)]. *)
Definition withoutTask (taskId : jsstring) (l : list Task) : list Task :=
  filter (fun t => Types.id t <> taskId) l.

(** [handleDeleteTask]: the task leaves the board at once and comes
    back when the server action reports failure.  The [await] is that
    of [deleteTask], run here in the server's world. *)
Definition handleDeleteTask (currentProject : option Project)
    (user : option AuthContext.User) (taskId : jsstring)
    (w : World) (st : BoardState) : BoardState * World :=
  match projectAndUser currentProject user with
  | None =>
      (toast {| UseToast.variant := UseToast.destructive;
                UseToast.title := lit "Error";
                UseToast.description := lit "Cannot delete task: No active project or user." |}
         st, w)
  | Some (currentProject, user) =>
      let taskTitle :=
        orElse (match findTask taskId (tasks st) with
                | Some t => Types.title t
                | None => []
                end) (lit "this task") in
      let originalTasks := tasks st in
      let st := setTasks (withoutTask taskId (tasks st)) st in
      let '(success, w) :=
        TaskActions.deleteTask (id currentProject) taskId (AuthContext.id user) w in
      match success with
      | Normal true =>
          (setTaskToDelete None
             (toast {| UseToast.variant := UseToast.default;
                       UseToast.title := lit "Task Deleted";
                       UseToast.description :=
                         lit "Task " ++ dq ++ taskTitle ++ dq ++ lit " has been deleted." |}
                st), w)
      | Normal false =>
          (setTaskToDelete None
             (toast {| UseToast.variant := UseToast.destructive;
                       UseToast.title := lit "Delete Failed";
                       UseToast.description := lit "Could not delete task from the database." |}
                (setTasks originalTasks st)), w)
      | Abrupt error => (st, w)
      end
  end.

(** [{ ...taskToMove, status: newStatus }]. *)
Definition withStatus (t : Task) (newStatus : jsstring) : Task :=
  {| Types.id := Types.id t;
     Types.title := Types.title t;
     Types.description := Types.description t;
     Types.status := newStatus;
     Types.category := Types.category t;
     Types.createdAt := Types.createdAt t;
     Types.assignee := Types.assignee t;
     Types.projectId := Types.projectId t;
     Types.priority := Types.priority t;
     Types.effort := Types.effort t |}.

(** [handleDrop]: the dragged task takes the status of the column it
    is dropped on; the board goes back to what it was when the server
    action returns [null].  [new Date(result.createdAt)] is the time
    [result] already has. *)
Definition handleDrop (currentProject : option Project)
    (user : option AuthContext.User) (newStatus : jsstring)
    (w : World) (st : BoardState) : BoardState * World :=
  match draggedTaskId st, projectAndUser currentProject user with
  | Some draggedId, Some (currentProject, user) =>
      if negb (nonEmpty draggedId) then (st, w)
      else
        let originalTasks := tasks st in
        match findTask draggedId (tasks st) with
        | None => (setDraggedTaskId None st, w)
        | Some taskToMove =>
            if bool_decide (Types.status taskToMove = newStatus)
            then (setDraggedTaskId None st, w)
            else
              let updatedTask := withStatus taskToMove newStatus in
              let st := setTasks (replaceTask draggedId updatedTask (tasks st)) st in
              let '(result, w) :=
                TaskActions.updateTask updatedTask (AuthContext.id user) w in
              match result with
              | Normal (Some result) =>
                  let finalResult := result in
                  (setDraggedTaskId None
                     (toast {| UseToast.variant := UseToast.default;
                               UseToast.title := lit "Task Moved";
                               UseToast.description :=
                                 lit "Task " ++ dq ++ Types.title result ++ dq
                                 ++ lit " moved to " ++ newStatus ++ lit "." |}
                        (setTasks (replaceTask draggedId finalResult (tasks st)) st)), w)
              | Normal None =>
                  (setDraggedTaskId None
                     (toast {| UseToast.variant := UseToast.destructive;
                               UseToast.title := lit "Move Failed";
                               UseToast.description := lit "Could not update task status." |}
                        (setTasks originalTasks st)), w)
              | Abrupt error => (st, w)
              end
        end
  | _, _ => (st, w)
  end.

(** [activeColumnStatuses.indexOf("Done")] as the place to insert at:
    the position of the first "Done", or none. *)
Fixpoint indexOfDone (statuses : list jsstring) : option nat :=
  match statuses with
  | [] => None
  | s :: rest => if bool_decide (s = lit "Done") then Some 0%nat
                 else S <$> indexOfDone rest
  end.

(** [handleCreateNewColumn].  [toLowerCase] is
    [String.prototype.toLowerCase], used here to compare whole names;
    its Unicode tables are no part of the sources and it is taken as
    given. *)
Definition handleCreateNewColumn (toLowerCase : jsstring -> jsstring)
    (currentProject : option Project) (user : option AuthContext.User)
    (st : BoardState) : BoardState :=
  match projectAndUser currentProject user with
  | None =>
      toast {| UseToast.variant := UseToast.destructive;
               UseToast.title := lit "Error";
               UseToast.description := lit "User or project not identified." |} st
  | Some (currentProject, user) =>
      let newName := trim (newColumnNameInput st) in
      if negb (nonEmpty newName) then
        toast {| UseToast.variant := UseToast.destructive;
                 UseToast.title := lit "Invalid Name";
                 UseToast.description := lit "Column name cannot be empty." |} st
      else if bool_decide (toLowerCase newName ∈ toLowerCase <$> activeColumnStatuses st)
      then
        toast {| UseToast.variant := UseToast.destructive;
                 UseToast.title := lit "Duplicate Name";
                 UseToast.description := lit "A column with this name already exists." |} st
      else
        let newStatuses :=
          match indexOfDone (activeColumnStatuses st) with
          | Some doneIndex =>
              take doneIndex (activeColumnStatuses st) ++ [newName]
              ++ drop doneIndex (activeColumnStatuses st)
          | None => activeColumnStatuses st ++ [newName]
          end in
        {| tasks := tasks st; taskToDelete := taskToDelete st;
           draggedTaskId := draggedTaskId st;
           activeColumnStatuses := newStatuses;
           isAddColumnDialogOpen := false;
           newColumnNameInput := [];
           toasts := toasts st ++
             [ {| UseToast.variant := UseToast.default;
                  UseToast.title := lit "Column Created";
                  UseToast.description :=
                    lit "Column " ++ dq ++ newName ++ dq ++ lit " added." |} ];
           savedColumns := savedColumns st ++
             [ (getProjectColumnsKey (id currentProject) (AuthContext.id user),
                newStatuses) ] |}
  end.

(** The board lists exactly the tasks the database holds for the
    project. *)
Definition inSync (boardTasks : list Task) (fs : TaskActions.Firestore num)
    (projectId : jsstring) : Prop :=
  forall taskId,
    taskId ∈ (Types.id <$> boardTasks)
    <-> is_Some (TaskActions.tasks fs !! (projectId, taskId)).
End WithNumber.
Arguments BoardState : clear implicits.
End TaskBoard.

(** ** Alice's board *)
Module BoardSamples.
Definition project : TaskBoard.Project :=
  {| TaskBoard.id := lit "proj-1";
     TaskBoard.name := lit "Startup Launch";
     TaskBoard.description := lit "Tasks related to launching the new startup venture.";
     TaskBoard.key := lit "SL";
     TaskBoard.type := None;
     TaskBoard.lead := None;
     TaskBoard.leadAvatar := None;
     TaskBoard.ownerId := AuthContext.id Samples.alice |}.

(** The board after the project's tasks were loaded, with the login
    task being dragged and "  QA " typed as the name of a new column. *)
Definition board : TaskBoard.BoardState Z :=
  {| TaskBoard.tasks := TaskActionsAdd.tasksInOrder Samples.firestore (lit "proj-1");
     TaskBoard.taskToDelete := Some Samples.loginTask;
     TaskBoard.draggedTaskId := Some (lit "task-1");
     TaskBoard.activeColumnStatuses := TaskBoard.DEFAULT_TASK_STATUSES;
     TaskBoard.isAddColumnDialogOpen := true;
     TaskBoard.newColumnNameInput := lit "  QA ";
     TaskBoard.toasts := [];
     TaskBoard.savedColumns := [] |}.

Definition exportTask : TaskActionsAdd.TaskData Z :=
  {| TaskActionsAdd.title := lit "Export to CSV";
     TaskActionsAdd.description := [];
     TaskActionsAdd.status := lit "To Do";
     TaskActionsAdd.category := None;
     TaskActionsAdd.assignee := None;
     TaskActionsAdd.projectId := lit "proj-1";
     TaskActionsAdd.priority := Some Types.Low;
     TaskActionsAdd.effort := None |}.
End BoardSamples.

(** ** sprint-planner/page.tsx: reading the plan for display *)
Module SprintPlanView.

(** [Canonicalize] of the [i] flag (without [u]) on ASCII: a letter
    goes to its capital.  No code unit outside ASCII is canonicalized
    to one inside, so against an ASCII pattern it can be left as it is. *)
Definition canonicalize (c : N) : N :=
  if (97 <=? c) && (c <=? 122) then c - 32 else c.

(** A pattern of literal ASCII code units matched at the start of [s]
    under the [i] flag; the result is what follows the match. *)
Fixpoint matchLiteral (pattern s : jsstring) : option jsstring :=
  match pattern, s with
  | [], _ => Some s
  | _ :: _, [] => None
  | p :: pattern', c :: s' =>
      if canonicalize c =? canonicalize p then matchLiteral pattern' s' else None
  end.

(** The leftmost match of the pattern in [s]. *)
Fixpoint findLiteral (pattern s : jsstring) : option jsstring :=
  match matchLiteral pattern s with
  | Some rest => Some rest
  | None => match s with
            | [] => None
            | _ :: s' => findLiteral pattern s'
            end
  end.

(** [([\s\S]*?)(?=##|$)]: the shortest stretch after which "##" or the
    end of the string comes. *)
Fixpoint upToHashes (s : jsstring) : jsstring :=
  match s with
  | [] => []
  | c :: s' => if startsWith (lit "##") s then [] else c :: upToHashes s'
  end.

(** The headings the page asks for are letters and spaces, which a
    regular expression reads as themselves. *)
Definition isLiteralHeading (sectionHeading : jsstring) : bool :=
  forallb (fun c => (c =? 32) || ((65 <=? c) && (c <=? 90)) || ((97 <=? c) && (c <=? 122)))
    sectionHeading.

(** [planText.match(sectionRegex)] and its group [match[1]], where
    [sectionRegex] is [## ${sectionHeading}\s*([\s\S]*?)(?=##|$)] with
    the [i] flag and [sectionHeading] is a literal heading.  The greedy
    [\s*] takes all white space after the heading and never gives any
    back, since the group and the lookahead match whatever follows. *)
Definition sectionRegex_match (sectionHeading planText : jsstring) : option jsstring :=
  rest ← findLiteral (lit "## " ++ sectionHeading) planText;
  Some (upToHashes (trimStart rest)).

(** [line.replace(/^- /, '')]. *)
Definition stripDash (line : jsstring) : jsstring :=
  if startsWith (lit "- ") line then drop 2 line else line.

(** [.trim().split('\n').map(line => line.replace(/^- /, '').trim())
     .filter(line => line.length > 0)]. *)
Definition listItems (text : jsstring) : list jsstring :=
  List.filter nonEmpty (map (fun line => trim (stripDash line)) (split LF (trim text))).

(** [parseSprintPlanSection]. *)
Definition parseSprintPlanSection (planText sectionHeading : jsstring) : list jsstring :=
  match sectionRegex_match sectionHeading planText with
  | Some group => if nonEmpty group then listItems group else []
  | None => []
  end.

(** [warningsText.replace(/## Warnings & Suggestions\s*/i, '')]: the
    leftmost match is cut out. *)
Fixpoint removeHeading (pattern s : jsstring) : jsstring :=
  match matchLiteral pattern s with
  | Some rest => trimStart rest
  | None => match s with
            | [] => []
            | c :: s' => c :: removeHeading pattern s'
            end
  end.

(** [parseWarningsOrSuggestions]. *)
Definition parseWarningsOrSuggestions (warningsText : option jsstring) : list jsstring :=
  match warningsText with
  | None => []
  | Some warningsText =>
      if negb (nonEmpty warningsText) then []
      else listItems (removeHeading (lit "## Warnings & Suggestions") warningsText)
  end.

(** A line the page can show as one list item: not empty, no white
    space at either end, no line break and no "##". *)
Definition isListItem (line : jsstring) : Prop :=
  line <> [] /\ trim line = line /\ (LF ∉ line) /\ includes (lit "##") line = false.

(** A Markdown list of the lines, one "- " item per line. *)
Definition bullets (lines : list jsstring) : jsstring :=
  join nl (map (app (lit "- ")) lines).
End SprintPlanView.

(** ** The pages and the board on the server's actions *)
Module ServerActions.
(** [await] of a server action: the promise settles as the action
    completes. *)
Definition await {A} (c : Completion A) : Settled A :=
  match c with
  | Normal a => Fulfilled a
  | Abrupt error => Rejected error
  end.

(** [getTasksByProjectId] as a page calls it, with the server in
    world [w]. *)
Definition getTasksByProjectId {num} (w : TaskActions.World num)
    (projectId userId : jsstring) : Settled (list (Types.Task num)) :=
  await (fst (TaskActions.getTasksByProjectId projectId userId w)).
End ServerActions.

(** ** contexts/AuthContext.tsx: the id of a mock user *)
Module AuthProvider.
(** [s.replace(/@/g, '-at-')]. *)
Definition replaceAt (s : jsstring) : jsstring :=
  concat (map (fun c => if c =? 64 then lit "-at-" else [c]) s).

(** The class [[a-z0-9-]]. *)
Definition isIdCodeUnit (c : N) : bool :=
  ((97 <=? c) && (c <=? 122)) || ((48 <=? c) && (c <=? 57)) || (c =? 45).

(** [s.replace(/[^a-z0-9-]/g, '')]. *)
Definition keepIdCodeUnits (s : jsstring) : jsstring := List.filter isIdCodeUnit s.

(** [generatedId] of [login] and [signup].  The code units that
    [toLowerCase] models only up to their being outside ASCII are the
    ones the second [replace] deletes. *)
Definition generatedId (email : jsstring) : jsstring :=
  let lowerEmail := toLowerCase email in
  lit "mock-user-" ++ keepIdCodeUnits (replaceAt lowerEmail).

(** A code unit that [generatedId] reads: a letter, a digit, "-", "@",
    or one of the two code units outside ASCII whose lower case is a
    letter (U+0130 and U+212A). *)
Definition isRead (c : N) : bool :=
  ((65 <=? c) && (c <=? 90)) || ((97 <=? c) && (c <=? 122))
  || ((48 <=? c) && (c <=? 57)) || (c =? 45) || (c =? 64)
  || (c =? 0x130) || (c =? 0x212A).
End AuthProvider.

(** ** app/scope-creep-detector/page.tsx: loading the current tasks *)
Module ScopeCreepTasks.
Section WithNumber.
Context {num : Type}.

Abbreviation Task := (Types.Task num).
Abbreviation ScopeCreepInput := ScopeCreepFlow.ScopeCreepInput.

(** [ScopeCreepClientInputSchema]. *)
Definition ScopeCreepClientInputSchema (values : ScopeCreepInput) : list Issue :=
  minLength "currentTasksText" 1 (lit "Current sprint tasks cannot be empty.")
    (ScopeCreepFlow.currentTasksText values).

(** The part of the component's state that
    [handleFetchCurrentProjectTasks] reads or writes, and the toasts it
    has raised, oldest first. *)
Record LoadState : Type := {
  isFetchingProjectTasks : bool;
  form : ScopeCreepInput;
  toasts : list UseToast.Toast
}.

Definition setIsFetchingProjectTasks (v : bool) (st : LoadState) : LoadState :=
  {| isFetchingProjectTasks := v; form := form st; toasts := toasts st |}.

Definition toast (t : UseToast.Toast) (st : LoadState) : LoadState :=
  {| isFetchingProjectTasks := isFetchingProjectTasks st; form := form st;
     toasts := toasts st ++ [t] |}.

(** [form.setValue('currentTasksText', v)]. *)
Definition form_setValue_currentTasksText (v : jsstring) (st : LoadState) : LoadState :=
  {| isFetchingProjectTasks := isFetchingProjectTasks st;
     form := {| ScopeCreepFlow.currentTasksText := v;
                ScopeCreepFlow.originalTasksText := ScopeCreepFlow.originalTasksText (form st);
                ScopeCreepFlow.sprintGoal := ScopeCreepFlow.sprintGoal (form st) |};
     toasts := toasts st |}.

(** The callback of [projectTasks.filter(...)]. *)
Definition isActive (task : Task) : bool :=
  bool_decide (Types.status task = lit "To Do")
  || bool_decide (Types.status task = lit "In Progress")
  || bool_decide (Types.status task = lit "In Review").

(** The callback of [activeSprintTasks.map(...)]. *)
Definition formatTask (task : Task) : jsstring :=
  Types.title task
  ++ (if nonEmpty (Types.description task) then lit " - " ++ Types.description task else [])
  ++ lit " (Status: " ++ Types.status task ++ lit ")".

(** The [try] block after [await getTasksByProjectId(...)] has given
    [projectTasks]. *)
Definition loadActiveTasks (projectTasks : list Task) (st : LoadState) : LoadState :=
  let activeSprintTasks := List.filter isActive projectTasks in
  if (0 <? length activeSprintTasks)%nat then
    let formattedTasks := join nl (map formatTask activeSprintTasks) in
    toast {| UseToast.variant := UseToast.default;
             UseToast.title := lit "Tasks Loaded";
             UseToast.description :=
               lit "Active tasks (To Do, In Progress, In Review) from your project loaded." |}
      (form_setValue_currentTasksText formattedTasks st)
  else
    toast {| UseToast.variant := UseToast.default;
             UseToast.title := lit "No Active Tasks";
             UseToast.description :=
               lit "No tasks found in 'To Do', 'In Progress', or 'In Review' for the active project." |}
      (form_setValue_currentTasksText [] st).

(** [handleFetchCurrentProjectTasks]; [getTasksByProjectId] is the
    server action, given as how its promise settles. *)
Definition handleFetchCurrentProjectTasks
    (user : option AuthContext.User)
    (localStorage : gmap jsstring jsstring)
    (getTasksByProjectId : jsstring -> jsstring -> Settled (list Task))
    (st : LoadState) : LoadState :=
  let notLoggedIn :=
    toast {| UseToast.variant := UseToast.destructive;
             UseToast.title := lit "Error";
             UseToast.description := lit "You must be logged in." |} st in
  match user with
  | None => notLoggedIn
  | Some user =>
      if negb (nonEmpty (AuthContext.id user)) then notLoggedIn
      else
        let st := setIsFetchingProjectTasks true st in
        let activeProjectIdKey :=
          getUserScopedKey (lit "taskMasterActiveProjectId") (Some (AuthContext.id user)) in
        let activeProjectId := localStorage !! activeProjectIdKey in
        let noActiveProject :=
          setIsFetchingProjectTasks false
            (toast {| UseToast.variant := UseToast.destructive;
                      UseToast.title := lit "No Active Project";
                      UseToast.description := lit "Select a project on the board page." |} st) in
        match activeProjectId with
        | None => noActiveProject
        | Some activeProjectId =>
            if negb (nonEmpty activeProjectId) then noActiveProject
            else
              let st :=
                match getTasksByProjectId activeProjectId (AuthContext.id user) with
                | Fulfilled projectTasks => loadActiveTasks projectTasks st
                | Rejected error =>
                    toast {| UseToast.variant := UseToast.destructive;
                             UseToast.title := lit "Error Loading Tasks";
                             UseToast.description := lit "Could not load tasks." |} st
                end in
              setIsFetchingProjectTasks false st
        end
  end.
End WithNumber.
End ScopeCreepTasks.

(** ** lib/actions/taskActions.ts: addInitialTasksForProject *)
Module TaskActionsSeed.
Section WithEnvironment.
(** [String.prototype.toUpperCase], whose Unicode tables are no part
    of the sources, and what the [i]-th turn of the loop gets from its
    environment: the value of [crypto.randomUUID()], the time
    [serverTimestamp()] becomes in the document and the time of
    [new Date()]. *)
Variable toUpperCase : jsstring -> jsstring.
Variable environment : nat -> jsstring * Z * Z.

Abbreviation Task := (Types.Task Z).
Abbreviation World := (TaskActions.World Z).
Abbreviation Action := (TaskActions.Action Z).

#[local] Existing Instance TaskActions.Action_ret.
#[local] Existing Instance TaskActions.Action_bind.

(** [Omit<Task, 'id' | 'createdAt' | 'projectId'>] as the five
    literals have it: every field given. *)
Record RawTask : Type := {
  title : jsstring;
  description : jsstring;
  status : jsstring;
  category : jsstring;
  assignee : jsstring;
  priority : Types.Priority;
  effort : Z
}.

Definition initialRawTasks (projectKey assignee effectiveFirstStatus : jsstring)
  : list RawTask :=
  [ {| title := lit "Market Research for Product-Market Fit";
       description := lit "Analyze target audience, competitor landscape, and validate core value proposition.";
       status := effectiveFirstStatus; category := projectKey ++ lit "-RESEARCH";
       assignee := assignee; priority := Types.High; effort := 8 |};
    {| title := lit "Develop MVP User Authentication Flow";
       description := lit "Implement secure sign-up, login, and password reset functionality.";
       status := effectiveFirstStatus; category := projectKey ++ lit "-DEV";
       assignee := lit "U2"; priority := Types.Critical; effort := 5 |};
    {| title := lit "Wireframe Key User Interface Screens";
       description := lit "Create low-fidelity wireframes for the main application views and user flows.";
       status := effectiveFirstStatus; category := projectKey ++ lit "-DESIGN";
       assignee := assignee; priority := Types.High; effort := 5 |};
    {| title := lit "Set Up Project Repository & CI/CD Pipeline";
       description := lit "Initialize version control, and configure basic continuous integration and deployment.";
       status := effectiveFirstStatus; category := projectKey ++ lit "-INFRA";
       assignee := lit "U2"; priority := Types.Medium; effort := 3 |};
    {| title := lit "Draft Initial Investor Pitch Deck Content";
       description := lit "Outline the key slides and content for a V1 pitch deck to potential investors.";
       status := effectiveFirstStatus; category := projectKey ++ lit "-BIZ";
       assignee := assignee; priority := Types.Medium; effort := 3 |} ].

(** [{ ...rawTask, id, createdAt, projectId }]. *)
Definition withIdAndCreatedAt (rawTask : RawTask) (projectId id : jsstring)
    (createdAt : Z) : Task :=
  {| Types.id := id;
     Types.title := title rawTask;
     Types.description := description rawTask;
     Types.status := status rawTask;
     Types.category := Some (category rawTask);
     Types.createdAt := createdAt;
     Types.assignee := Some (assignee rawTask);
     Types.projectId := projectId;
     Types.priority := Some (priority rawTask);
     Types.effort := Some (effort rawTask) |}.

(** [getDocs(query(tasksColRef, where("category", "in", categories)))]. *)
Definition getDocs_tasksByCategory (projectId : jsstring) (categories : list jsstring)
  : Action (list (jsstring * Task)) :=
  TaskActions.request (TaskActions.QueryTasks projectId) (fun fs =>
    (List.filter
       (fun snap => match Types.category snap.2 with
                    | Some c => bool_decide (c ∈ categories)
                    | None => false
                    end)
       (TaskActions.tasksOf fs projectId), fs)).

(** [initialRawTasks.find(rt => rt.category === doc.data().category
     && rt.title === doc.data().title)] finds a task. *)
Definition isInitialTask (rawTasks : list RawTask) (data : Task) : bool :=
  existsb (fun rt => bool_decide (Types.category data = Some (category rt))
                     && bool_decide (title rt = Types.title data)) rawTasks.

(** [`task-initial-${crypto.randomUUID().substring(0,8)}`] in turn [i]. *)
Definition newTaskId (i : nat) : jsstring :=
  lit "task-initial-" ++ take 8 (environment i).1.1.

(** The [for] loop from its [i]-th turn on, with [addedTasks] as
    filled so far. *)
Fixpoint addEach (projectId : jsstring) (i : nat) (rawTasks : list RawTask)
    (addedTasks : list Task) : Action (list Task) :=
  match rawTasks with
  | [] => mret addedTasks
  | rawTask :: rest =>
      let '(_, serverTime, now) := environment i in
      _ ← TaskActionsAdd.setDoc_newTask projectId (newTaskId i)
            (withIdAndCreatedAt rawTask projectId (newTaskId i) serverTime);
      addEach projectId (S i) rest
        (addedTasks ++ [withIdAndCreatedAt rawTask projectId (newTaskId i) now])
  end.

(** [userName?.substring(0, 2).toUpperCase() || 'U1']. *)
Definition assigneeOf (userName : option jsstring) : jsstring :=
  orElse (match userName with
          | Some userName => toUpperCase (take 2 userName)
          | None => []
          end) (lit "U1").

(** [firstStatus || DEFAULT_TASK_STATUSES[0]]. *)
Definition effectiveFirstStatusOf (firstStatus : option jsstring) : jsstring :=
  orElse (match firstStatus with Some s => s | None => [] end)
         (List.hd [] TaskBoard.DEFAULT_TASK_STATUSES).

Definition addInitialTasksForProject (projectId projectKey userId : jsstring)
    (userName firstStatus : option jsstring) : Action (list Task) :=
  TaskActions.tryCatch
    (db ← TaskActions._getDbInstance;
     match db with
     | None => mret []
     | Some db =>
         if negb (nonEmpty userId) then mret []
         else
           projectSnap ← TaskActions.getDoc_project projectId;
           if TaskActions.notOwnedBy userId projectSnap then mret []
           else
             let assignee := assigneeOf userName in
             let effectiveFirstStatus := effectiveFirstStatusOf firstStatus in
             let initialRawTasks :=
               initialRawTasks projectKey assignee effectiveFirstStatus in
             existingTasksSnapshot ←
               getDocs_tasksByCategory projectId (map category initialRawTasks);
             if negb (bool_decide (existingTasksSnapshot = []))
                && existsb (fun snap => isInitialTask initialRawTasks snap.2)
                     existingTasksSnapshot
             then mret (map (TaskActions.taskOfSnapshot projectId) existingTasksSnapshot)
             else addEach projectId 0 initialRawTasks []
     end)
    (fun error => mret []).

(** The task documents after the writes of the loop for [rawTasks],
    from turn [i] on. *)
Fixpoint seeded (projectId : jsstring) (i : nat) (rawTasks : list RawTask)
    (tasks : gmap (jsstring * jsstring) Task) : gmap (jsstring * jsstring) Task :=
  match rawTasks with
  | [] => tasks
  | rawTask :: rest =>
      seeded projectId (S i) rest
        (<[ (projectId, newTaskId i) :=
              withIdAndCreatedAt rawTask projectId (newTaskId i) (environment i).1.2 ]>
           tasks)
  end.

(** The tasks the loop returns for [rawTasks], from turn [i] on. *)
Fixpoint added (projectId : jsstring) (i : nat) (rawTasks : list RawTask) : list Task :=
  match rawTasks with
  | [] => []
  | rawTask :: rest =>
      withIdAndCreatedAt rawTask projectId (newTaskId i) (environment i).2
      :: added projectId (S i) rest
  end.

(** None of the next [n] requests fails. *)
Definition noFaultIn (n : nat) (faults : list bool) : Prop :=
  Forall (fun b => b = false) (take n faults).

(** The project holds one of the initial tasks of [projectKey]: a
    document with the category and the title of one of the five. *)
Definition holdsInitialTask (fs : TaskActions.Firestore Z)
    (projectId projectKey : jsstring) : Prop :=
  exists taskId data rawTask,
    TaskActions.tasks fs !! (projectId, taskId) = Some data
    /\ rawTask ∈ initialRawTasks projectKey [] []
    /\ Types.category data = Some (category rawTask)
    /\ Types.title data = title rawTask.
End WithEnvironment.
End TaskActionsSeed.

(** A server whose write number [k] of a seeding fails, and an
    environment for the loop. *)
Module SeedSamples.
Definition flakyServer (k : nat) : TaskActions.World Z :=
  {| TaskActions.firebaseConfig := TaskActions.firebaseConfig Samples.server;
     TaskActions.sdkWorks := true;
     TaskActions.store := Samples.firestore;
     TaskActions.requests := [];
     TaskActions.faults := false :: false :: replicate k false ++ [true] |}.

Definition environment (i : nat) : jsstring * Z * Z :=
  (Z_toString (Z.of_nat i) ++ lit "f3a9c1e-5b7d-4c2a-9e1f-0a1b2c3d4e5f",
   (7000 + Z.of_nat i)%Z, (7001 + Z.of_nat i)%Z).

(** A stand-in for [toUpperCase] on ASCII letters. *)
Definition toUpperCase (s : jsstring) : jsstring := map SprintPlanView.canonicalize s.
End SeedSamples.

(** ** components/task-form.tsx *)
Module TaskForm.
Section WithNumber.
Context {num : Type} `{JsNumber num}.

Abbreviation Task := (Types.Task num).

(** [TaskFormValues]; the data [handleSubmit] hands to the board has
    the same fields.  [effort] is a number that is not [NaN]. *)
Record TaskFormValues : Type := {
  title : jsstring;
  description : jsstring;
  status : jsstring;
  category : option jsstring;
  assignee : option jsstring;
  priority : option Types.Priority;
  effort : option num
}.

(** [z.string().max(n, message)] on field [name]. *)
Definition maxLength (name : string) (n : nat) (message : jsstring)
    (value : jsstring) : list Issue :=
  if (n <? length value)%nat then [ {| path := name; constraint := message |} ] else [].

(** [taskFormSchema]. *)
Definition taskFormSchema (values : TaskFormValues) : list Issue :=
  minLength "title" 1 (lit "Title is required") (title values)
  ++ maxLength "title" 100 (lit "Title must be 100 characters or less") (title values)
  ++ minLength "description" 1 (lit "Description is required") (description values)
  ++ maxLength "description" 500 (lit "Description must be 500 characters or less")
       (description values)
  ++ minLength "status" 1 (lit "Status is required") (status values)
  ++ match category values with
     | Some c =>
         maxLength "category" 20
           (lit "Identifier/tag must be 20 characters or less (e.g., 'FEAT-101', 'FIX')") c
     | None => []
     end
  ++ match assignee values with
     | Some a =>
         maxLength "assignee" 10 (lit "Assignee initials must be 10 characters or less") a
     | None => []
     end
  ++ match effort values with
     | Some n =>
         if nonnegative n then []
         else [ {| path := "effort"; constraint := lit "Effort must be non-negative." |} ]
     | None => []
     end.

(** [availableStatuses.length > 0 ? availableStatuses[0] : "To Do"]. *)
Definition firstStatusOf (availableStatuses : list jsstring) : jsstring :=
  match availableStatuses with
  | s :: _ => s
  | [] => lit "To Do"
  end.

(** [categorySuffix] of the effect that fills the form. *)
Definition categorySuffixOf (category : option jsstring) (projectKey : jsstring)
  : jsstring :=
  match category with
  | Some c =>
      if nonEmpty c && startsWith (projectKey ++ lit "-") c
      then drop (length projectKey + 1) c
      else if bool_decide (c = projectKey) then []
      else c
  | None => []
  end.

(** The values the effect gives to [form.reset]. *)
Definition resetValues (taskToEdit : option Task) (projectKey : jsstring)
    (availableStatuses : list jsstring) : TaskFormValues :=
  let currentFirstStatus := firstStatusOf availableStatuses in
  match taskToEdit with
  | Some taskToEdit =>
      {| title := Types.title taskToEdit;
         description := Types.description taskToEdit;
         status := if bool_decide (Types.status taskToEdit ∈ availableStatuses)
                   then Types.status taskToEdit else currentFirstStatus;
         category := Some (categorySuffixOf (Types.category taskToEdit) projectKey);
         assignee := Some (match Types.assignee taskToEdit with
                           | Some a => a
                           | None => []
                           end);
         priority := Some (match Types.priority taskToEdit with
                           | Some p => p
                           | None => Types.Medium
                           end);
         effort := Types.effort taskToEdit |}
  | None =>
      {| title := []; description := []; status := currentFirstStatus;
         category := Some []; assignee := Some [];
         priority := Some Types.Medium; effort := None |}
  end.

(** [s?.trim() || undefined]. *)
Definition trimmedOrUndefined (s : option jsstring) : option jsstring :=
  match s with
  | Some s => if nonEmpty (trim s) then Some (trim s) else None
  | None => None
  end.

(** [submissionData] of [handleSubmit]. *)
Definition submissionData (data : TaskFormValues) : TaskFormValues :=
  {| title := title data;
     description := description data;
     status := status data;
     category := trimmedOrUndefined (category data);
     assignee := trimmedOrUndefined (assignee data);
     priority := priority data;
     effort := effort data |}.

(** [form.handleSubmit(handleSubmit)]: the resolver checks the values
    against [taskFormSchema], and [handleSubmit] hands the submission
    data to the board only when they pass. *)
Definition form_handleSubmit (values : TaskFormValues) : option TaskFormValues :=
  match taskFormSchema values with
  | [] => Some (submissionData values)
  | _ :: _ => None
  end.
End WithNumber.
Arguments TaskFormValues : clear implicits.
End TaskForm.

(** ** components/task-board.tsx: what [handleSubmitTask] makes of the
    form's data *)
Module TaskBoardEdit.
Section WithNumber.
Context {num : Type}.
(** [String.prototype.toUpperCase], taken as given. *)
Variable toUpperCase : jsstring -> jsstring.

(** [processedData]. *)
Definition processedData (currentProject : TaskBoard.Project)
    (data : TaskForm.TaskFormValues num) : TaskForm.TaskFormValues num :=
  {| TaskForm.title := TaskForm.title data;
     TaskForm.description := TaskForm.description data;
     TaskForm.status := TaskForm.status data;
     TaskForm.category :=
       match TaskForm.category data with
       | Some c =>
           if nonEmpty c
           then Some (TaskBoard.key currentProject ++ lit "-" ++ toUpperCase c)
           else None
       | None => None
       end;
     TaskForm.assignee := TaskForm.assignee data;
     TaskForm.priority := TaskForm.priority data;
     TaskForm.effort := TaskForm.effort data |}.

(** [{ ...taskToUpdateOptimistic, ...processedData,
       projectId: currentProject.id }]: the data has all its seven keys,
    also those that are [undefined]. *)
Definition optimisticUpdatedTask (taskToUpdateOptimistic : Types.Task num)
    (processedData : TaskForm.TaskFormValues num) (currentProject : TaskBoard.Project)
  : Types.Task num :=
  {| Types.id := Types.id taskToUpdateOptimistic;
     Types.title := TaskForm.title processedData;
     Types.description := TaskForm.description processedData;
     Types.status := TaskForm.status processedData;
     Types.category := TaskForm.category processedData;
     Types.createdAt := Types.createdAt taskToUpdateOptimistic;
     Types.assignee := TaskForm.assignee processedData;
     Types.projectId := TaskBoard.id currentProject;
     Types.priority := TaskForm.priority processedData;
     Types.effort := TaskForm.effort processedData |}.
End WithNumber.
End TaskBoardEdit.

(** A task of Alice's project as the form can save it. *)
Module EditSamples.
Definition featureTask : Types.Task Z :=
  {| Types.id := lit "task-7";
     Types.title := lit "Export to CSV";
     Types.description := lit "Download the board as a file.";
     Types.status := lit "In Progress";
     Types.category := Some (lit "SL-FEAT-12");
     Types.createdAt := 4000;
     Types.assignee := Some (lit "AL");
     Types.projectId := lit "proj-1";
     Types.priority := Some Types.High;
     Types.effort := Some 3%Z |}.
End EditSamples.

(** * Properties *)

(** ** Strings *)

Lemma split_not_nil sep s : split sep s <> [].
Proof.
  destruct s as [|c s]; simpl; [done|].
  destruct (c =? sep); [done|].
  destruct (split sep s); done.
Qed.

(** A piece of a split does not hold the separator. *)
Lemma split_pieces_free sep s :
  Forall (fun piece => sep ∉ piece) (split sep s).
Proof.
  induction s as [|c s IH]; simpl.
  - constructor; [|constructor]. apply not_elem_of_nil.
  - destruct (N.eqb_spec c sep) as [->|Hne].
    + constructor; [apply not_elem_of_nil|done].
    + destruct (split sep s) as [|piece pieces]; simpl.
      * constructor; [|constructor].
        intros Hin. apply list_elem_of_singleton in Hin. congruence.
      * inversion IH as [|? ? Hp Hps]; subst. constructor; [|done].
        intros Hin. apply elem_of_cons in Hin as [->|Hin]; [done|]. by apply Hp.
Qed.

Lemma split_free sep s : sep ∉ s -> split sep s = [s].
Proof.
  induction s as [|c s IH]; simpl; [done|].
  intros Hnot. apply not_elem_of_cons in Hnot as [Hne Hnot].
  destruct (N.eqb_spec c sep) as [->|_]; [done|].
  by rewrite IH.
Qed.

Lemma split_app_sep sep piece rest :
  sep ∉ piece -> split sep (piece ++ sep :: rest) = piece :: split sep rest.
Proof.
  induction piece as [|c piece IH]; simpl; intros Hnot.
  - by rewrite N.eqb_refl.
  - apply not_elem_of_cons in Hnot as [Hne Hnot].
    destruct (N.eqb_spec c sep) as [->|_]; [done|].
    by rewrite IH.
Qed.

(** Joining pieces free of the separator and splitting again gives the
    pieces back, unless there was none. *)
Lemma split_join sep pieces :
  pieces <> [] ->
  Forall (fun piece => sep ∉ piece) pieces ->
  split sep (join [sep] pieces) = pieces.
Proof.
  induction pieces as [|piece rest IH]; [done|].
  intros _ Hfree. inversion Hfree as [|? ? Hp Hrest]; subst.
  destruct rest as [|piece' rest'].
  - simpl. by apply split_free.
  - change (join [sep] (piece :: piece' :: rest'))
      with (piece ++ sep :: join [sep] (piece' :: rest')).
    rewrite split_app_sep by done. f_equal. by apply IH.
Qed.

Lemma trimStart_clean s : startsClean (trimStart s).
Proof.
  induction s as [|c s IH]; simpl; [done|].
  destruct (isWhiteSpace c) eqn:Hc; [done|]. simpl. done.
Qed.

Lemma trimStart_fixed s : startsClean s -> trimStart s = s.
Proof. destruct s as [|c s]; simpl; [done|]. by intros ->. Qed.

Lemma trimStart_suffix s : exists dropped, s = dropped ++ trimStart s.
Proof.
  induction s as [|c s [dropped IH]]; simpl.
  - by exists [].
  - destruct (isWhiteSpace c).
    + exists (c :: dropped). simpl. by f_equal.
    + by exists [].
Qed.

Lemma trimEnd_prefix s : exists dropped, s = trimEnd s ++ dropped.
Proof.
  unfold trimEnd. destruct (trimStart_suffix (rev s)) as [dropped Heq].
  exists (rev dropped).
  rewrite <- rev_app_distr, <- Heq. by rewrite rev_involutive.
Qed.

Lemma trimEnd_startsClean s : startsClean s -> startsClean (trimEnd s).
Proof.
  intros Hs. destruct (trimEnd_prefix s) as [dropped Heq].
  destruct (trimEnd s) as [|c t]; [done|].
  rewrite Heq in Hs. done.
Qed.

Lemma trimEnd_idemp s : trimEnd (trimEnd s) = trimEnd s.
Proof.
  unfold trimEnd. rewrite rev_involutive.
  by rewrite (trimStart_fixed (trimStart (rev s))) by apply trimStart_clean.
Qed.

Lemma trim_idemp s : trim (trim s) = trim s.
Proof.
  unfold trim.
  rewrite (trimStart_fixed (trimEnd (trimStart s))).
  - apply trimEnd_idemp.
  - apply trimEnd_startsClean, trimStart_clean.
Qed.

Lemma trim_elem c s : c ∈ trim s -> c ∈ s.
Proof.
  unfold trim. intros Hin.
  destruct (trimStart_suffix s) as [d1 H1].
  destruct (trimEnd_prefix (trimStart s)) as [d2 H2].
  rewrite H1, H2. set_solver.
Qed.

(** ** deduplicateTasks *)

Lemma filterSeen_elem seen lines x :
  x ∈ filterSeen seen lines <-> x ∈ lines /\ x <> [] /\ x ∉ seen.
Proof.
  revert seen. induction lines as [|line rest IH]; intros seen; simpl.
  - split; [by intros ?%elem_of_nil|by intros [?%elem_of_nil _]].
  - destruct line as [|c line']; simpl.
    + rewrite IH, elem_of_cons. split; [tauto|].
      intros ([->|?] & ? & ?); [done|tauto].
    + case_bool_decide as Hseen; simpl.
      * rewrite IH, elem_of_cons. split; [tauto|].
        intros ([->|?] & ? & ?); [done|tauto].
      * rewrite elem_of_cons, IH, elem_of_cons, not_elem_of_union,
          not_elem_of_singleton.
        split.
        -- intros [->|(? & ? & ? & ?)]; [|tauto].
           split; [by left|]. split; [done|done].
        -- intros ([->|?] & ? & ?); [by left|].
           destruct (decide (x = c :: line')) as [->|Hne]; [by left|].
           right. tauto.
Qed.

Lemma filterSeen_NoDup seen lines : NoDup (filterSeen seen lines).
Proof.
  revert seen. induction lines as [|line rest IH]; intros seen; simpl.
  - constructor.
  - destruct (negb (nonEmpty line) || bool_decide (line ∈ seen)); [apply IH|].
    constructor; [|apply IH].
    rewrite filterSeen_elem, not_elem_of_union, not_elem_of_singleton. tauto.
Qed.

(** Lines that are distinct, not empty and not yet seen all pass. *)
Lemma filterSeen_fixed seen lines :
  NoDup lines ->
  Forall (fun line => line <> [] /\ line ∉ seen) lines ->
  filterSeen seen lines = lines.
Proof.
  revert seen. induction lines as [|line rest IH]; intros seen Hnd Hall; simpl; [done|].
  inversion Hnd as [|? ? Hnotin Hnd']; subst.
  inversion Hall as [|? ? [Hne Hseen] Hall']; subst.
  destruct line as [|c line']; [done|]. simpl.
  rewrite bool_decide_eq_false_2 by done. simpl.
  f_equal. apply IH; [done|].
  apply Forall_forall. intros x Hx.
  rewrite Forall_forall in Hall'. destruct (Hall' x Hx) as [Hx1 Hx2].
  split; [done|].
  rewrite not_elem_of_union, not_elem_of_singleton. split; [|done].
  intros ->. done.
Qed.

Lemma indexOf_elem x l : x ∈ l -> exists a, indexOf x l = Some a.
Proof.
  induction l as [|y l IH]; simpl; [by intros ?%elem_of_nil|].
  intros Hin. case_bool_decide as Hy; [by eexists|].
  apply elem_of_cons in Hin as [->|Hin]; [done|].
  destruct (IH Hin) as [a ->]. by eexists.
Qed.

(** The lines kept come in the order of their first occurrences. *)
Lemma filterSeen_order seen lines i j x y :
  filterSeen seen lines !! i = Some x ->
  filterSeen seen lines !! j = Some y ->
  (i < j)%nat ->
  exists a b, indexOf x lines = Some a /\ indexOf y lines = Some b /\ (a < b)%nat.
Proof.
  revert seen i j. induction lines as [|line rest IH]; intros seen i j; simpl; [done|].
  destruct (negb (nonEmpty line) || bool_decide (line ∈ seen)) eqn:Hskip.
  - intros Hx Hy Hlt.
    destruct (IH _ _ _ Hx Hy Hlt) as (a & b & Ha & Hb & Hab).
    assert (Hxin : x ∈ filterSeen seen rest) by (by eapply list_elem_of_lookup_2).
    assert (Hyin : y ∈ filterSeen seen rest) by (by eapply list_elem_of_lookup_2).
    apply filterSeen_elem in Hxin as (_ & Hxne & Hxseen).
    apply filterSeen_elem in Hyin as (_ & Hyne & Hyseen).
    assert (line <> x /\ line <> y) as [Hlx Hly].
    { apply orb_true_iff in Hskip as [Hempty|Hseen].
      - destruct line; [split; congruence|done].
      - apply bool_decide_eq_true in Hseen. split; congruence. }
    rewrite !bool_decide_eq_false_2 by done.
    exists (S a), (S b). rewrite Ha, Hb. simpl. repeat split; lia.
  - intros Hx Hy Hlt. destruct j as [|j]; [lia|]. simpl in Hy.
    assert (Hyin : y ∈ filterSeen ({[line]} ∪ seen) rest)
      by (by eapply list_elem_of_lookup_2).
    apply filterSeen_elem in Hyin as (Hyrest & _ & Hyseen).
    assert (Hly : line <> y).
    { apply not_elem_of_union in Hyseen as [Hy1 _].
      apply not_elem_of_singleton in Hy1. congruence. }
    destruct (indexOf_elem y rest Hyrest) as [b Hb].
    destruct i as [|i]; simpl in Hx.
    + injection Hx as <-.
      rewrite bool_decide_eq_true_2 by done.
      rewrite bool_decide_eq_false_2 by done.
      exists 0%nat, (S b). rewrite Hb. simpl. repeat split; lia.
    + destruct (IH _ _ _ Hx Hy ltac:(lia)) as (a & b' & Ha & Hb' & Hab).
      assert (Hxin : x ∈ filterSeen ({[line]} ∪ seen) rest)
        by (by eapply list_elem_of_lookup_2).
      apply filterSeen_elem in Hxin as (_ & _ & Hxseen).
      assert (Hlx : line <> x).
      { apply not_elem_of_union in Hxseen as [Hx1 _].
        apply not_elem_of_singleton in Hx1. congruence. }
      rewrite !bool_decide_eq_false_2 by done.
      exists (S a), (S b'). rewrite Ha, Hb'. simpl. repeat split; lia.
Qed.

(** The lines [deduplicateTasks] joins. *)
Lemma dedup_lines_spec (tasksText : jsstring) :
  let trimmed := map trim (split LF tasksText) in
  let lines := filterSeen ∅ trimmed in
  deduplicateTasks tasksText = join nl lines
  /\ NoDup lines
  /\ (forall x, x ∈ lines <-> (x ∈ trimmed /\ x <> []))
  /\ (forall i j x y, (lines !! i) = Some x -> (lines !! j) = Some y -> (i < j)%nat ->
        exists a b, indexOf x trimmed = Some a /\ indexOf y trimmed = Some b
                    /\ (a < b)%nat)
  /\ Forall (fun line => (LF ∉ line) /\ trim line = line) lines.
Proof.
  intros trimmed lines.
  split; [done|]. split; [apply filterSeen_NoDup|].
  split; [|split].
  - intros x. subst lines. rewrite filterSeen_elem. split; [tauto|].
    intros [Hx Hne]. repeat split; [done..|]. apply not_elem_of_empty.
  - intros i j x y. apply filterSeen_order.
  - apply Forall_forall. intros x Hx.
    apply filterSeen_elem in Hx as (Hx & _ & _).
    apply list_elem_of_fmap in Hx as (piece & -> & Hpiece).
    split; [|apply trim_idemp].
    intros Hin. apply trim_elem in Hin.
    pose proof (split_pieces_free LF tasksText) as Hfree.
    rewrite Forall_forall in Hfree. by apply (Hfree piece).
Qed.

(** Claim C10.  [deduplicateTasks] is idempotent: applied to its own
    output it returns that output unchanged, for every input string. *)
Theorem deduplicateTasks_idempotent (tasksText : jsstring) :
  deduplicateTasks (deduplicateTasks tasksText) = deduplicateTasks tasksText.
Proof.
  destruct (dedup_lines_spec tasksText) as (Heq & Hnd & Hin & _ & Hall).
  set (lines := filterSeen ∅ (map trim (split LF tasksText))) in *.
  rewrite Heq. destruct (decide (lines = [])) as [->|Hne]; [done|].
  unfold deduplicateTasks at 1. unfold nl.
  rewrite (split_join LF lines Hne)
    by (eapply Forall_impl; [exact Hall|]; by intros ? [? _]).
  assert (map trim lines = lines) as ->.
  { clear -Hall. induction Hall as [|line rest [_ Hfix] _ IH]; simpl; [done|].
    by rewrite Hfix, IH. }
  rewrite filterSeen_fixed; [done|done|].
  apply Forall_forall. intros x Hx. split; [|apply not_elem_of_empty].
  by apply Hin in Hx as [_ ?].
Qed.

Section SprintPlanner.
Context {num : Type} `{JsNumber num}.

Abbreviation SprintPlanInput := (SprintPlannerFlow.SprintPlanInput num).
Abbreviation SprintPlanOutput := SprintPlannerFlow.SprintPlanOutput.

(** The sprint-plan flow submits exactly one prompt, rendered from its
    input, whatever the model answers. *)
Lemma sprintPlannerFlow_sent (model : Model SprintPlanOutput) (input : SprintPlanInput) :
  sentUpstream (SprintPlannerFlow.sprintPlannerFlow model input)
  = [ render SprintPlannerFlow.sprintPlannerPrompt (SprintPlannerFlow.context input) ].
Proof.
  unfold SprintPlannerFlow.sprintPlannerFlow, defineFlow,
    SprintPlannerFlow.SprintPlanInputSchema, SprintPlannerFlow.prompt, definePrompt.
  destruct (model _) as [error| |output]; simpl; [done|done|].
  by destruct (negb _).
Qed.


(** How the flow settles, by the model's answer to its prompt. *)
Lemma sprintPlannerFlow_settled (model : Model SprintPlanOutput) (input : SprintPlanInput) :
  settled (SprintPlannerFlow.sprintPlannerFlow model input)
  = match model (render SprintPlannerFlow.sprintPlannerPrompt
                   (SprintPlannerFlow.context input)) with
    | ModelThrows error => Rejected error
    | NoOutput => Rejected (JsError SprintPlannerFlow.AI_EMPTY_RESPONSE)
    | Output output =>
        if includes (lit "## Sprint Plan") (SprintPlannerFlow.sprintPlan output)
        then Fulfilled output
        else Rejected (JsError SprintPlannerFlow.AI_FORMAT_ERROR)
    end.
Proof.
  unfold SprintPlannerFlow.sprintPlannerFlow, defineFlow,
    SprintPlannerFlow.SprintPlanInputSchema, SprintPlannerFlow.prompt, definePrompt.
  destruct (model _) as [error| |output]; simpl; [done|done|].
  by destruct (includes _ _).
Qed.

(** [suggestSprintPlan] settles as the flow does on the deduplicated
    input: its [catch] clause is not reached by a rejection of the
    flow. *)
Lemma suggestSprintPlan_unfold (model : Model SprintPlanOutput) (input : SprintPlanInput) :
  SprintPlannerFlow.suggestSprintPlan model input
  = SprintPlannerFlow.sprintPlannerFlow model
      (SprintPlannerFlow.withTasksText input (deduplicateTasks (SprintPlannerFlow.tasksText input))).
Proof. reflexivity. Qed.

(** Claim C2.  Whenever the model's response to the sprint-plan prompt
    has a [sprintPlan] field that does not contain the heading
    "## Sprint Plan", the flow fails with the format-error kind, an
    [Error] whose message starts with [AI_FORMAT_ERROR:], and returns
    no output record; this holds for the flow itself and for
    [suggestSprintPlan].  The page shows this message as it is, and it
    is not the message of the empty-response kind. *)
Theorem sprintPlan_without_heading_is_format_error
    (model : Model SprintPlanOutput) (input : SprintPlanInput)
    (output : SprintPlanOutput) :
  includes (lit "## Sprint Plan") (SprintPlannerFlow.sprintPlan output) = false ->
  (model (render SprintPlannerFlow.sprintPlannerPrompt (SprintPlannerFlow.context input))
     = Output output ->
   settled (SprintPlannerFlow.sprintPlannerFlow model input)
     = Rejected (JsError SprintPlannerFlow.AI_FORMAT_ERROR))
  /\ (model (SprintPlannerFlow.promptOf input) = Output output ->
      settled (SprintPlannerFlow.suggestSprintPlan model input)
        = Rejected (JsError SprintPlannerFlow.AI_FORMAT_ERROR))
  /\ startsWith (lit "AI_FORMAT_ERROR:") SprintPlannerFlow.AI_FORMAT_ERROR = true
  /\ SprintPlannerPage.errorMessage (JsError SprintPlannerFlow.AI_FORMAT_ERROR)
     = SprintPlannerFlow.AI_FORMAT_ERROR
  /\ SprintPlannerFlow.AI_FORMAT_ERROR <> SprintPlannerFlow.AI_EMPTY_RESPONSE.
Proof.
  intros Hmissing. split; [|split; [|split; [|split]]].
  - intros Hreply. by rewrite sprintPlannerFlow_settled, Hreply, Hmissing.
  - intros Hreply. rewrite suggestSprintPlan_unfold, sprintPlannerFlow_settled.
    unfold SprintPlannerFlow.promptOf in Hreply. by rewrite Hreply, Hmissing.
  - reflexivity.
  - reflexivity.
  - intros Heq. apply (f_equal (fun s => s !! 3%nat)) in Heq. vm_compute in Heq.
    discriminate.
Qed.

(** The state [onSubmit] leaves behind when the call fails. *)
Lemma onSubmit_settle_rejected (error : Thrown) (st : SprintPlannerPage.PageState num) :
  SprintPlannerPage.onSubmit_settle (Rejected error) st
  = {| SprintPlannerPage.aiResponse := None;
       SprintPlannerPage.isSubmittingToAI := false;
       SprintPlannerPage.isFetchingProjectTasks :=
         SprintPlannerPage.isFetchingProjectTasks st;
       SprintPlannerPage.form := SprintPlannerPage.form st;
       SprintPlannerPage.formErrors := SprintPlannerPage.formErrors st;
       SprintPlannerPage.toasts :=
         SprintPlannerPage.toasts st ++
         [ {| UseToast.variant := UseToast.destructive;
              UseToast.title := lit "AI Error";
              UseToast.description := SprintPlannerPage.errorMessage error |} ] |}.
Proof. reflexivity. Qed.

(** Claim C8.  When a submission of the sprint-planner page fails,
    for whatever reason the flow throws, the page's result slot is
    [null] afterwards: this holds for the handler run from any page
    state with any earlier result in it, and for the continuation
    that handles the rejection taken alone, whatever happened on the
    page while the call was in flight. *)
Theorem sprint_page_failure_leaves_no_result
    (model : Model SprintPlanOutput) (data : SprintPlanInput)
    (st : SprintPlannerPage.PageState num) (error : Thrown) :
  settled (SprintPlannerFlow.suggestSprintPlan model data) = Rejected error ->
  SprintPlannerPage.aiResponse (fst (SprintPlannerPage.onSubmit model data st)) = None
  /\ (forall st' : SprintPlannerPage.PageState num,
        SprintPlannerPage.aiResponse
          (SprintPlannerPage.onSubmit_settle (Rejected error) st') = None).
Proof.
  intros Hfail. split.
  - unfold SprintPlannerPage.onSubmit. simpl. by rewrite Hfail.
  - intros st'. by rewrite onSubmit_settle_rejected.
Qed.

Lemma serviceUnavailableMessage_not_empty_response (detail : jsstring) :
  serviceUnavailableMessage detail <> SprintPlannerFlow.AI_EMPTY_RESPONSE.
Proof. intros Heq. discriminate Heq. Qed.

(** The sprint planner on a missing output and on a service failure. *)
Lemma sprint_planner_failure_kinds
    (model : Model SprintPlanOutput) (input : SprintPlanInput)
    (st : SprintPlannerPage.PageState num) :
  (model (SprintPlannerFlow.promptOf input) = NoOutput ->
     settled (SprintPlannerFlow.suggestSprintPlan model input)
       = Rejected (JsError SprintPlannerFlow.AI_EMPTY_RESPONSE)
     /\ SprintPlannerPage.aiResponse (fst (SprintPlannerPage.onSubmit model input st)) = None
     /\ SprintPlannerPage.toasts (fst (SprintPlannerPage.onSubmit model input st))
        = SprintPlannerPage.toasts st ++
          [ {| UseToast.variant := UseToast.destructive;
               UseToast.title := lit "AI Error";
               UseToast.description := SprintPlannerFlow.AI_EMPTY_RESPONSE |} ])
  /\ (forall message,
        model (SprintPlannerFlow.promptOf input) = ModelThrows (JsError message) ->
        isServiceError message = true ->
        exists detail,
          SprintPlannerPage.aiResponse (fst (SprintPlannerPage.onSubmit model input st)) = None
          /\ SprintPlannerPage.toasts (fst (SprintPlannerPage.onSubmit model input st))
             = SprintPlannerPage.toasts st ++
               [ {| UseToast.variant := UseToast.destructive;
                    UseToast.title := lit "AI Error";
                    UseToast.description := serviceUnavailableMessage detail |} ]
          /\ serviceUnavailableMessage detail <> SprintPlannerFlow.AI_EMPTY_RESPONSE).
Proof.
  split.
  - intros Hreply.
    assert (Hs : settled (SprintPlannerFlow.suggestSprintPlan model input)
                 = Rejected (JsError SprintPlannerFlow.AI_EMPTY_RESPONSE)).
    { rewrite suggestSprintPlan_unfold, sprintPlannerFlow_settled.
      unfold SprintPlannerFlow.promptOf in Hreply. by rewrite Hreply. }
    split; [exact Hs|].
    unfold SprintPlannerPage.onSubmit. cbn [fst].
    rewrite Hs, onSubmit_settle_rejected.
    cbn [SprintPlannerPage.aiResponse SprintPlannerPage.toasts].
    split; [done|]. reflexivity.
  - intros message Hreply Hservice.
    assert (Hs : settled (SprintPlannerFlow.suggestSprintPlan model input)
                 = Rejected (JsError message)).
    { rewrite suggestSprintPlan_unfold, sprintPlannerFlow_settled.
      unfold SprintPlannerFlow.promptOf in Hreply. by rewrite Hreply. }
    eexists. unfold SprintPlannerPage.onSubmit. cbn [fst].
    rewrite Hs, onSubmit_settle_rejected.
    cbn [SprintPlannerPage.aiResponse SprintPlannerPage.toasts].
    unfold SprintPlannerPage.errorMessage. rewrite Hservice.
    split; [done|]. split; [reflexivity|].
    apply serviceUnavailableMessage_not_empty_response.
Qed.
End SprintPlanner.

(** ** The flows without a wrapper *)

(** What [detectScopeCreep] submits and how it settles. *)
Lemma detectScopeCreep_run (model : Model ScopeCreepFlow.ScopeCreepOutput)
    (input : ScopeCreepFlow.ScopeCreepInput) :
  let rendered :=
    render ScopeCreepFlow.scopeCreepDetectorPrompt (ScopeCreepFlow.context input) in
  ScopeCreepFlow.detectScopeCreep model input
  = if nonEmpty (ScopeCreepFlow.currentTasksText input)
    then ([rendered],
          match model rendered with
          | ModelThrows error => Rejected error
          | NoOutput =>
              Rejected (JsError (lit "AI did not return a valid scope creep analysis."))
          | Output output => Fulfilled output
          end)
    else ([], Rejected (validationError [ScopeCreepFlow.emptyCurrentTasks])).
Proof.
  unfold ScopeCreepFlow.detectScopeCreep, ScopeCreepFlow.scopeCreepDetectorFlow,
    defineFlow, ScopeCreepFlow.ScopeCreepInputSchema, minLength,
    ScopeCreepFlow.prompt, definePrompt.
  destruct (ScopeCreepFlow.currentTasksText input) as [|c text]; simpl; [done|].
  by destruct (model _).
Qed.

Lemma analyzeSprintRisks_run (model : Model RiskAnalysisFlow.RiskAnalysisOutput)
    (input : RiskAnalysisFlow.RiskAnalysisInput) :
  let rendered :=
    render RiskAnalysisFlow.sprintRiskAnalysisPrompt (RiskAnalysisFlow.context input) in
  RiskAnalysisFlow.analyzeSprintRisks model input
  = ([rendered],
     match model rendered with
     | ModelThrows error => Rejected error
     | NoOutput => Rejected (JsError (lit "AI did not return a valid risk analysis."))
     | Output output => Fulfilled output
     end).
Proof.
  unfold RiskAnalysisFlow.analyzeSprintRisks, RiskAnalysisFlow.riskAnalysisFlow,
    defineFlow, RiskAnalysisFlow.RiskAnalysisInputSchema,
    RiskAnalysisFlow.prompt, definePrompt.
  simpl. by destruct (model _).
Qed.

Lemma generateSprintRetrospective_run
    (model : Model RetrospectiveFlow.SprintRetrospectiveOutput)
    (input : RetrospectiveFlow.SprintRetrospectiveInput) :
  let rendered :=
    render RetrospectiveFlow.sprintRetrospectivePrompt (RetrospectiveFlow.context input) in
  RetrospectiveFlow.generateSprintRetrospective model input
  = ([rendered],
     match model rendered with
     | ModelThrows error => Rejected error
     | NoOutput => Rejected (JsError (lit "AI did not return a valid sprint retrospective."))
     | Output output => Fulfilled output
     end).
Proof.
  unfold RetrospectiveFlow.generateSprintRetrospective,
    RetrospectiveFlow.generateSprintRetrospectiveFlow,
    defineFlow, RetrospectiveFlow.SprintRetrospectiveInputSchema,
    RetrospectiveFlow.prompt, definePrompt.
  simpl. by destruct (model _).
Qed.

(** ** Failure kinds *)

Section FailureKinds.
Context {num : Type} `{JsNumber num}.

(** Claim C3, as amended.  In the sprint planner a model call that
    returns no output object makes [suggestSprintPlan] fail with the
    [AI_EMPTY_RESPONSE] error, which the page shows as it is; a
    transport exception whose message contains "503", or in lower
    case "model is overloaded" or "service unavailable", is shown by
    the page as the service-unavailable message, which differs from
    the empty-response message; the result slot is [null] in both
    cases.  The scope-creep, risk-analysis and retrospective flows
    fail on a missing output with their own fixed error and pass a
    transport exception on unchanged; none returns an output record. *)
Theorem failure_kinds_of_the_flows
    (modelEmpty modelDown : Model SprintPlannerFlow.SprintPlanOutput)
    (input : SprintPlannerFlow.SprintPlanInput num)
    (st : SprintPlannerPage.PageState num) (message : jsstring) :
  modelEmpty (SprintPlannerFlow.promptOf input) = NoOutput ->
  modelDown (SprintPlannerFlow.promptOf input) = ModelThrows (JsError message) ->
  isServiceError message = true ->
  let emptyRun := fst (SprintPlannerPage.onSubmit modelEmpty input st) in
  let downRun := fst (SprintPlannerPage.onSubmit modelDown input st) in
  let aiError description :=
    {| UseToast.variant := UseToast.destructive;
       UseToast.title := lit "AI Error";
       UseToast.description := description |} in
  settled (SprintPlannerFlow.suggestSprintPlan modelEmpty input)
    = Rejected (JsError SprintPlannerFlow.AI_EMPTY_RESPONSE)
  /\ SprintPlannerPage.aiResponse emptyRun = None
  /\ SprintPlannerPage.toasts emptyRun
     = SprintPlannerPage.toasts st ++ [ aiError SprintPlannerFlow.AI_EMPTY_RESPONSE ]
  /\ (exists detail,
        SprintPlannerPage.aiResponse downRun = None
        /\ SprintPlannerPage.toasts downRun
           = SprintPlannerPage.toasts st ++ [ aiError (serviceUnavailableMessage detail) ]
        /\ serviceUnavailableMessage detail <> SprintPlannerFlow.AI_EMPTY_RESPONSE)
  /\ (forall model i error,
        nonEmpty (ScopeCreepFlow.currentTasksText i) = true ->
        let rendered :=
          render ScopeCreepFlow.scopeCreepDetectorPrompt (ScopeCreepFlow.context i) in
        (model rendered = NoOutput ->
           settled (ScopeCreepFlow.detectScopeCreep model i)
           = Rejected (JsError (lit "AI did not return a valid scope creep analysis.")))
        /\ (model rendered = ModelThrows error ->
            settled (ScopeCreepFlow.detectScopeCreep model i) = Rejected error))
  /\ (forall model i error,
        let rendered :=
          render RiskAnalysisFlow.sprintRiskAnalysisPrompt (RiskAnalysisFlow.context i) in
        (model rendered = NoOutput ->
           settled (RiskAnalysisFlow.analyzeSprintRisks model i)
           = Rejected (JsError (lit "AI did not return a valid risk analysis.")))
        /\ (model rendered = ModelThrows error ->
            settled (RiskAnalysisFlow.analyzeSprintRisks model i) = Rejected error))
  /\ (forall model i error,
        let rendered :=
          render RetrospectiveFlow.sprintRetrospectivePrompt (RetrospectiveFlow.context i) in
        (model rendered = NoOutput ->
           settled (RetrospectiveFlow.generateSprintRetrospective model i)
           = Rejected (JsError (lit "AI did not return a valid sprint retrospective.")))
        /\ (model rendered = ModelThrows error ->
            settled (RetrospectiveFlow.generateSprintRetrospective model i)
            = Rejected error)).
Proof.
  intros Hempty Hdown Hservice emptyRun downRun aiError.
  destruct (sprint_planner_failure_kinds modelEmpty input st) as [He _].
  destruct (sprint_planner_failure_kinds modelDown input st) as [_ Hd].
  destruct (He Hempty) as (He1 & He2 & He3).
  split; [exact He1|]. split; [exact He2|]. split; [exact He3|].
  split; [exact (Hd message Hdown Hservice)|].
  split; [|split].
  - intros model i error Hne rendered.
    rewrite detectScopeCreep_run, Hne. fold rendered. cbn [settled snd].
    split; by intros ->.
  - intros model i error rendered.
    rewrite analyzeSprintRisks_run. fold rendered. cbn [settled snd].
    split; by intros ->.
  - intros model i error rendered.
    rewrite generateSprintRetrospective_run. fold rendered. cbn [settled snd].
    split; by intros ->.
Qed.
End FailureKinds.

(** ** Instances *)

Lemma sprintPlan_without_heading_witness :
  includes (lit "## Sprint Plan")
    (SprintPlannerFlow.sprintPlan Samples.planWithoutHeading) = false
  /\ settled (SprintPlannerFlow.suggestSprintPlan
                (Samples.answers (Output Samples.planWithoutHeading)) Samples.scenario1)
     = Rejected (JsError SprintPlannerFlow.AI_FORMAT_ERROR).
Proof.
  split; [reflexivity|].
  apply (sprintPlan_without_heading_is_format_error
           (Samples.answers (Output Samples.planWithoutHeading))
           Samples.scenario1 Samples.planWithoutHeading); reflexivity.
Defined.

Lemma sprint_page_failure_witness :
  settled (SprintPlannerFlow.suggestSprintPlan
             (Samples.answers NoOutput) Samples.scenario1)
  = Rejected (JsError SprintPlannerFlow.AI_EMPTY_RESPONSE)
  /\ SprintPlannerPage.aiResponse
       (fst (SprintPlannerPage.onSubmit (Samples.answers NoOutput)
               Samples.scenario1 Samples.pageWithPlan)) = None.
Proof.
  split; [reflexivity|].
  apply (sprint_page_failure_leaves_no_result (Samples.answers NoOutput)
           Samples.scenario1 Samples.pageWithPlan
           (JsError SprintPlannerFlow.AI_EMPTY_RESPONSE)).
  reflexivity.
Defined.

Lemma failure_kinds_witness :
  isServiceError (lit "503 Service Unavailable") = true
  /\ settled (SprintPlannerFlow.suggestSprintPlan
                (Samples.answers NoOutput) Samples.scenario1)
     = Rejected (JsError SprintPlannerFlow.AI_EMPTY_RESPONSE)
  /\ SprintPlannerPage.aiResponse
       (fst (SprintPlannerPage.onSubmit
               (Samples.answers (ModelThrows (JsError (lit "503 Service Unavailable"))))
               Samples.scenario1 Samples.pageWithPlan)) = None.
Proof.
  split; [reflexivity|].
  pose proof (failure_kinds_of_the_flows
                (Samples.answers NoOutput)
                (Samples.answers (ModelThrows (JsError (lit "503 Service Unavailable"))))
                Samples.scenario1 Samples.pageWithPlan (lit "503 Service Unavailable")
                eq_refl eq_refl eq_refl) as (Hempty & _ & _ & (detail & Hslot & _) & _).
  split; [exact Hempty|exact Hslot].
Defined.

(** Claim C3 does not hold as stated.  On the scope-creep page a missing
    output and a transport exception mentioning "503" end in the same
    page state, with the same message and a placeholder record of creep
    level "None" stored as the result, and [detectScopeCreep] passes the
    transport exception on as it is; in the sprint planner an exception
    that mentions "overloaded" without the words "model is" is shown
    with its own message, not as the service-unavailable one. *)
Lemma failure_kinds_counterexample :
  fst (ScopeCreepPage.onSubmit (Samples.answers NoOutput)
         Samples.grownSprint Samples.freshScopePage)
  = fst (ScopeCreepPage.onSubmit
           (Samples.answers (ModelThrows (JsError (lit "503 Service Unavailable"))))
           Samples.grownSprint Samples.freshScopePage)
  /\ ScopeCreepPage.aiResponse
       (fst (ScopeCreepPage.onSubmit (Samples.answers NoOutput)
               Samples.grownSprint Samples.freshScopePage))
     = Some {| ScopeCreepFlow.analysisReport := lit "Error generating analysis.";
               ScopeCreepFlow.creepLevel := ScopeCreepFlow.CreepLevel_None;
               ScopeCreepFlow.recommendations := Some (lit "An unexpected error occurred.") |}
  /\ settled (ScopeCreepFlow.detectScopeCreep
                (Samples.answers (ModelThrows (JsError (lit "503 Service Unavailable"))))
                Samples.grownSprint)
     = Rejected (JsError (lit "503 Service Unavailable"))
  /\ isServiceError (lit "Upstream overloaded") = false
  /\ SprintPlannerPage.toasts
       (fst (SprintPlannerPage.onSubmit
               (Samples.answers (ModelThrows (JsError (lit "Upstream overloaded"))))
               Samples.scenario1 Samples.freshPage))
     = [ {| UseToast.variant := UseToast.destructive;
            UseToast.title := lit "AI Error";
            UseToast.description := lit "Upstream overloaded" |} ].
Proof. vm_compute. repeat split. Qed.

(** ** Prompt rendering *)

Ltac flatten_apps := rewrite <- ?app_assoc, ?app_nil_r; cbn [app].

Section Rendering.
Context {num : Type} `{JsNumber num}.

Lemma sprint_context_lookups (input : SprintPlannerFlow.SprintPlanInput num) :
  SprintPlannerFlow.context input !! "sprintDuration"
    = VString <$> SprintPlannerFlow.sprintDuration input
  /\ SprintPlannerFlow.context input !! "teamSize"
    = VString <$> SprintPlannerFlow.teamSize input
  /\ SprintPlannerFlow.context input !! "teamStoryPointCapacity"
    = VNumber <$> SprintPlannerFlow.teamStoryPointCapacity input
  /\ SprintPlannerFlow.context input !! "sprintGoal"
    = VString <$> SprintPlannerFlow.sprintGoal input
  /\ SprintPlannerFlow.context input !! "tasksText"
    = Some (VString (SprintPlannerFlow.tasksText input)).
Proof.
  destruct input as [text [duration|] [size|] [capacity|] [goal|]];
    repeat split; reflexivity.
Qed.

(** The sprint-planner prompt, section by section. *)
Lemma sprintPlannerPrompt_rendered (input : SprintPlannerFlow.SprintPlanInput num) :
  render SprintPlannerFlow.sprintPlannerPrompt (SprintPlannerFlow.context input)
  = SprintPlannerFlow.sprintPlannerPrompt_text1
    ++ optionalSection (lit "- Sprint Duration: ")
         (SprintPlannerFlow.sprintDuration input) nl
    ++ optionalSection (lit "- Team Size: ") (SprintPlannerFlow.teamSize input) nl
    ++ optionalNumberSection (lit "- Team Capacity: ")
         (SprintPlannerFlow.teamStoryPointCapacity input)
         (lit " story points per sprint" ++ nl)
    ++ optionalSection (lit "- Sprint Goal: ") (SprintPlannerFlow.sprintGoal input) nl
    ++ SprintPlannerFlow.sprintPlannerPrompt_text2
    ++ SprintPlannerFlow.tasksText input
    ++ SprintPlannerFlow.sprintPlannerPrompt_text3.
Proof.
  destruct (sprint_context_lookups input) as (H1 & H2 & H3 & H4 & H5).
  unfold render, SprintPlannerFlow.sprintPlannerPrompt.
  cbn [map concat renderNode]. rewrite H1, H2, H3, H4, H5.
  unfold optionalSection, optionalNumberSection.
  destruct (SprintPlannerFlow.sprintDuration input) as [duration|];
    destruct (SprintPlannerFlow.teamSize input) as [size|];
    destruct (SprintPlannerFlow.teamStoryPointCapacity input) as [capacity|];
    destruct (SprintPlannerFlow.sprintGoal input) as [goal|];
    cbn [fmap option_fmap option_map isTruthy display];
    repeat match goal with
           | |- context [nonEmpty ?s] => destruct (nonEmpty s)
           | |- context [toBoolean ?n] => destruct (toBoolean n)
           end;
    flatten_apps; reflexivity.
Qed.
End Rendering.

Lemma scopeCreep_context_lookups (input : ScopeCreepFlow.ScopeCreepInput) :
  ScopeCreepFlow.context input !! "currentTasksText"
    = Some (VString (ScopeCreepFlow.currentTasksText input))
  /\ ScopeCreepFlow.context input !! "originalTasksText"
    = VString <$> ScopeCreepFlow.originalTasksText input
  /\ ScopeCreepFlow.context input !! "sprintGoal"
    = VString <$> ScopeCreepFlow.sprintGoal input.
Proof.
  destruct input as [current [original|] [goal|]]; repeat split; reflexivity.
Qed.

Lemma scopeCreepDetectorPrompt_rendered (input : ScopeCreepFlow.ScopeCreepInput) :
  render ScopeCreepFlow.scopeCreepDetectorPrompt (ScopeCreepFlow.context input)
  = ScopeCreepFlow.scopeCreepDetectorPrompt_text1
    ++ ScopeCreepFlow.currentTasksText input
    ++ ScopeCreepFlow.scopeCreepDetectorPrompt_text2
    ++ optionalSection (lit "Original Sprint Tasks:" ++ nl)
         (ScopeCreepFlow.originalTasksText input) nl
    ++ ScopeCreepFlow.scopeCreepDetectorPrompt_text3
    ++ optionalSection (lit "Sprint Goal:" ++ nl) (ScopeCreepFlow.sprintGoal input) nl
    ++ ScopeCreepFlow.scopeCreepDetectorPrompt_text4.
Proof.
  destruct (scopeCreep_context_lookups input) as (H1 & H2 & H3).
  unfold render, ScopeCreepFlow.scopeCreepDetectorPrompt.
  cbn [map concat renderNode]. rewrite H1, H2, H3.
  unfold optionalSection.
  destruct (ScopeCreepFlow.originalTasksText input) as [original|];
    destruct (ScopeCreepFlow.sprintGoal input) as [goal|];
    cbn [fmap option_fmap option_map isTruthy display];
    repeat match goal with
           | |- context [nonEmpty ?s] => destruct (nonEmpty s)
           end;
    flatten_apps; reflexivity.
Qed.

Lemma riskAnalysis_context_lookups (input : RiskAnalysisFlow.RiskAnalysisInput) :
  RiskAnalysisFlow.context input !! "tasksJson"
    = Some (VString (RiskAnalysisFlow.tasksJson input))
  /\ RiskAnalysisFlow.context input !! "teamContext"
    = VString <$> RiskAnalysisFlow.teamContext input.
Proof. destruct input as [tasks [team|]]; repeat split; reflexivity. Qed.

Lemma sprintRiskAnalysisPrompt_rendered (input : RiskAnalysisFlow.RiskAnalysisInput) :
  render RiskAnalysisFlow.sprintRiskAnalysisPrompt (RiskAnalysisFlow.context input)
  = RiskAnalysisFlow.sprintRiskAnalysisPrompt_text1
    ++ RiskAnalysisFlow.tasksJson input
    ++ RiskAnalysisFlow.sprintRiskAnalysisPrompt_text2
    ++ optionalSection (lit "Team Context:" ++ nl) (RiskAnalysisFlow.teamContext input) nl
    ++ RiskAnalysisFlow.sprintRiskAnalysisPrompt_text3.
Proof.
  destruct (riskAnalysis_context_lookups input) as (H1 & H2).
  unfold render, RiskAnalysisFlow.sprintRiskAnalysisPrompt.
  cbn [map concat renderNode]. rewrite H1, H2.
  unfold optionalSection.
  destruct (RiskAnalysisFlow.teamContext input) as [team|];
    cbn [fmap option_fmap option_map isTruthy display];
    repeat match goal with
           | |- context [nonEmpty ?s] => destruct (nonEmpty s)
           end;
    flatten_apps; reflexivity.
Qed.

Lemma retrospective_context_lookups (input : RetrospectiveFlow.SprintRetrospectiveInput) :
  RetrospectiveFlow.context input !! "tasksJson"
    = Some (VString (RetrospectiveFlow.tasksJson input))
  /\ RetrospectiveFlow.context input !! "sprintGoal"
    = VString <$> RetrospectiveFlow.sprintGoal input
  /\ RetrospectiveFlow.context input !! "teamSentiment"
    = VString <$> RetrospectiveFlow.teamSentiment input
  /\ RetrospectiveFlow.context input !! "additionalNotes"
    = VString <$> RetrospectiveFlow.additionalNotes input.
Proof.
  destruct input as [tasks [goal|] [sentiment|] [notes|]]; repeat split; reflexivity.
Qed.

Lemma sprintRetrospectivePrompt_rendered
    (input : RetrospectiveFlow.SprintRetrospectiveInput) :
  render RetrospectiveFlow.sprintRetrospectivePrompt (RetrospectiveFlow.context input)
  = RetrospectiveFlow.sprintRetrospectivePrompt_text1
    ++ RetrospectiveFlow.tasksJson input
    ++ RetrospectiveFlow.sprintRetrospectivePrompt_text2
    ++ optionalSection (lit "Sprint Goal:" ++ nl) (RetrospectiveFlow.sprintGoal input) nl
    ++ RetrospectiveFlow.sprintRetrospectivePrompt_text3
    ++ optionalSection (lit "Team Sentiment:" ++ nl)
         (RetrospectiveFlow.teamSentiment input) nl
    ++ RetrospectiveFlow.sprintRetrospectivePrompt_text4
    ++ optionalSection (lit "Additional Notes:" ++ nl)
         (RetrospectiveFlow.additionalNotes input) nl
    ++ RetrospectiveFlow.sprintRetrospectivePrompt_text5.
Proof.
  destruct (retrospective_context_lookups input) as (H1 & H2 & H3 & H4).
  unfold render, RetrospectiveFlow.sprintRetrospectivePrompt.
  cbn [map concat renderNode]. rewrite H1, H2, H3, H4.
  unfold optionalSection.
  destruct (RetrospectiveFlow.sprintGoal input) as [goal|];
    destruct (RetrospectiveFlow.teamSentiment input) as [sentiment|];
    destruct (RetrospectiveFlow.additionalNotes input) as [notes|];
    cbn [fmap option_fmap option_map isTruthy display];
    repeat match goal with
           | |- context [nonEmpty ?s] => destruct (nonEmpty s)
           end;
    flatten_apps; reflexivity.
Qed.

Section OptionalSections.
Context {num : Type} `{JsNumber num}.

(** Claim C4, as amended.  In each of the four prompts the
    instructional section of an optional text field is left out
    altogether when the field is undefined or the empty string, and is
    present with the value inserted as it is when the field is a
    non-empty string; the section of the numeric capacity is left out
    when the capacity is undefined or falsy, as the number 0 is, and is
    present with the number printed otherwise. *)
Theorem optional_sections_of_the_prompts :
  (forall label closing,
     optionalSection label None closing = []
     /\ optionalSection label (Some []) closing = []
     /\ (forall value, value <> [] ->
           optionalSection label (Some value) closing = label ++ value ++ closing))
  /\ (forall label closing,
        optionalNumberSection label None closing = []
        /\ (forall n : num, toBoolean n = false ->
              optionalNumberSection label (Some n) closing = [])
        /\ (forall n : num, toBoolean n = true ->
              optionalNumberSection label (Some n) closing
              = label ++ numberToString n ++ closing))
  /\ (forall input : SprintPlannerFlow.SprintPlanInput num,
        render SprintPlannerFlow.sprintPlannerPrompt (SprintPlannerFlow.context input)
        = SprintPlannerFlow.sprintPlannerPrompt_text1
          ++ optionalSection (lit "- Sprint Duration: ")
               (SprintPlannerFlow.sprintDuration input) nl
          ++ optionalSection (lit "- Team Size: ") (SprintPlannerFlow.teamSize input) nl
          ++ optionalNumberSection (lit "- Team Capacity: ")
               (SprintPlannerFlow.teamStoryPointCapacity input)
               (lit " story points per sprint" ++ nl)
          ++ optionalSection (lit "- Sprint Goal: ")
               (SprintPlannerFlow.sprintGoal input) nl
          ++ SprintPlannerFlow.sprintPlannerPrompt_text2
          ++ SprintPlannerFlow.tasksText input
          ++ SprintPlannerFlow.sprintPlannerPrompt_text3)
  /\ (forall input : ScopeCreepFlow.ScopeCreepInput,
        render ScopeCreepFlow.scopeCreepDetectorPrompt (ScopeCreepFlow.context input)
        = ScopeCreepFlow.scopeCreepDetectorPrompt_text1
          ++ ScopeCreepFlow.currentTasksText input
          ++ ScopeCreepFlow.scopeCreepDetectorPrompt_text2
          ++ optionalSection (lit "Original Sprint Tasks:" ++ nl)
               (ScopeCreepFlow.originalTasksText input) nl
          ++ ScopeCreepFlow.scopeCreepDetectorPrompt_text3
          ++ optionalSection (lit "Sprint Goal:" ++ nl)
               (ScopeCreepFlow.sprintGoal input) nl
          ++ ScopeCreepFlow.scopeCreepDetectorPrompt_text4)
  /\ (forall input : RiskAnalysisFlow.RiskAnalysisInput,
        render RiskAnalysisFlow.sprintRiskAnalysisPrompt (RiskAnalysisFlow.context input)
        = RiskAnalysisFlow.sprintRiskAnalysisPrompt_text1
          ++ RiskAnalysisFlow.tasksJson input
          ++ RiskAnalysisFlow.sprintRiskAnalysisPrompt_text2
          ++ optionalSection (lit "Team Context:" ++ nl)
               (RiskAnalysisFlow.teamContext input) nl
          ++ RiskAnalysisFlow.sprintRiskAnalysisPrompt_text3)
  /\ (forall input : RetrospectiveFlow.SprintRetrospectiveInput,
        render RetrospectiveFlow.sprintRetrospectivePrompt
          (RetrospectiveFlow.context input)
        = RetrospectiveFlow.sprintRetrospectivePrompt_text1
          ++ RetrospectiveFlow.tasksJson input
          ++ RetrospectiveFlow.sprintRetrospectivePrompt_text2
          ++ optionalSection (lit "Sprint Goal:" ++ nl)
               (RetrospectiveFlow.sprintGoal input) nl
          ++ RetrospectiveFlow.sprintRetrospectivePrompt_text3
          ++ optionalSection (lit "Team Sentiment:" ++ nl)
               (RetrospectiveFlow.teamSentiment input) nl
          ++ RetrospectiveFlow.sprintRetrospectivePrompt_text4
          ++ optionalSection (lit "Additional Notes:" ++ nl)
               (RetrospectiveFlow.additionalNotes input) nl
          ++ RetrospectiveFlow.sprintRetrospectivePrompt_text5).
Proof.
  split; [|split]; [| |split; [|split; [|split]]].
  - intros label closing. repeat split.
    intros [|c value] Hne; [done|reflexivity].
  - intros label closing. split; [reflexivity|].
    split; intros n Hn; unfold optionalNumberSection; by rewrite Hn.
  - apply sprintPlannerPrompt_rendered.
  - apply scopeCreepDetectorPrompt_rendered.
  - apply sprintRiskAnalysisPrompt_rendered.
  - apply sprintRetrospectivePrompt_rendered.
Qed.
End OptionalSections.

(** Claim C4 does not hold as stated.  A capacity of 0 story points is
    a number the client schema accepts, so the field is present; the
    prompt is the one rendered without any capacity, with no capacity
    section in it, while a capacity of 5 has its section. *)
Lemma capacity_zero_counterexample :
  SprintPlannerPage.SprintPlanInputClientSchema (Samples.withCapacity (Some 0%Z)) = []
  /\ render SprintPlannerFlow.sprintPlannerPrompt
       (SprintPlannerFlow.context (Samples.withCapacity (Some 0%Z)))
     = render SprintPlannerFlow.sprintPlannerPrompt
         (SprintPlannerFlow.context (Samples.withCapacity None))
  /\ includes (lit "- Team Capacity: ")
       (render SprintPlannerFlow.sprintPlannerPrompt
          (SprintPlannerFlow.context (Samples.withCapacity (Some 0%Z)))) = false
  /\ includes (lit "- Team Capacity: 5 story points per sprint")
       (render SprintPlannerFlow.sprintPlannerPrompt
          (SprintPlannerFlow.context (Samples.withCapacity (Some 5%Z)))) = true.
Proof. vm_compute. repeat split. Qed.

(** ** Input validation *)

Section Validation.
Context {num : Type} `{JsNumber num}.

End Validation.



(** ** Scope creep *)




(** ** Task server actions *)

Section TaskGuards.
Context {num : Type}.

Lemma notOwnedBy_true (w : TaskActions.World num) (projectId userId : jsstring) :
  (TaskActions.projects (TaskActions.store w) !! projectId = None
   \/ exists doc, TaskActions.projects (TaskActions.store w) !! projectId = Some doc
                  /\ TaskActions.ownerId doc <> Some userId) ->
  TaskActions.notOwnedBy userId
    (TaskActions.projects (TaskActions.store w) !! projectId) = true.
Proof.
  intros [->|(doc & -> & Hne)]; [done|]. simpl.
  by rewrite bool_decide_eq_false_2.
Qed.

Ltac run_guard Hguard :=
  unfold TaskActions.guardedOutcome, TaskActions.tryCatch, mbind, TaskActions.Action_bind,
    TaskActions._getDbInstance;
  destruct (negb (TaskActions.areEssentialConfigsPresent _)); [by auto|];
  destruct (TaskActions.sdkWorks _); [|by auto];
  match goal with
  | |- context [if ?c then mret _ else _] => destruct c; [by auto|]
  end;
  unfold TaskActions.getDoc_project, TaskActions.request;
  destruct (TaskActions.faults _) as [|[] rest]; cbn -[TaskActions.notOwnedBy];
  rewrite ?Hguard; cbn; auto.

Lemma getTasksByProjectId_guard (w : TaskActions.World num) (projectId userId : jsstring) :
  (TaskActions.projects (TaskActions.store w) !! projectId = None
   \/ exists doc, TaskActions.projects (TaskActions.store w) !! projectId = Some doc
                  /\ TaskActions.ownerId doc <> Some userId) ->
  TaskActions.guardedOutcome w projectId [] (TaskActions.getTasksByProjectId projectId userId w).
Proof.
  intros Hguard%notOwnedBy_true. unfold TaskActions.getTasksByProjectId.
  run_guard Hguard.
Qed.

Lemma updateTask_guard (w : TaskActions.World num) (taskData : Types.Task num)
    (userId : jsstring) :
  (TaskActions.projects (TaskActions.store w) !! Types.projectId taskData = None
   \/ exists doc,
        TaskActions.projects (TaskActions.store w) !! Types.projectId taskData = Some doc
        /\ TaskActions.ownerId doc <> Some userId) ->
  TaskActions.guardedOutcome w (Types.projectId taskData) None (TaskActions.updateTask taskData userId w).
Proof.
  intros Hguard%notOwnedBy_true. unfold TaskActions.updateTask.
  run_guard Hguard.
Qed.

Lemma deleteTask_guard (w : TaskActions.World num) (projectId taskId userId : jsstring) :
  (TaskActions.projects (TaskActions.store w) !! projectId = None
   \/ exists doc, TaskActions.projects (TaskActions.store w) !! projectId = Some doc
                  /\ TaskActions.ownerId doc <> Some userId) ->
  TaskActions.guardedOutcome w projectId false (TaskActions.deleteTask projectId taskId userId w).
Proof.
  intros Hguard%notOwnedBy_true. unfold TaskActions.deleteTask.
  run_guard Hguard.
Qed.

(** Claim C9.  For every user and project, when the project does not
    exist or its [ownerId] differs from the calling user,
    [getTasksByProjectId], [updateTask] and [deleteTask] return [[]],
    [null] and [false], leave the database as it was, and make no
    request that reads or writes the project's tasks: the only request
    they may have made is the one for the project document. *)
Theorem task_actions_refuse_other_owners
    (w : TaskActions.World num) (projectId userId taskId : jsstring)
    (taskData : Types.Task num) :
  Types.projectId taskData = projectId ->
  (TaskActions.projects (TaskActions.store w) !! projectId = None
   \/ exists doc, TaskActions.projects (TaskActions.store w) !! projectId = Some doc
                  /\ TaskActions.ownerId doc <> Some userId) ->
  let reads := TaskActions.getTasksByProjectId projectId userId w in
  let updates := TaskActions.updateTask taskData userId w in
  let deletes := TaskActions.deleteTask projectId taskId userId w in
  (fst reads = Normal [] /\ fst updates = Normal None /\ fst deletes = Normal false)
  /\ (TaskActions.store (snd reads) = TaskActions.store w
      /\ TaskActions.store (snd updates) = TaskActions.store w
      /\ TaskActions.store (snd deletes) = TaskActions.store w)
  /\ (forall run : TaskActions.World num, run = snd reads \/ run = snd updates \/ run = snd deletes ->
        exists new,
          TaskActions.requests run = TaskActions.requests w ++ new
          /\ Forall (fun r => TaskActions.touchesTasksOf projectId r = false) new).
Proof.
  intros <- Hguard reads updates deletes.
  destruct (getTasksByProjectId_guard w _ userId Hguard) as (Hr1 & Hr2 & Hr3).
  destruct (updateTask_guard w taskData userId Hguard) as (Hu1 & Hu2 & Hu3).
  destruct (deleteTask_guard w _ taskId userId Hguard) as (Hd1 & Hd2 & Hd3).
  split; [done|]. split; [done|].
  assert (Hquiet : forall run : TaskActions.World num,
            TaskActions.requests run = TaskActions.requests w
            \/ TaskActions.requests run
               = TaskActions.requests w ++ [TaskActions.GetProject (Types.projectId taskData)] ->
            exists new,
              TaskActions.requests run = TaskActions.requests w ++ new
              /\ Forall (fun r => TaskActions.touchesTasksOf (Types.projectId taskData) r = false)
                   new).
  { intros run [Hrun|Hrun].
    - exists []. by rewrite app_nil_r.
    - eexists. split; [exact Hrun|]. by repeat constructor. }
  intros run [->|[->| ->]]; by apply Hquiet.
Qed.
End TaskGuards.

(** ** Loading the tasks of the active project *)

Section LoadTasks.
Context {num : Type} `{JsNumber num}.

Lemma filter_isToDo (projectTasks : list (Types.Task num)) :
  filter (fun task => SprintPlannerPage.isToDo task = true) projectTasks
  = filter (fun task => Types.status task = lit "To Do") projectTasks.
Proof.
  apply list_filter_iff. intros task. unfold SprintPlannerPage.isToDo.
  apply bool_decide_eq_true.
Qed.

(** What [loadProjectTasks] writes into the form. *)
Lemma loadProjectTasks_form (projectTasks : list (Types.Task num))
    (st : SprintPlannerPage.PageState num) :
  SprintPlannerPage.form (SprintPlannerPage.loadProjectTasks projectTasks st)
  = SprintPlannerFlow.withTasksText (SprintPlannerPage.form st)
      (join nl (map SprintPlannerPage.formatTask
                  (filter (fun task => Types.status task = lit "To Do") projectTasks))).
Proof.
  unfold SprintPlannerPage.loadProjectTasks. rewrite filter_isToDo.
  destruct projectTasks as [|task rest]; [reflexivity|].
  cbn [length Nat.ltb Nat.leb].
  destruct (filter _ (task :: rest)) as [|todo todos]; reflexivity.
Qed.

(** Claim C7, as amended.  With a user logged in, an active project
    selected and the project's tasks fetched, the "load tasks" action
    of the sprint-planner page selects exactly the tasks whose status
    is 'To Do', turns each into the text "<title> – <priority> –
    <effort>" with 'Untitled Task' for an empty title, 'N/A' for a
    missing priority and 0 for a missing (or zero) effort, and sets the
    form's task-list field to these texts joined by line breaks; the
    other fields of the form and the stored result stay as they
    were. *)
Theorem load_tasks_fills_the_task_list
    (user : AuthContext.User) (localStorage : gmap jsstring jsstring)
    (getTasksByProjectId : jsstring -> jsstring -> Settled (list (Types.Task num)))
    (st : SprintPlannerPage.PageState num)
    (activeProjectId : jsstring) (projectTasks : list (Types.Task num)) :
  nonEmpty (AuthContext.id user) = true ->
  localStorage !! getUserScopedKey (lit "taskMasterActiveProjectId")
                    (Some (AuthContext.id user)) = Some activeProjectId ->
  nonEmpty activeProjectId = true ->
  getTasksByProjectId activeProjectId (AuthContext.id user) = Fulfilled projectTasks ->
  let st' :=
    SprintPlannerPage.handleFetchProjectTasks (Some user) localStorage
      getTasksByProjectId st in
  let todoTasks := filter (fun task => Types.status task = lit "To Do") projectTasks in
  SprintPlannerPage.form st'
    = SprintPlannerFlow.withTasksText (SprintPlannerPage.form st)
        (join nl (map SprintPlannerPage.formatTask todoTasks))
  /\ SprintPlannerPage.aiResponse st' = SprintPlannerPage.aiResponse st
  /\ (forall task : Types.Task num,
        SprintPlannerPage.formatTask task
        = (if nonEmpty (Types.title task) then Types.title task else lit "Untitled Task")
          ++ lit " " ++ endash ++ lit " "
          ++ match Types.priority task with
             | Some Types.Low => lit "Low"
             | Some Types.Medium => lit "Medium"
             | Some Types.High => lit "High"
             | Some Types.Critical => lit "Critical"
             | None => lit "N/A"
             end
          ++ lit " " ++ endash ++ lit " "
          ++ match Types.effort task with
             | Some n => if toBoolean n then numberToString n else lit "0"
             | None => lit "0"
             end).
Proof.
  intros Huser Hactive Hproject Hfetch st' todoTasks.
  assert (Hst' : st' = SprintPlannerPage.setIsFetchingProjectTasks false
                         (SprintPlannerPage.loadProjectTasks projectTasks
                            (SprintPlannerPage.setIsFetchingProjectTasks true st))).
  { subst st'. unfold SprintPlannerPage.handleFetchProjectTasks.
    rewrite Huser. cbn [negb]. rewrite Hactive, Hproject, Hfetch. reflexivity. }
  split; [|split].
  - rewrite Hst'. cbn [SprintPlannerPage.setIsFetchingProjectTasks SprintPlannerPage.form].
    by rewrite loadProjectTasks_form.
  - rewrite Hst'. unfold SprintPlannerPage.loadProjectTasks.
    repeat match goal with |- context [if ?c then _ else _] => destruct c end;
      reflexivity.
  - intros task. unfold SprintPlannerPage.formatTask, orElse.
    by destruct (Types.priority task) as [[]|].
Qed.
End LoadTasks.

Lemma load_tasks_witness :
  nonEmpty (AuthContext.id Samples.alice) = true
  /\ SprintPlannerFlow.tasksText
       (SprintPlannerPage.form
          (SprintPlannerPage.handleFetchProjectTasks (Some Samples.alice)
             Samples.localStorage Samples.getTasksByProjectId Samples.freshPage))
     = join nl (map SprintPlannerPage.formatTask [Samples.untitledTask; Samples.loginTask]).
Proof.
  split; [reflexivity|].
  pose proof (load_tasks_fills_the_task_list Samples.alice Samples.localStorage
                Samples.getTasksByProjectId Samples.freshPage (lit "proj-1")
                [Samples.doneTask; Samples.untitledTask; Samples.loginTask]) as Hload.
  destruct Hload as (Hform & _ & _); [vm_compute; reflexivity..|].
  rewrite Hform. reflexivity.
Defined.

(** Claim C7 does not hold as stated.  A 'To Do' task whose title is
    empty is not written as its title followed by priority and effort:
    its line starts with 'Untitled Task'.  The tasks come latest first,
    and the task that is 'Done' is not selected. *)
Lemma load_tasks_counterexample :
  Types.title Samples.untitledTask = []
  /\ Samples.getTasksByProjectId (lit "proj-1") (AuthContext.id Samples.alice)
     = Fulfilled [Samples.doneTask; Samples.untitledTask; Samples.loginTask]
  /\ split LF
       (SprintPlannerFlow.tasksText
          (SprintPlannerPage.form
             (SprintPlannerPage.handleFetchProjectTasks (Some Samples.alice)
                Samples.localStorage Samples.getTasksByProjectId Samples.freshPage)))
     = [ lit "Untitled Task " ++ endash ++ lit " N/A " ++ endash ++ lit " 0";
         lit "Login page " ++ endash ++ lit " High " ++ endash ++ lit " 5" ].
Proof. vm_compute. repeat split. Qed.

Lemma task_actions_witness :
  TaskActions.ownerId
    {| TaskActions.ownerId := Some (AuthContext.id Samples.alice) |}
    <> Some (lit "mock-user-bob-at-example.com")
  /\ fst (TaskActions.deleteTask (lit "proj-1") (lit "task-1")
            (lit "mock-user-bob-at-example.com") Samples.server) = Normal false
  /\ TaskActions.store
       (snd (TaskActions.deleteTask (lit "proj-1") (lit "task-1")
               (lit "mock-user-bob-at-example.com") Samples.server))
     = Samples.firestore.
Proof.
  assert (Hother : TaskActions.ownerId
                     {| TaskActions.ownerId := Some (AuthContext.id Samples.alice) |}
                   <> Some (lit "mock-user-bob-at-example.com"))
    by (vm_compute; discriminate).
  split; [exact Hother|].
  pose proof (task_actions_refuse_other_owners Samples.server (lit "proj-1")
                (lit "mock-user-bob-at-example.com") (lit "task-1") Samples.loginTask
                eq_refl) as Hguard.
  destruct Hguard as ((_ & _ & Hfalse) & (_ & _ & Hstore) & _).
  - right. eexists. split; [vm_compute; reflexivity|exact Hother].
  - split; [exact Hfalse|exact Hstore].
Defined.

(** ** The actions and the flow at work *)

(** The owner reads the tasks, latest first, and deletes one; another
    user gets nothing and deletes nothing. *)
Example owner_reads_and_deletes :
  fst (TaskActions.getTasksByProjectId (lit "proj-1") (AuthContext.id Samples.alice)
         Samples.server)
  = Normal [Samples.doneTask; Samples.untitledTask; Samples.loginTask]
  /\ fst (TaskActions.deleteTask (lit "proj-1") (lit "task-1")
            (AuthContext.id Samples.alice) Samples.server) = Normal true
  /\ TaskActions.tasks
       (TaskActions.store
          (snd (TaskActions.deleteTask (lit "proj-1") (lit "task-1")
                  (AuthContext.id Samples.alice) Samples.server)))
     !! (lit "proj-1", lit "task-1") = None
  /\ TaskActions.requests
       (snd (TaskActions.getTasksByProjectId (lit "proj-1") (lit "mock-user-bob-at-example.com")
               Samples.server))
     = [TaskActions.GetProject (lit "proj-1")].
Proof. vm_compute. repeat split. Qed.

(** Scenario 1 of the specification: the repeated line is sent once,
    and the duration has its section. *)
Example scenario1_prompt :
  deduplicateTasks (SprintPlannerFlow.tasksText Samples.scenario1)
  = Samples.taskLine "Fix bug" "High" "3" ++ nl ++ Samples.taskLine "Write docs" "Low" "1"
  /\ includes (lit "- Sprint Duration: 2 weeks" ++ nl ++ nl ++ lit "### Task List:" ++ nl
               ++ Samples.taskLine "Fix bug" "High" "3" ++ nl
               ++ Samples.taskLine "Write docs" "Low" "1" ++ nl)
       (SprintPlannerFlow.promptOf Samples.scenario1) = true.
Proof. vm_compute. repeat split. Qed.

Example split_examples :
  split LF [] = [[]]
  /\ split LF (lit "a" ++ nl) = [lit "a"; []]
  /\ trim (lit "  a b " ++ [0xA0]) = lit "a b"
  /\ Z_toString 0 = lit "0" /\ Z_toString (-12) = lit "-12" /\ Z_toString 305 = lit "305".
Proof. vm_compute. repeat split. Qed.

(** The message chain of the sprint planner on some messages. *)
Example errorMessage_examples :
  SprintPlannerPage.errorMessage (JsError (lit "Model is OVERLOADED, retry"))
  = serviceUnavailableMessage (lit "OVERLOADED")
  /\ SprintPlannerPage.errorMessage (JsError (lit "[503 Service Unavailable]"))
     = serviceUnavailableMessage (lit "503")
  /\ SprintPlannerPage.errorMessage (JsError [])
     = lit "Could not generate sprint plan. Please try again."
  /\ SprintPlannerPage.errorMessage NotAnError
     = lit "Could not generate sprint plan. Please try again.".
Proof. vm_compute. repeat split. Qed.

(** ** Task server actions: what they do to the database *)

Section TaskStore.
Context {num : Type}.

Ltac open_action :=
  unfold TaskActions.tryCatch, mbind, TaskActions.Action_bind, TaskActions._getDbInstance,
    TaskActions.getDoc_project, TaskActions.getDocs_tasks, TaskActions.setDoc_task,
    TaskActions.deleteDoc_task, TaskActionsAdd.setDoc_newTask,
    TaskActions.request, mret, TaskActions.Action_ret,
    TaskActionsAdd.ready, TaskActionsAdd.nextFails, TaskActionsAdd.after,
    TaskActionsAdd.withTasks, TaskActionsAdd.tasksInOrder;
  cbv beta zeta;
  cbn [TaskActions.firebaseConfig TaskActions.sdkWorks TaskActions.store
       TaskActions.requests TaskActions.faults].

Ltac split_cases Hsdk :=
  repeat match goal with
         | |- context [nonEmpty ?s] => destruct (nonEmpty s); [|reflexivity]
         end;
  cbn [negb andb orb];
  match goal with
  | |- context [TaskActions.faults ?w] =>
      destruct (TaskActions.faults w) as [|[] [|[] ?]]
  end;
  cbn [orb tail TaskActions.faults TaskActions.store];
  repeat match goal with
         | |- context [TaskActions.notOwnedBy ?u ?p] =>
             destruct (TaskActions.notOwnedBy u p)
         end; rewrite ?Hsdk; reflexivity.

(** [deleteTask], step by step. *)
Lemma deleteTask_run (w : TaskActions.World num) (projectId taskId userId : jsstring) :
  TaskActions.deleteTask projectId taskId userId w
  = if negb (TaskActionsAdd.ready w) || negb (nonEmpty userId)
       || negb (nonEmpty projectId) || negb (nonEmpty taskId)
    then (Normal false, w)
    else
      let w1 := TaskActionsAdd.after (TaskActions.GetProject projectId)
                  (TaskActions.store w) w in
      if TaskActionsAdd.nextFails w
         || TaskActions.notOwnedBy userId
              (TaskActions.projects (TaskActions.store w) !! projectId)
      then (Normal false, w1)
      else if TaskActionsAdd.nextFails w1
      then (Normal false,
            TaskActionsAdd.after (TaskActions.DeleteTask projectId taskId)
              (TaskActions.store w) w1)
      else (Normal true,
            TaskActionsAdd.after (TaskActions.DeleteTask projectId taskId)
              (TaskActionsAdd.withTasks (TaskActions.store w)
                 (delete (projectId, taskId) (TaskActions.tasks (TaskActions.store w))))
              w1).
Proof.
  unfold TaskActions.deleteTask. open_action.
  destruct (TaskActions.areEssentialConfigsPresent _); [|reflexivity].
  destruct (TaskActions.sdkWorks w) eqn:Hsdk; [|reflexivity].
  split_cases Hsdk.
Qed.

(** [updateTask], step by step. *)
Lemma updateTask_run (w : TaskActions.World num) (taskData : Types.Task num)
    (userId : jsstring) :
  let projectId := Types.projectId taskData in
  let taskId := Types.id taskData in
  TaskActions.updateTask taskData userId w
  = if negb (TaskActionsAdd.ready w) || negb (nonEmpty userId)
       || negb (nonEmpty projectId) || negb (nonEmpty taskId)
    then (Normal None, w)
    else
      let w1 := TaskActionsAdd.after (TaskActions.GetProject projectId)
                  (TaskActions.store w) w in
      if TaskActionsAdd.nextFails w
         || TaskActions.notOwnedBy userId
              (TaskActions.projects (TaskActions.store w) !! projectId)
      then (Normal None, w1)
      else if TaskActionsAdd.nextFails w1
      then (Normal None,
            TaskActionsAdd.after (TaskActions.SetTask projectId taskId)
              (TaskActions.store w) w1)
      else (Normal (Some taskData),
            TaskActionsAdd.after (TaskActions.SetTask projectId taskId)
              (TaskActionsAdd.withTasks (TaskActions.store w)
                 (<[ (projectId, taskId) :=
                       TaskActions.mergeTask taskData
                         (TaskActions.tasks (TaskActions.store w) !! (projectId, taskId)) ]>
                    (TaskActions.tasks (TaskActions.store w))))
              w1).
Proof.
  intros projectId taskId. subst projectId taskId.
  unfold TaskActions.updateTask. open_action.
  destruct (TaskActions.areEssentialConfigsPresent _); [|reflexivity].
  destruct (TaskActions.sdkWorks w) eqn:Hsdk; [|reflexivity].
  split_cases Hsdk.
Qed.

(** [addTask], step by step. *)
Lemma addTask_run (w : TaskActions.World num) (taskData : TaskActionsAdd.TaskData num)
    (userId randomUUID : jsstring) (serverTime now : Z) :
  let projectId := TaskActionsAdd.projectId taskData in
  let newTaskId := lit "task-" ++ randomUUID in
  TaskActionsAdd.addTask taskData userId randomUUID serverTime now w
  = if negb (TaskActionsAdd.ready w) || negb (nonEmpty userId)
       || negb (nonEmpty projectId)
    then (Normal None, w)
    else
      let w1 := TaskActionsAdd.after (TaskActions.GetProject projectId)
                  (TaskActions.store w) w in
      if TaskActionsAdd.nextFails w
         || TaskActions.notOwnedBy userId
              (TaskActions.projects (TaskActions.store w) !! projectId)
      then (Normal None, w1)
      else if TaskActionsAdd.nextFails w1
      then (Normal None,
            TaskActionsAdd.after (TaskActions.SetTask projectId newTaskId)
              (TaskActions.store w) w1)
      else (Normal (Some (TaskActionsAdd.withIdAndCreatedAt taskData newTaskId now)),
            TaskActionsAdd.after (TaskActions.SetTask projectId newTaskId)
              (TaskActionsAdd.withTasks (TaskActions.store w)
                 (<[ (projectId, newTaskId) :=
                       TaskActionsAdd.withIdAndCreatedAt taskData newTaskId serverTime ]>
                    (TaskActions.tasks (TaskActions.store w))))
              w1).
Proof.
  intros projectId newTaskId. subst projectId newTaskId.
  unfold TaskActionsAdd.addTask. open_action.
  destruct (TaskActions.areEssentialConfigsPresent _); [|reflexivity].
  destruct (TaskActions.sdkWorks w) eqn:Hsdk; [|reflexivity].
  split_cases Hsdk.
Qed.

(** [getTasksByProjectId], step by step. *)
Lemma getTasksByProjectId_run (w : TaskActions.World num) (projectId userId : jsstring) :
  TaskActions.getTasksByProjectId projectId userId w
  = if negb (TaskActionsAdd.ready w) || negb (nonEmpty userId)
       || negb (nonEmpty projectId)
    then (Normal [], w)
    else
      let w1 := TaskActionsAdd.after (TaskActions.GetProject projectId)
                  (TaskActions.store w) w in
      if TaskActionsAdd.nextFails w
         || TaskActions.notOwnedBy userId
              (TaskActions.projects (TaskActions.store w) !! projectId)
      then (Normal [], w1)
      else if TaskActionsAdd.nextFails w1
      then (Normal [],
            TaskActionsAdd.after (TaskActions.QueryTasks projectId)
              (TaskActions.store w) w1)
      else (Normal (TaskActionsAdd.tasksInOrder (TaskActions.store w) projectId),
            TaskActionsAdd.after (TaskActions.QueryTasks projectId)
              (TaskActions.store w) w1).
Proof.
  unfold TaskActions.getTasksByProjectId. open_action.
  destruct (TaskActions.areEssentialConfigsPresent _); [|reflexivity].
  destruct (TaskActions.sdkWorks w) eqn:Hsdk; [|reflexivity].
  split_cases Hsdk.
Qed.
End TaskStore.

Section TaskLists.
Context {num : Type}.

Lemma insertByCreatedAtDesc_perm (t : Types.Task num) (l : list (Types.Task num)) :
  TaskActions.insertByCreatedAtDesc t l ≡ₚ t :: l.
Proof.
  induction l as [|t' l IH]; simpl; [done|].
  destruct (Types.createdAt t' <? Types.createdAt t)%Z; [done|].
  rewrite IH. apply Permutation_swap.
Qed.

Lemma sortByCreatedAtDesc_perm (l : list (Types.Task num)) :
  foldr TaskActions.insertByCreatedAtDesc [] l ≡ₚ l.
Proof.
  induction l as [|t l IH]; simpl; [done|].
  by rewrite insertByCreatedAtDesc_perm, IH.
Qed.

Lemma latestFirst_cons (t : Types.Task num) (l : list (Types.Task num)) :
  (forall b, b ∈ l -> (Types.createdAt b <= Types.createdAt t)%Z) ->
  TaskActionsAdd.latestFirst l -> TaskActionsAdd.latestFirst (t :: l).
Proof.
  intros Hhead Htail i j a b Ha Hb Hij.
  destruct j as [|j]; [lia|]. simpl in Hb.
  destruct i as [|i]; simpl in Ha.
  - injection Ha as <-. apply Hhead. by eapply list_elem_of_lookup_2.
  - apply (Htail i j a b Ha Hb). lia.
Qed.

Lemma latestFirst_inv (t : Types.Task num) (l : list (Types.Task num)) :
  TaskActionsAdd.latestFirst (t :: l) ->
  (forall b, b ∈ l -> (Types.createdAt b <= Types.createdAt t)%Z) /\ TaskActionsAdd.latestFirst l.
Proof.
  intros Hsorted. split.
  - intros b [j Hj]%list_elem_of_lookup_1.
    apply (Hsorted 0%nat (S j) t b); [done|done|lia].
  - intros i j a b Ha Hb Hij. apply (Hsorted (S i) (S j) a b); [done|done|lia].
Qed.

Lemma insertByCreatedAtDesc_latestFirst (t : Types.Task num) (l : list (Types.Task num)) :
  TaskActionsAdd.latestFirst l -> TaskActionsAdd.latestFirst (TaskActions.insertByCreatedAtDesc t l).
Proof.
  induction l as [|t' l IH]; simpl; intros Hsorted.
  - apply latestFirst_cons; [|done]. by intros b ?%elem_of_nil.
  - destruct (latestFirst_inv _ _ Hsorted) as [Hhead Htail].
    destruct (Z.ltb_spec (Types.createdAt t') (Types.createdAt t)) as [Hlt|Hge].
    + apply latestFirst_cons; [|done].
      intros b [->|Hb]%elem_of_cons; [lia|]. specialize (Hhead b Hb). lia.
    + apply latestFirst_cons; [|by apply IH].
      intros b Hb. rewrite insertByCreatedAtDesc_perm in Hb.
      apply elem_of_cons in Hb as [->|Hb]; [lia|by apply Hhead].
Qed.

Lemma tasksOf_elem (fs : TaskActions.Firestore num) (projectId taskId : jsstring)
    (data : Types.Task num) :
  (taskId, data) ∈ TaskActions.tasksOf fs projectId
  <-> TaskActions.tasks fs !! (projectId, taskId) = Some data.
Proof.
  unfold TaskActions.tasksOf. rewrite list_elem_of_omap. split.
  - intros ([[p tid] t] & Hin & Hsome).
    apply elem_of_map_to_list in Hin.
    case_bool_decide as Hp; [|done]. by simplify_eq.
  - intros Hlookup. exists ((projectId, taskId), data). split.
    + by apply elem_of_map_to_list.
    + by rewrite bool_decide_eq_true_2.
Qed.

Lemma tasksOf_NoDup (fs : TaskActions.Firestore num) (projectId : jsstring) :
  NoDup (TaskActions.tasksOf fs projectId).*1.
Proof.
  unfold TaskActions.tasksOf.
  pose proof (NoDup_fst_map_to_list (TaskActions.tasks fs)) as Hnd.
  induction (map_to_list (TaskActions.tasks fs)) as [|[[p tid] t] l IH]; simpl.
  - constructor.
  - inversion Hnd as [|? ? Hnotin Hnd']; subst.
    case_bool_decide as Hp; simpl; [|by apply IH].
    constructor; [|by apply IH].
    intros Hin. apply Hnotin.
    apply list_elem_of_fmap in Hin as ([tid' t'] & Heq & Hin). simpl in Heq. subst tid'.
    apply list_elem_of_omap in Hin as ([[p' tid'] t''] & Hin & Hsome).
    case_bool_decide; [|done]. simplify_eq.
    apply list_elem_of_fmap. by exists ((projectId, tid), t').
Qed.

(** The tasks a read returns are the project's documents, each under
    its document id and the project's id. *)
Lemma tasksInOrder_elem (fs : TaskActions.Firestore num) (projectId : jsstring)
    (t : Types.Task num) :
  t ∈ TaskActionsAdd.tasksInOrder fs projectId
  <-> exists data,
        TaskActions.tasks fs !! (projectId, Types.id t) = Some data
        /\ t = TaskActions.taskOfSnapshot projectId (Types.id t, data).
Proof.
  unfold TaskActionsAdd.tasksInOrder.
  rewrite sortByCreatedAtDesc_perm, list_elem_of_fmap. split.
  - intros ([tid data] & -> & Hin). apply tasksOf_elem in Hin.
    exists data. by split.
  - intros (data & Hlookup & Heq). exists (Types.id t, data).
    split; [done|]. by apply tasksOf_elem.
Qed.

Lemma tasksInOrder_latestFirst (fs : TaskActions.Firestore num) (projectId : jsstring) :
  TaskActionsAdd.latestFirst (TaskActionsAdd.tasksInOrder fs projectId).
Proof.
  unfold TaskActionsAdd.tasksInOrder.
  induction (map _ _) as [|t l IH]; simpl.
  - by intros i j a b Ha.
  - by apply insertByCreatedAtDesc_latestFirst.
Qed.

Lemma tasksInOrder_NoDup (fs : TaskActions.Firestore num) (projectId : jsstring) :
  NoDup (Types.id <$> TaskActionsAdd.tasksInOrder fs projectId).
Proof.
  unfold TaskActionsAdd.tasksInOrder.
  rewrite sortByCreatedAtDesc_perm.
  rewrite <- list_fmap_compose.
  pose proof (tasksOf_NoDup fs projectId) as Hnd.
  erewrite list_fmap_ext; [exact Hnd|]. by intros i [tid data].
Qed.
End TaskLists.

Section TaskActionProperties.
Context {num : Type}.

Lemma notOwnedBy_false (fs : TaskActions.Firestore num) (userId projectId : jsstring) :
  TaskActions.notOwnedBy userId (TaskActions.projects fs !! projectId) = false
  <-> TaskActionsAdd.owns fs userId projectId.
Proof.
  unfold TaskActionsAdd.owns, TaskActions.notOwnedBy.
  destruct (TaskActions.projects fs !! projectId) as [doc|]; split.
  - intros Hb. exists doc. split; [done|].
    apply negb_false_iff, bool_decide_eq_true in Hb. done.
  - intros (doc' & [= <-] & Howner). by rewrite bool_decide_eq_true_2.
  - done.
  - by intros (doc' & ? & _).
Qed.

(** X1.  The task actions never throw, a read never changes the
    database, and a write that reports failure ([null], [false]) has
    left the database exactly as it was: whatever the configuration,
    the caller, the arguments and the requests that fail. *)
Theorem task_actions_fail_without_trace
    (w : TaskActions.World num) (projectId taskId userId randomUUID : jsstring)
    (taskData : Types.Task num) (newTask : TaskActionsAdd.TaskData num)
    (serverTime now : Z) :
  let reads := TaskActions.getTasksByProjectId projectId userId w in
  let updates := TaskActions.updateTask taskData userId w in
  let deletes := TaskActions.deleteTask projectId taskId userId w in
  let adds := TaskActionsAdd.addTask newTask userId randomUUID serverTime now w in
  ((exists tasks, fst reads = Normal tasks)
   /\ TaskActions.store (snd reads) = TaskActions.store w)
  /\ (fst updates = Normal (Some taskData)
      \/ (fst updates = Normal None
          /\ TaskActions.store (snd updates) = TaskActions.store w))
  /\ (fst deletes = Normal true
      \/ (fst deletes = Normal false
          /\ TaskActions.store (snd deletes) = TaskActions.store w))
  /\ ((exists created, fst adds = Normal (Some created))
      \/ (fst adds = Normal None
          /\ TaskActions.store (snd adds) = TaskActions.store w)).
Proof.
  intros reads updates deletes adds.
  subst reads updates deletes adds.
  rewrite getTasksByProjectId_run, updateTask_run, deleteTask_run, addTask_run.
  cbv zeta. repeat split.
  - repeat match goal with |- context [if ?c then _ else _] => destruct c end;
      by eexists.
  - by repeat match goal with |- context [if ?c then _ else _] => destruct c end.
  - repeat match goal with |- context [if ?c then _ else _] => destruct c end;
      (by left) || (by right).
  - repeat match goal with |- context [if ?c then _ else _] => destruct c end;
      (by left) || (by right).
  - repeat match goal with |- context [if ?c then _ else _] => destruct c end;
      (by left; eexists) || (by right).
Qed.


(** X3.  A write touches one document only: [updateTask],
    [deleteTask] and [addTask] leave the project documents and every
    task document other than the one addressed as they were, in every
    world. *)
Theorem task_writes_touch_one_document
    (w : TaskActions.World num) (projectId taskId userId randomUUID : jsstring)
    (taskData : Types.Task num) (newTask : TaskActionsAdd.TaskData num)
    (serverTime now : Z) (key : jsstring * jsstring) :
  let updates := snd (TaskActions.updateTask taskData userId w) in
  let deletes := snd (TaskActions.deleteTask projectId taskId userId w) in
  let adds := snd (TaskActionsAdd.addTask newTask userId randomUUID serverTime now w) in
  (TaskActions.projects (TaskActions.store updates)
     = TaskActions.projects (TaskActions.store w)
   /\ TaskActions.projects (TaskActions.store deletes)
      = TaskActions.projects (TaskActions.store w)
   /\ TaskActions.projects (TaskActions.store adds)
      = TaskActions.projects (TaskActions.store w))
  /\ (key <> (Types.projectId taskData, Types.id taskData) ->
      TaskActions.tasks (TaskActions.store updates) !! key
      = TaskActions.tasks (TaskActions.store w) !! key)
  /\ (key <> (projectId, taskId) ->
      TaskActions.tasks (TaskActions.store deletes) !! key
      = TaskActions.tasks (TaskActions.store w) !! key)
  /\ (key <> (TaskActionsAdd.projectId newTask, lit "task-" ++ randomUUID) ->
      TaskActions.tasks (TaskActions.store adds) !! key
      = TaskActions.tasks (TaskActions.store w) !! key).
Proof.
  intros updates deletes adds. subst updates deletes adds.
  rewrite updateTask_run, deleteTask_run, addTask_run. cbv zeta.
  split; [|split; [|split]].
  - repeat split;
      by repeat match goal with |- context [if ?c then _ else _] => destruct c end.
  - intros Hkey.
    repeat match goal with |- context [if ?c then _ else _] => destruct c end;
      try reflexivity.
    cbn. by rewrite lookup_insert_ne.
  - intros Hkey.
    repeat match goal with |- context [if ?c then _ else _] => destruct c end;
      try reflexivity.
    cbn. by rewrite lookup_delete_ne.
  - intros Hkey.
    repeat match goal with |- context [if ?c then _ else _] => destruct c end;
      try reflexivity.
    cbn. by rewrite lookup_insert_ne.
Qed.
End TaskActionProperties.

Section OwnerActions.
Context {num : Type}.

Ltac owner_run Hready Huser Hproject Howns Hfaults :=
  cbv zeta;
  unfold TaskActionsAdd.nextFails;
  cbn [TaskActionsAdd.after TaskActions.faults TaskActions.store];
  rewrite ?Hready, ?Huser, ?Hproject, ?Hfaults;
  cbn [negb orb tail];
  apply notOwnedBy_false in Howns; rewrite ?Howns.

(** What the owner's calls give when no request fails. *)
Lemma owner_reads (w : TaskActions.World num) (projectId userId : jsstring) :
  TaskActionsAdd.ready w = true -> nonEmpty userId = true ->
  nonEmpty projectId = true ->
  TaskActionsAdd.owns (TaskActions.store w) userId projectId ->
  TaskActions.faults w = [] ->
  TaskActions.getTasksByProjectId projectId userId w
  = (Normal (TaskActionsAdd.tasksInOrder (TaskActions.store w) projectId),
     TaskActionsAdd.after (TaskActions.QueryTasks projectId) (TaskActions.store w)
       (TaskActionsAdd.after (TaskActions.GetProject projectId) (TaskActions.store w) w)).
Proof.
  intros Hready Huser Hproject Howns Hfaults. rewrite getTasksByProjectId_run.
  owner_run Hready Huser Hproject Howns Hfaults. reflexivity.
Qed.

Lemma owner_deletes (w : TaskActions.World num) (projectId taskId userId : jsstring) :
  TaskActionsAdd.ready w = true -> nonEmpty userId = true ->
  nonEmpty projectId = true -> nonEmpty taskId = true ->
  TaskActionsAdd.owns (TaskActions.store w) userId projectId ->
  TaskActions.faults w = [] ->
  TaskActions.deleteTask projectId taskId userId w
  = (Normal true,
     TaskActionsAdd.after (TaskActions.DeleteTask projectId taskId)
       (TaskActionsAdd.withTasks (TaskActions.store w)
          (delete (projectId, taskId) (TaskActions.tasks (TaskActions.store w))))
       (TaskActionsAdd.after (TaskActions.GetProject projectId) (TaskActions.store w) w)).
Proof.
  intros Hready Huser Hproject Htask Howns Hfaults. rewrite deleteTask_run.
  rewrite Htask. owner_run Hready Huser Hproject Howns Hfaults. reflexivity.
Qed.

Lemma owner_updates (w : TaskActions.World num) (taskData : Types.Task num)
    (userId : jsstring) :
  TaskActionsAdd.ready w = true -> nonEmpty userId = true ->
  nonEmpty (Types.projectId taskData) = true -> nonEmpty (Types.id taskData) = true ->
  TaskActionsAdd.owns (TaskActions.store w) userId (Types.projectId taskData) ->
  TaskActions.faults w = [] ->
  TaskActions.updateTask taskData userId w
  = (Normal (Some taskData),
     TaskActionsAdd.after
       (TaskActions.SetTask (Types.projectId taskData) (Types.id taskData))
       (TaskActionsAdd.withTasks (TaskActions.store w)
          (<[ (Types.projectId taskData, Types.id taskData) :=
                TaskActions.mergeTask taskData
                  (TaskActions.tasks (TaskActions.store w)
                     !! (Types.projectId taskData, Types.id taskData)) ]>
             (TaskActions.tasks (TaskActions.store w))))
       (TaskActionsAdd.after (TaskActions.GetProject (Types.projectId taskData))
          (TaskActions.store w) w)).
Proof.
  intros Hready Huser Hproject Htask Howns Hfaults. rewrite updateTask_run.
  rewrite Htask. owner_run Hready Huser Hproject Howns Hfaults. reflexivity.
Qed.

Lemma owner_adds (w : TaskActions.World num) (taskData : TaskActionsAdd.TaskData num)
    (userId randomUUID : jsstring) (serverTime now : Z) :
  TaskActionsAdd.ready w = true -> nonEmpty userId = true ->
  nonEmpty (TaskActionsAdd.projectId taskData) = true ->
  TaskActionsAdd.owns (TaskActions.store w) userId (TaskActionsAdd.projectId taskData) ->
  TaskActions.faults w = [] ->
  TaskActionsAdd.addTask taskData userId randomUUID serverTime now w
  = (Normal (Some (TaskActionsAdd.withIdAndCreatedAt taskData
                     (lit "task-" ++ randomUUID) now)),
     TaskActionsAdd.after
       (TaskActions.SetTask (TaskActionsAdd.projectId taskData) (lit "task-" ++ randomUUID))
       (TaskActionsAdd.withTasks (TaskActions.store w)
          (<[ (TaskActionsAdd.projectId taskData, lit "task-" ++ randomUUID) :=
                TaskActionsAdd.withIdAndCreatedAt taskData
                  (lit "task-" ++ randomUUID) serverTime ]>
             (TaskActions.tasks (TaskActions.store w))))
       (TaskActionsAdd.after (TaskActions.GetProject (TaskActionsAdd.projectId taskData))
          (TaskActions.store w) w)).
Proof.
  intros Hready Huser Hproject Howns Hfaults. rewrite addTask_run.
  owner_run Hready Huser Hproject Howns Hfaults. reflexivity.
Qed.

(** X4.  When the caller owns the project and no request fails,
    [getTasksByProjectId] returns the project's task documents, each
    once, under its document id and the requested project id, and
    latest first. *)
Theorem getTasksByProjectId_lists_the_project
    (w : TaskActions.World num) (projectId userId : jsstring) :
  TaskActionsAdd.ready w = true -> nonEmpty userId = true ->
  nonEmpty projectId = true ->
  TaskActionsAdd.owns (TaskActions.store w) userId projectId ->
  TaskActions.faults w = [] ->
  exists result,
    fst (TaskActions.getTasksByProjectId projectId userId w) = Normal result
    /\ TaskActionsAdd.latestFirst result
    /\ NoDup (Types.id <$> result)
    /\ (forall t, t ∈ result
          <-> exists data,
                TaskActions.tasks (TaskActions.store w) !! (projectId, Types.id t)
                  = Some data
                /\ t = TaskActions.taskOfSnapshot projectId (Types.id t, data))
    /\ (forall t, t ∈ result -> Types.projectId t = projectId).
Proof.
  intros Hready Huser Hproject Howns Hfaults.
  rewrite owner_reads by done. eexists. split; [reflexivity|].
  split; [apply tasksInOrder_latestFirst|].
  split; [apply tasksInOrder_NoDup|].
  split; [intros t; apply tasksInOrder_elem|].
  intros t (data & _ & ->)%tasksInOrder_elem. reflexivity.
Qed.



(** X7.  When the owner adds a task and no request fails, [addTask]
    returns the task under the id "task-" followed by the random UUID,
    with the creation time of the moment it returns; a read of the
    project then returns that task with the time the server wrote it
    at, beside the tasks returned before. *)
Theorem addTask_then_read
    (w : TaskActions.World num) (taskData : TaskActionsAdd.TaskData num)
    (userId randomUUID : jsstring) (serverTime now : Z) :
  TaskActionsAdd.ready w = true -> nonEmpty userId = true ->
  nonEmpty (TaskActionsAdd.projectId taskData) = true ->
  TaskActionsAdd.owns (TaskActions.store w) userId (TaskActionsAdd.projectId taskData) ->
  TaskActions.faults w = [] ->
  let projectId := TaskActionsAdd.projectId taskData in
  let newTaskId := lit "task-" ++ randomUUID in
  let adds := TaskActionsAdd.addTask taskData userId randomUUID serverTime now w in
  let reads := TaskActions.getTasksByProjectId projectId userId (snd adds) in
  fst adds = Normal (Some (TaskActionsAdd.withIdAndCreatedAt taskData newTaskId now))
  /\ exists result,
       fst reads = Normal result
       /\ TaskActionsAdd.withIdAndCreatedAt taskData newTaskId serverTime ∈ result
       /\ (forall t, Types.id t <> newTaskId ->
             (t ∈ result
              <-> t ∈ TaskActionsAdd.tasksInOrder (TaskActions.store w) projectId)).
Proof.
  intros Hready Huser Hproject Howns Hfaults projectId newTaskId adds reads.
  subst reads adds newTaskId projectId. rewrite owner_adds by done. cbn [fst snd].
  split; [done|].
  rewrite owner_reads;
    [|exact Hready|done|done|exact Howns|by cbn; rewrite Hfaults].
  eexists. split; [reflexivity|].
  cbn [TaskActions.store TaskActionsAdd.after TaskActionsAdd.withTasks]. split.
  - apply tasksInOrder_elem. eexists. cbn [TaskActions.tasks Types.id
      TaskActionsAdd.withIdAndCreatedAt].
    split; [apply lookup_insert_eq|reflexivity].
  - intros t Hne. rewrite !tasksInOrder_elem.
    cbn [TaskActions.tasks TaskActionsAdd.withTasks].
    split; intros (data & Hlookup & Heq); exists data; split; try done.
    + by rewrite lookup_insert_ne in Hlookup by congruence.
    + by rewrite lookup_insert_ne by congruence.
Qed.
End OwnerActions.

(** ** The task board and the database *)

Section Board.
Context {num : Type}.

Lemma inSync_withoutTask (boardTasks : list (Types.Task num))
    (fs : TaskActions.Firestore num) (projectId taskId : jsstring) :
  TaskBoard.inSync boardTasks fs projectId ->
  TaskBoard.inSync (TaskBoard.withoutTask taskId boardTasks)
    (TaskActionsAdd.withTasks fs (delete (projectId, taskId) (TaskActions.tasks fs)))
    projectId.
Proof.
  intros Hsync tid. unfold TaskActionsAdd.withTasks, TaskBoard.withoutTask.
  cbn [TaskActions.tasks]. rewrite list_elem_of_fmap. split.
  - intros (t & -> & Hin). apply list_elem_of_filter in Hin as [Hne Hin].
    rewrite lookup_delete_ne by congruence.
    apply Hsync. by apply list_elem_of_fmap_2.
  - intros Hsome. destruct (decide (tid = taskId)) as [->|Hne].
    + rewrite lookup_delete_eq in Hsome. by destruct Hsome.
    + rewrite lookup_delete_ne in Hsome by congruence.
      apply Hsync in Hsome. apply list_elem_of_fmap in Hsome as (t & -> & Hin).
      exists t. split; [done|]. by apply list_elem_of_filter.
Qed.

(** The list a project's owner is given is in step with the database. *)
Lemma tasksInOrder_inSync (fs : TaskActions.Firestore num) (projectId : jsstring) :
  TaskBoard.inSync (TaskActionsAdd.tasksInOrder fs projectId) fs projectId.
Proof.
  intros tid. rewrite list_elem_of_fmap. split.
  - intros (t & -> & Hin). apply tasksInOrder_elem in Hin as (data & Hlookup & _).
    by exists data.
  - intros [data Hlookup].
    exists (TaskActions.taskOfSnapshot projectId (tid, data)). split.
    + reflexivity.
    + apply tasksInOrder_elem. by exists data.
Qed.

Lemma projectAndUser_Some (project : TaskBoard.Project) (user : option AuthContext.User)
    (found : TaskBoard.Project * AuthContext.User) :
  TaskBoard.projectAndUser (Some project) user = Some found ->
  found.1 = project /\ user = Some found.2.
Proof.
  unfold TaskBoard.projectAndUser. destruct user as [u|]; [|done].
  destruct (nonEmpty _); [|done]. by intros [= <-].
Qed.

(** X8. Deleting a task on the board keeps board and database in step:
    when the board listed exactly the project's tasks before, it does
    so afterwards.  Either the task is gone from both, or neither has
    changed and a destructive toast says so. *)
Theorem handleDeleteTask_keeps_board_in_step
    (project : TaskBoard.Project) (user : option AuthContext.User)
    (taskId : jsstring) (w : TaskActions.World num) (st : TaskBoard.BoardState num) :
  TaskBoard.inSync (TaskBoard.tasks st) (TaskActions.store w) (TaskBoard.id project) ->
  let run := TaskBoard.handleDeleteTask (Some project) user taskId w st in
  TaskBoard.inSync (TaskBoard.tasks run.1) (TaskActions.store run.2) (TaskBoard.id project)
  /\ ((TaskBoard.tasks run.1 = TaskBoard.tasks st
       /\ TaskActions.store run.2 = TaskActions.store w
       /\ exists t, TaskBoard.toasts run.1 = TaskBoard.toasts st ++ [t]
                    /\ UseToast.variant t = UseToast.destructive)
      \/ (TaskBoard.tasks run.1 = TaskBoard.withoutTask taskId (TaskBoard.tasks st)
          /\ TaskActions.store run.2
             = TaskActionsAdd.withTasks (TaskActions.store w)
                 (delete (TaskBoard.id project, taskId)
                    (TaskActions.tasks (TaskActions.store w)))
          /\ exists t, TaskBoard.toasts run.1 = TaskBoard.toasts st ++ [t]
                       /\ UseToast.variant t = UseToast.default)).
Proof.
  intros Hsync run. subst run. unfold TaskBoard.handleDeleteTask.
  destruct (TaskBoard.projectAndUser _ _) as [[p u]|] eqn:Hfound.
  - apply projectAndUser_Some in Hfound as [Hp _]. cbn [fst] in Hp. subst p.
    rewrite deleteTask_run.
    destruct (_ || _ || _ || _).
    { split; [done|]. left. repeat split; try done. by eexists. }
    cbv zeta.
    destruct (_ || _).
    { split; [done|]. left. repeat split; try done. by eexists. }
    destruct (TaskActionsAdd.nextFails _).
    { split; [done|]. left. repeat split; try done. by eexists. }
    split.
    + by apply inSync_withoutTask.
    + right. repeat split; try done. by eexists.
  - split; [done|]. left. repeat split; try done. by eexists.
Qed.

Lemma findTask_Some (taskId : jsstring) (l : list (Types.Task num)) (t : Types.Task num) :
  TaskBoard.findTask taskId l = Some t -> Types.id t = taskId /\ t ∈ l.
Proof.
  unfold TaskBoard.findTask. induction l as [|a l IH]; simpl; [done|].
  case_bool_decide as Hid.
  - intros [= <-]. split; [done|]. by left.
  - intros Hfind. destruct (IH Hfind) as [? ?]. split; [done|]. by right.
Qed.

Lemma replaceTask_ids (taskId : jsstring) (r : Types.Task num) (l : list (Types.Task num)) :
  Types.id r = taskId ->
  Types.id <$> TaskBoard.replaceTask taskId r l = Types.id <$> l.
Proof.
  intros Hid. unfold TaskBoard.replaceTask. rewrite <- list_fmap_compose.
  apply list_fmap_ext. intros i t _. simpl. by case_bool_decide; simplify_eq.
Qed.

Lemma replaceTask_again (taskId : jsstring) (r : Types.Task num) (l : list (Types.Task num)) :
  Types.id r = taskId ->
  TaskBoard.replaceTask taskId r (TaskBoard.replaceTask taskId r l)
  = TaskBoard.replaceTask taskId r l.
Proof.
  intros Hid. unfold TaskBoard.replaceTask. rewrite <- list_fmap_compose.
  apply list_fmap_ext. intros i t _. simpl.
  destruct (decide (Types.id t = taskId)) as [Ht|Ht].
  - rewrite (bool_decide_eq_true_2 _ Ht). by rewrite bool_decide_eq_true_2.
  - rewrite (bool_decide_eq_false_2 _ Ht). by rewrite bool_decide_eq_false_2.
Qed.

(** X9. Dropping a task on a column never adds or removes a task of
    the board.  Either the board's tasks are what they were, or the
    dragged task - and no other - has taken the column's status, and
    then the database holds that status under the task's own project,
    the drag is over and a toast reports the move. *)
Theorem handleDrop_moves_or_restores
    (currentProject : option TaskBoard.Project) (user : option AuthContext.User)
    (newStatus : jsstring) (w : TaskActions.World num) (st : TaskBoard.BoardState num) :
  let run := TaskBoard.handleDrop currentProject user newStatus w st in
  Types.id <$> TaskBoard.tasks run.1 = Types.id <$> TaskBoard.tasks st
  /\ ((TaskBoard.tasks run.1 = TaskBoard.tasks st
       /\ TaskActions.store run.2 = TaskActions.store w)
      \/ exists dragged taskToMove,
           TaskBoard.draggedTaskId st = Some dragged
           /\ TaskBoard.findTask dragged (TaskBoard.tasks st) = Some taskToMove
           /\ Types.status taskToMove <> newStatus
           /\ TaskBoard.tasks run.1
              = TaskBoard.replaceTask dragged (TaskBoard.withStatus taskToMove newStatus)
                  (TaskBoard.tasks st)
           /\ (exists stored,
                 TaskActions.tasks (TaskActions.store run.2)
                   !! (Types.projectId taskToMove, dragged) = Some stored
                 /\ Types.status stored = newStatus)
           /\ TaskBoard.draggedTaskId run.1 = None
           /\ exists t, TaskBoard.toasts run.1 = TaskBoard.toasts st ++ [t]
                        /\ UseToast.variant t = UseToast.default).
Proof.
  intros run. subst run. unfold TaskBoard.handleDrop.
  destruct (TaskBoard.draggedTaskId st) as [dragged|] eqn:Hdragged;
    [|split; [done|by left]].
  destruct (TaskBoard.projectAndUser _ _) as [[p u]|]; [|split; [done|by left]].
  destruct (nonEmpty dragged); cbn [negb]; [|split; [done|by left]].
  destruct (TaskBoard.findTask _ _) as [taskToMove|] eqn:Hfind; [|split; [done|by left]].
  case_bool_decide as Hstatus; [split; [done|by left]|].
  apply findTask_Some in Hfind as Hfound. destruct Hfound as [Hid Hin].
  cbv zeta. rewrite updateTask_run.
  cbn [Types.projectId Types.id TaskBoard.withStatus].
  destruct (_ || _ || _ || _); [split; [done|by left]|].
  cbv zeta.
  destruct (_ || _); [split; [done|by left]|].
  destruct (TaskActionsAdd.nextFails _); [split; [done|by left]|].
  cbn [fst snd TaskBoard.tasks TaskBoard.setTasks TaskBoard.setDraggedTaskId TaskBoard.toast
       TaskBoard.draggedTaskId TaskBoard.toasts].
  rewrite replaceTask_again by done. split.
  - by apply replaceTask_ids.
  - right. exists dragged, taskToMove. repeat split; try done.
    + eexists. split.
      * unfold TaskActionsAdd.after, TaskActionsAdd.withTasks.
        cbn [TaskActions.store TaskActions.tasks]. rewrite Hid. apply lookup_insert_eq.
      * unfold TaskActions.mergeTask. by destruct (_ !! _).
    + by eexists.
Qed.

Lemma indexOfDone_Some (statuses : list jsstring) (doneIndex : nat) :
  TaskBoard.indexOfDone statuses = Some doneIndex ->
  (lit "Done" ∉ take doneIndex statuses)
  /\ exists rest, drop doneIndex statuses = lit "Done" :: rest.
Proof.
  revert doneIndex. induction statuses as [|s rest IH]; intros doneIndex; simpl; [done|].
  case_bool_decide as Hs.
  - intros [= <-]. split; [apply not_elem_of_nil|]. exists rest. by rewrite Hs.
  - destruct (TaskBoard.indexOfDone rest) as [k|]; [|done]. intros [= <-].
    destruct (IH k eq_refl) as [Hbefore Hafter]. split; [|done].
    simpl. apply not_elem_of_cons. split; [congruence|done].
Qed.

Lemma indexOfDone_None (statuses : list jsstring) :
  TaskBoard.indexOfDone statuses = None -> lit "Done" ∉ statuses.
Proof.
  induction statuses as [|s rest IH]; simpl; [intros _; apply not_elem_of_nil|].
  case_bool_decide as Hs; [done|].
  destruct (TaskBoard.indexOfDone rest); [done|]. intros _.
  apply not_elem_of_cons. split; [congruence|by apply IH].
Qed.

(** X10. Adding a column never gives the board two columns whose names
    differ in case only.  A refused name changes no column, saves
    nothing and raises a destructive toast; an accepted one, trimmed,
    goes in front of the first "Done" column, or last when there is
    none, every other column keeps its place, and the list saved to
    local storage is the list shown. *)
Theorem handleCreateNewColumn_keeps_names_apart
    (toLowerCase : jsstring -> jsstring)
    (currentProject : option TaskBoard.Project) (user : option AuthContext.User)
    (st : TaskBoard.BoardState num) :
  NoDup (toLowerCase <$> TaskBoard.activeColumnStatuses st) ->
  let st' := TaskBoard.handleCreateNewColumn toLowerCase currentProject user st in
  NoDup (toLowerCase <$> TaskBoard.activeColumnStatuses st')
  /\ ((TaskBoard.activeColumnStatuses st' = TaskBoard.activeColumnStatuses st
       /\ TaskBoard.savedColumns st' = TaskBoard.savedColumns st
       /\ exists t, TaskBoard.toasts st' = TaskBoard.toasts st ++ [t]
                    /\ UseToast.variant t = UseToast.destructive)
      \/ exists before after,
           TaskBoard.activeColumnStatuses st = before ++ after
           /\ TaskBoard.activeColumnStatuses st'
              = before ++ trim (TaskBoard.newColumnNameInput st) :: after
           /\ (lit "Done" ∉ before)
           /\ (after = [] \/ exists rest, after = lit "Done" :: rest)
           /\ trim (TaskBoard.newColumnNameInput st) <> []
           /\ exists key,
                TaskBoard.savedColumns st'
                = TaskBoard.savedColumns st ++ [(key, TaskBoard.activeColumnStatuses st')]).
Proof.
  intros Hnodup st'. subst st'. unfold TaskBoard.handleCreateNewColumn.
  destruct (TaskBoard.projectAndUser _ _) as [[p u]|].
  2:{ split; [done|]. left. repeat split; try done. by eexists. }
  destruct (nonEmpty (trim _)) eqn:Hname; cbn [negb].
  2:{ split; [done|]. left. repeat split; try done. by eexists. }
  case_bool_decide as Hdup.
  { split; [done|]. left. repeat split; try done. by eexists. }
  cbn [TaskBoard.activeColumnStatuses TaskBoard.savedColumns TaskBoard.toasts].
  assert (Hmiddle : forall before after,
            TaskBoard.activeColumnStatuses st = before ++ after ->
            NoDup (toLowerCase <$> before ++ trim (TaskBoard.newColumnNameInput st) :: after)).
  { intros before after Heq. rewrite Heq in Hnodup, Hdup.
    rewrite fmap_app, fmap_cons. rewrite fmap_app in Hnodup, Hdup.
    rewrite <- Permutation_middle. by apply NoDup_cons. }
  assert (Hnonempty : trim (TaskBoard.newColumnNameInput st) <> []).
  { intros Hnil. by rewrite Hnil in Hname. }
  destruct (TaskBoard.indexOfDone _) as [doneIndex|] eqn:Hdone.
  - apply indexOfDone_Some in Hdone as [Hbefore [rest Hafter]]. split.
    + apply Hmiddle. by rewrite take_drop.
    + right. eexists _, _. split; [by rewrite take_drop|].
      repeat split; try done.
      * right. by exists rest.
      * by eexists.
  - apply indexOfDone_None in Hdone. split.
    + rewrite <- (app_nil_r (_ ++ [_])), <- app_assoc. apply Hmiddle. by rewrite app_nil_r.
    + right. exists (TaskBoard.activeColumnStatuses st), []. split; [by rewrite app_nil_r|].
      repeat split; try done.
      * by left.
      * by eexists.
Qed.
End Board.

(** ** The properties of the task actions and the board on Alice's project *)

Lemma alice_owns_the_project :
  TaskActionsAdd.owns Samples.firestore (AuthContext.id Samples.alice) (lit "proj-1").
Proof. eexists. split; vm_compute; reflexivity. Qed.

Lemma getTasksByProjectId_lists_witness :
  exists result,
    fst (TaskActions.getTasksByProjectId (lit "proj-1") (AuthContext.id Samples.alice)
           Samples.server) = Normal result
    /\ NoDup (Types.id <$> result)
    /\ forall t, t ∈ result -> Types.projectId t = lit "proj-1".
Proof.
  destruct (getTasksByProjectId_lists_the_project Samples.server (lit "proj-1")
              (AuthContext.id Samples.alice) eq_refl eq_refl eq_refl
              alice_owns_the_project eq_refl)
    as (result & Hrun & _ & Hnodup & _ & Hproject).
  exists result. split; [exact Hrun|]. split; [exact Hnodup|exact Hproject].
Defined.



Lemma addTask_then_read_witness :
  fst (TaskActionsAdd.addTask BoardSamples.exportTask (AuthContext.id Samples.alice)
         (lit "0b1c") 5000 5001 Samples.server)
  = Normal (Some (TaskActionsAdd.withIdAndCreatedAt BoardSamples.exportTask
                    (lit "task-" ++ lit "0b1c") 5001)).
Proof.
  exact (proj1 (addTask_then_read Samples.server BoardSamples.exportTask
                  (AuthContext.id Samples.alice) (lit "0b1c") 5000 5001
                  eq_refl eq_refl eq_refl alice_owns_the_project eq_refl)).
Defined.

Lemma handleDeleteTask_witness :
  TaskBoard.inSync
    (TaskBoard.tasks
       (TaskBoard.handleDeleteTask (Some BoardSamples.project) (Some Samples.alice)
          (lit "task-1") Samples.server BoardSamples.board).1)
    (TaskActions.store
       (TaskBoard.handleDeleteTask (Some BoardSamples.project) (Some Samples.alice)
          (lit "task-1") Samples.server BoardSamples.board).2)
    (lit "proj-1").
Proof.
  exact (proj1 (handleDeleteTask_keeps_board_in_step BoardSamples.project
                  (Some Samples.alice) (lit "task-1") Samples.server BoardSamples.board
                  (tasksInOrder_inSync Samples.firestore (lit "proj-1")))).
Defined.

Lemma handleCreateNewColumn_witness :
  NoDup (toLowerCase <$> TaskBoard.DEFAULT_TASK_STATUSES)
  /\ NoDup (toLowerCase <$>
              TaskBoard.activeColumnStatuses
                (TaskBoard.handleCreateNewColumn toLowerCase (Some BoardSamples.project)
                   (Some Samples.alice) BoardSamples.board)).
Proof.
  assert (Hdefault : NoDup (toLowerCase <$> TaskBoard.DEFAULT_TASK_STATUSES))
    by (refine (bool_decide_unpack _ _); vm_compute; exact I).
  split; [exact Hdefault|].
  exact (proj1 (handleCreateNewColumn_keeps_names_apart toLowerCase
                  (Some BoardSamples.project) (Some Samples.alice) BoardSamples.board
                  Hdefault)).
Defined.

(** Alice's board after each of the three handlers. *)
Example board_examples :
  TaskBoard.activeColumnStatuses
    (TaskBoard.handleCreateNewColumn toLowerCase (Some BoardSamples.project)
       (Some Samples.alice) BoardSamples.board)
  = [lit "To Do"; lit "In Progress"; lit "In Review"; lit "QA"; lit "Done"]
  /\ Types.id <$> TaskBoard.tasks
       (TaskBoard.handleDeleteTask (Some BoardSamples.project) (Some Samples.alice)
          (lit "task-1") Samples.server BoardSamples.board).1
     = [lit "task-3"; lit "task-2"]
  /\ Types.status <$> TaskBoard.tasks
       (TaskBoard.handleDrop (Some BoardSamples.project) (Some Samples.alice)
          (lit "Done") Samples.server BoardSamples.board).1
     = [lit "Done"; lit "To Do"; lit "Done"].
Proof. vm_compute. repeat split. Qed.

(** ** The plan as the page shows it *)

Lemma startsWith_app (p a b : jsstring) :
  startsWith p a = true -> startsWith p (a ++ b) = true.
Proof.
  revert a. induction p as [|c p IH]; intros [|d a]; simpl; try done.
  intros [Hc Hp]%andb_true_iff. by rewrite Hc, IH.
Qed.

Lemma includes_app_l (p a b : jsstring) :
  includes p a = true -> includes p (a ++ b) = true.
Proof.
  induction a as [|d a IH].
  - destruct p; [|done]. intros _. by destruct b.
  - cbn [includes app]. intros [Hs|Hi]%orb_true_iff.
    + change (d :: a ++ b) with ((d :: a) ++ b). by rewrite startsWith_app.
    + rewrite IH by done. apply orb_true_r.
Qed.

Lemma includes_app_r (p a b : jsstring) :
  includes p b = true -> includes p (a ++ b) = true.
Proof.
  intros Hb. induction a as [|d a IH]; [done|].
  cbn [includes app]. rewrite IH. apply orb_true_r.
Qed.

(** What is not in a string is in none of its parts. *)
Lemma includes_infix (p a s b : jsstring) :
  includes p (a ++ s ++ b) = false -> includes p s = false.
Proof.
  intros Hfree. destruct (includes p s) eqn:Hs; [|done].
  rewrite includes_app_r in Hfree; [done|]. by apply includes_app_l.
Qed.

Lemma split_first (sep : N) (s first : jsstring) (pieces : list jsstring) :
  split sep s = first :: pieces -> exists b, s = first ++ b.
Proof.
  revert first pieces. induction s as [|c s IH]; intros first pieces; simpl.
  - intros [= <- <-]. by exists [].
  - destruct (c =? sep).
    + intros [= <- <-]. by exists (c :: s).
    + destruct (split sep s) as [|first' pieces'] eqn:Hsplit.
      * by destruct (split_not_nil sep s).
      * intros [= <- <-]. destruct (IH _ _ eq_refl) as [b ->]. by exists b.
Qed.

Lemma split_infix (sep : N) (s piece : jsstring) :
  piece ∈ split sep s -> exists a b, s = a ++ piece ++ b.
Proof.
  revert piece. induction s as [|c s IH]; intros piece; simpl.
  - intros ->%list_elem_of_singleton. by exists [], [].
  - destruct (c =? sep).
    + intros [->|Hin]%elem_of_cons.
      * by exists [], (c :: s).
      * destruct (IH _ Hin) as (a & b & ->). by exists (c :: a), b.
    + destruct (split sep s) as [|first pieces] eqn:Hsplit.
      * by destruct (split_not_nil sep s).
      * intros [->|Hin]%elem_of_cons.
        -- destruct (split_first _ _ _ _ Hsplit) as [b ->]. by exists [], b.
        -- destruct (IH piece) as (a & b & ->); [by right|]. by exists (c :: a), b.
Qed.

Lemma trim_infix (s : jsstring) : exists a b, s = a ++ trim s ++ b.
Proof.
  unfold trim. destruct (trimStart_suffix s) as [a Ha].
  destruct (trimEnd_prefix (trimStart s)) as [b Hb].
  exists a, b. by rewrite <- Hb.
Qed.

Lemma trim_startsClean (s : jsstring) : startsClean (trim s) /\ startsClean (rev (trim s)).
Proof.
  unfold trim. split.
  - apply trimEnd_startsClean, trimStart_clean.
  - unfold trimEnd. rewrite rev_involutive. apply trimStart_clean.
Qed.

(** The strings [trim] leaves as they are: those with no white space
    at either end. *)
Lemma trim_fixed (s : jsstring) :
  trim s = s <-> startsClean s /\ startsClean (rev s).
Proof.
  split.
  - intros <-. apply trim_startsClean.
  - intros [Hstart Hend]. unfold trim, trimEnd.
    rewrite (trimStart_fixed s Hstart), (trimStart_fixed (rev s) Hend).
    apply rev_involutive.
Qed.

Lemma stripDash_suffix (line : jsstring) : exists a, line = a ++ SprintPlanView.stripDash line.
Proof.
  unfold SprintPlanView.stripDash. destruct (startsWith _ line).
  - exists (take 2 line). by rewrite take_drop.
  - by exists [].
Qed.

(** What [listItems] returns: lines that are not empty, have no white
    space at either end and no line break, cut out of the text. *)
Lemma listItems_elem (text x : jsstring) :
  x ∈ SprintPlanView.listItems text ->
  x <> [] /\ trim x = x /\ (LF ∉ x) /\ exists a b, text = a ++ x ++ b.
Proof.
  unfold SprintPlanView.listItems.
  intros Hin. apply list_elem_of_In, filter_In in Hin as [Hin Hne].
  apply in_map_iff in Hin as (line & <- & Hline).
  apply list_elem_of_In in Hline.
  split; [intros Hnil; by rewrite Hnil in Hne|]. split; [apply trim_idemp|].
  pose proof (split_pieces_free LF (trim text)) as Hfree.
  rewrite Forall_forall in Hfree. specialize (Hfree _ Hline).
  destruct (stripDash_suffix line) as [d Hd].
  split.
  - intros Hlf%trim_elem. apply Hfree. rewrite Hd. apply elem_of_app. by right.
  - destruct (split_infix _ _ _ Hline) as (a1 & b1 & H1).
    destruct (trim_infix text) as (a2 & b2 & H2).
    destruct (trim_infix (SprintPlanView.stripDash line)) as (a3 & b3 & H3).
    exists (a2 ++ a1 ++ d ++ a3), (b3 ++ b1 ++ b2).
    rewrite H2 at 1. rewrite H1 at 1. rewrite Hd at 1. rewrite H3 at 1.
    by rewrite <- !app_assoc.
Qed.

Lemma upToHashes_free (s : jsstring) :
  includes (lit "##") (SprintPlanView.upToHashes s) = false.
Proof.
  induction s as [|c s IH]; [done|].
  cbn [SprintPlanView.upToHashes].
  destruct (startsWith (lit "##") (c :: s)) eqn:Hstart; [done|].
  cbn [includes]. rewrite IH, orb_false_r.
  destruct s as [|d s]; [simpl in *; by rewrite andb_false_r|].
  cbn [SprintPlanView.upToHashes].
  destruct (startsWith (lit "##") (d :: s)) eqn:Hnext.
  - simpl. by rewrite andb_false_r.
  - simpl in *. done.
Qed.


(** ** A plan in the format the prompt asks for *)

Lemma startsWith_hashes (s : jsstring) :
  startsWith (lit "##") s = true <-> exists rest, s = 35 :: 35 :: rest.
Proof.
  destruct s as [|c [|d s]]; simpl.
  - split; [done|]. by intros [rest ?].
  - rewrite andb_false_r. split; [done|]. by intros [rest ?].
  - rewrite andb_true_r, andb_true_iff, !N.eqb_eq. split.
    + intros [-> ->]. by eexists.
    + by intros [rest [= -> -> _]].
Qed.

Lemma hashFree_cons (c : N) (s : jsstring) :
  includes (lit "##") (c :: s) = false
  <-> (c <> 35 \/ head s <> Some 35) /\ includes (lit "##") s = false.
Proof.
  cbn [includes]. rewrite orb_false_iff.
  assert (startsWith (lit "##") (c :: s) = false <-> c <> 35 \/ head s <> Some 35) as ->;
    [|done].
  rewrite <- not_true_iff_false, startsWith_hashes. split.
  - intros Hno. destruct (decide (c = 35)) as [->|]; [|by left]. right.
    destruct s as [|d s]; [done|]. simpl. intros [= ->]. apply Hno. by eexists.
  - intros [Hc|Hd] [rest [= -> Hs]]; [done|]. subst s. by apply Hd.
Qed.

(** Two strings without "##" give one when put together, unless the
    first ends and the second starts with "#". *)
Lemma hashFree_app (a b : jsstring) :
  includes (lit "##") a = false -> includes (lit "##") b = false ->
  last a <> Some 35 \/ head b <> Some 35 ->
  includes (lit "##") (a ++ b) = false.
Proof.
  intros Ha Hb Hjoin. induction a as [|c a IH]; [done|].
  apply hashFree_cons in Ha as [Hc Ha].
  change ((c :: a) ++ b) with (c :: (a ++ b)). apply hashFree_cons. split.
  - destruct a as [|d a]; [|done]. simpl in *.
    destruct Hjoin as [Hlast|Hhead]; [|by right]. left. congruence.
  - apply IH; [done|]. destruct a as [|d a]; [by left|]. done.
Qed.

Lemma white_no_hash (g : jsstring) (c : N) :
  Forall (fun c => isWhiteSpace c = true) g -> c ∈ g -> c <> 35.
Proof.
  rewrite Forall_forall. intros Hall Hin ->. by specialize (Hall _ Hin).
Qed.

Lemma white_last (g : jsstring) :
  Forall (fun c => isWhiteSpace c = true) g -> last g <> Some 35.
Proof.
  intros Hall [g' ->]%last_Some. eapply white_no_hash; [done| |done].
  apply elem_of_app. right. by left.
Qed.

Lemma white_head (g : jsstring) :
  Forall (fun c => isWhiteSpace c = true) g -> head g <> Some 35.
Proof.
  intros Hall. destruct g as [|c g]; [done|]. simpl. intros [= ->].
  by inversion Hall.
Qed.

Lemma white_hashFree (g : jsstring) :
  Forall (fun c => isWhiteSpace c = true) g -> includes (lit "##") g = false.
Proof.
  induction 1 as [|c g Hc Hall IH]; [done|].
  apply hashFree_cons. split; [|done]. left. intros ->. done.
Qed.

Lemma trimStart_white (g s : jsstring) :
  Forall (fun c => isWhiteSpace c = true) g -> trimStart (g ++ s) = trimStart s.
Proof. induction 1 as [|c g Hc Hall IH]; [done|]. simpl. by rewrite Hc. Qed.

Lemma startsClean_app (s t : jsstring) : s <> [] -> startsClean s -> startsClean (s ++ t).
Proof. by destruct s. Qed.

(** White space after a string with none at either end is what [trim]
    takes off. *)
Lemma trim_app_white (s g : jsstring) :
  s <> [] -> trim s = s -> Forall (fun c => isWhiteSpace c = true) g ->
  trim (s ++ g) = s.
Proof.
  intros Hne [Hstart Hend]%trim_fixed Hall. unfold trim, trimEnd.
  rewrite (trimStart_fixed (s ++ g)) by by apply startsClean_app.
  rewrite rev_app_distr, trimStart_white by by apply Forall_rev.
  rewrite (trimStart_fixed _ Hend). apply rev_involutive.
Qed.

Lemma matchLiteral_refl (pattern rest : jsstring) :
  SprintPlanView.matchLiteral pattern (pattern ++ rest) = Some rest.
Proof.
  induction pattern as [|p pattern IH]; simpl; [by destruct rest|].
  by rewrite N.eqb_refl.
Qed.

Lemma canonicalize_hash (c : N) : SprintPlanView.canonicalize c = 35 -> c = 35.
Proof.
  unfold SprintPlanView.canonicalize.
  destruct (N.leb_spec 97 c); destruct (N.leb_spec c 122); simpl; lia.
Qed.

Lemma matchLiteral_hashes (pattern s rest : jsstring) :
  SprintPlanView.matchLiteral (lit "##" ++ pattern) s = Some rest ->
  startsWith (lit "##") s = true.
Proof.
  change (lit "##") with [35; 35].
  destruct s as [|c [|d s]]; cbn [SprintPlanView.matchLiteral app startsWith]; try done;
    change (SprintPlanView.canonicalize 35) with 35.
  - by destruct (_ =? _).
  - destruct (N.eqb_spec (SprintPlanView.canonicalize c) 35) as [Hc|]; [|done].
    destruct (N.eqb_spec (SprintPlanView.canonicalize d) 35) as [Hd|]; [|done].
    apply canonicalize_hash in Hc, Hd. subst. done.
Qed.

(** A heading is not found where no "##" is. *)
Lemma findLiteral_skip (pattern pre s : jsstring) :
  includes (lit "##") (pre ++ [35]) = false ->
  SprintPlanView.findLiteral (lit "##" ++ pattern) (pre ++ 35 :: s)
  = SprintPlanView.findLiteral (lit "##" ++ pattern) (35 :: s).
Proof.
  induction pre as [|c pre IH]; [done|].
  change ((c :: pre) ++ [35]) with (c :: (pre ++ [35])).
  intros [Hc Hfree]%hashFree_cons.
  change ((c :: pre) ++ 35 :: s) with (c :: (pre ++ 35 :: s)).
  cbn [SprintPlanView.findLiteral].
  destruct (SprintPlanView.matchLiteral _ _) as [rest|] eqn:Hmatch; [|by apply IH].
  apply matchLiteral_hashes, startsWith_hashes in Hmatch as [rest' [= -> Hrest]].
  destruct Hc as [Hc|Hc]; [done|]. destruct pre as [|d pre]; [done|].
  simpl in *. congruence.
Qed.

Lemma upToHashes_fixed (s : jsstring) :
  includes (lit "##") s = false -> SprintPlanView.upToHashes s = s.
Proof.
  induction s as [|c s IH]; [done|]. intros Hfree.
  cbn [SprintPlanView.upToHashes].
  destruct (startsWith (lit "##") (c :: s)) eqn:Hstart.
  - cbn [includes] in Hfree. by rewrite Hstart in Hfree.
  - apply hashFree_cons in Hfree as [_ Hfree]. by rewrite IH.
Qed.

Lemma upToHashes_app (body more : jsstring) :
  includes (lit "##") (body ++ [35]) = false ->
  SprintPlanView.upToHashes (body ++ lit "##" ++ more) = body.
Proof.
  induction body as [|c body IH]; [done|].
  change ((c :: body) ++ [35]) with (c :: (body ++ [35])).
  intros [Hc Hfree]%hashFree_cons.
  change ((c :: body) ++ lit "##" ++ more) with (c :: (body ++ lit "##" ++ more)).
  cbn [SprintPlanView.upToHashes].
  destruct (startsWith (lit "##") (c :: _)) eqn:Hstart; [|by rewrite IH].
  apply startsWith_hashes in Hstart as [rest [= -> Hrest]].
  destruct Hc as [Hc|Hc]; [done|]. destruct body as [|d body]; [done|].
  simpl in *. congruence.
Qed.


Lemma bullet_facts (item : jsstring) :
  SprintPlanView.isListItem item ->
  let line := lit "- " ++ item in
  trim line = line /\ line <> [] /\ (LF ∉ line) /\ includes (lit "##") line = false
  /\ trim (SprintPlanView.stripDash line) = item.
Proof.
  intros (Hne & Htrim & Hlf & Hfree) line. subst line.
  change (lit "- ") with [45; 32]. cbn [app].
  apply trim_fixed in Htrim as Hends. destruct Hends as [Hstart Hend].
  split; [|split; [done|split; [|split]]].
  - apply trim_fixed. split; [done|]. cbn [rev]. rewrite <- !app_assoc.
    apply startsClean_app; [|done].
    intros Hnil. apply (f_equal (@rev N)) in Hnil. by rewrite rev_involutive in Hnil.
  - rewrite !elem_of_cons. intros [?|[?|?]]; done.
  - apply hashFree_cons. split; [by left|]. apply hashFree_cons. split; [by left|done].
  - done.
Qed.

Lemma join_cons (sep piece next : jsstring) (rest : list jsstring) :
  join sep (piece :: next :: rest) = piece ++ sep ++ join sep (next :: rest).
Proof. reflexivity. Qed.

(** A list of bullets: how it starts and ends, and that it splits and
    reads back into its items. *)
Lemma bullets_facts (items : list jsstring) :
  items <> [] -> Forall SprintPlanView.isListItem items ->
  let text := SprintPlanView.bullets items in
  head text = Some 45 /\ trim text = text
  /\ includes (lit "##") text = false
  /\ split LF text = map (app (lit "- ")) items.
Proof.
  intros Hne Hall text. subst text. unfold SprintPlanView.bullets.
  assert (Hends : items <> [] ->
            (head (join nl (map (app (lit "- ")) items)) = Some 45
             /\ trim (join nl (map (app (lit "- ")) items))
                = join nl (map (app (lit "- ")) items))
            /\ includes (lit "##") (join nl (map (app (lit "- ")) items)) = false);
    [|destruct (Hends Hne) as [[Hhead Htrim] Hfree]; repeat split; try done].
  - clear Hne. induction Hall as [|item rest Hitem Hall IH]; [done|]. intros _.
    destruct (bullet_facts item Hitem) as (Hline & Hnonempty & _ & Hfree & _).
    destruct rest as [|item' rest]; [done|].
    destruct IH as [[Hhead Htrim] Hfree']; [done|].
    cbn [map] in *. rewrite join_cons.
    set (more := join nl ((lit "- " ++ item') :: map (app (lit "- ")) rest)) in *.
    split; [split|].
    + done.
    + apply trim_fixed in Hline as [Hstart Hend]. apply trim_fixed in Htrim as [Hstart' Hend'].
      apply trim_fixed. split; [by apply startsClean_app|].
      rewrite !rev_app_distr, <- !app_assoc. apply startsClean_app; [|done].
      intros Hnil. apply (f_equal (@rev N)) in Hnil. rewrite rev_involutive in Hnil.
      by rewrite Hnil in Hhead.
    + apply hashFree_app; [done| |by right].
      apply hashFree_cons. split; [by left|done].
  - unfold nl. apply split_join; [by destruct items|].
    apply Forall_forall. intros line Hin. apply list_elem_of_In, in_map_iff in Hin
      as (item & <- & Hin). apply list_elem_of_In in Hin.
    rewrite Forall_forall in Hall.
    by destruct (bullet_facts item (Hall _ Hin)) as (_ & _ & Hlf & _).
Qed.

Lemma listItems_bullets (items : list jsstring) (gap : jsstring) :
  items <> [] -> Forall SprintPlanView.isListItem items ->
  Forall (fun c => isWhiteSpace c = true) gap ->
  SprintPlanView.listItems (SprintPlanView.bullets items ++ gap) = items.
Proof.
  intros Hne Hall Hgap.
  destruct (bullets_facts items Hne Hall) as (Hhead & Htrim & _ & Hsplit).
  unfold SprintPlanView.listItems.
  rewrite trim_app_white; [|by destruct (SprintPlanView.bullets items)|done|done].
  rewrite Hsplit, map_map. clear Hne Hhead Htrim Hsplit.
  induction Hall as [|item rest Hitem Hall IH]; [done|].
  cbn [map List.filter].
  destruct (bullet_facts item Hitem) as (_ & _ & _ & _ & ->).
  destruct Hitem as [Hne _]. destruct item; [done|]. cbn [nonEmpty]. by rewrite IH.
Qed.

Lemma findLiteral_here (pattern s rest : jsstring) :
  SprintPlanView.matchLiteral pattern s = Some rest ->
  SprintPlanView.findLiteral pattern s = Some rest.
Proof. intros Hmatch. destruct s; simpl; by rewrite Hmatch. Qed.

Lemma findLiteral_next (pattern : jsstring) (c : N) (s : jsstring) :
  SprintPlanView.matchLiteral pattern (c :: s) = None ->
  SprintPlanView.findLiteral pattern (c :: s) = SprintPlanView.findLiteral pattern s.
Proof. intros Hmatch. cbn [SprintPlanView.findLiteral]. by rewrite Hmatch. Qed.

(** X12.  A plan in the format the prompt asks for - the heading
    "## Sprint Plan", the selected tasks as a list of "- " items, the
    heading "## Deferred Tasks" and the deferred tasks as such a list,
    with any white space in between - passes the flow's check of the
    heading, and the page lists exactly the selected tasks under the
    first heading and exactly the deferred ones under the second. *)
Theorem plan_in_the_asked_format_is_listed
    (planned deferred : list jsstring) (g1 g2 g3 g4 : jsstring) :
  planned <> [] -> deferred <> [] ->
  Forall SprintPlanView.isListItem planned ->
  Forall SprintPlanView.isListItem deferred ->
  Forall (fun c => isWhiteSpace c = true) (g1 ++ g2 ++ g3 ++ g4) ->
  g2 <> [] ->
  let planText :=
    lit "## Sprint Plan" ++ g1 ++ SprintPlanView.bullets planned ++ g2
    ++ lit "## Deferred Tasks" ++ g3 ++ SprintPlanView.bullets deferred ++ g4 in
  includes (lit "## Sprint Plan") planText = true
  /\ SprintPlanView.parseSprintPlanSection planText (lit "Sprint Plan") = planned
  /\ SprintPlanView.parseSprintPlanSection planText (lit "Deferred Tasks") = deferred.
Proof.
  intros Hplanned Hdeferred Hall1 Hall2 Hgaps Hg2 planText.
  apply Forall_app in Hgaps as [Hg1 Hgaps].
  apply Forall_app in Hgaps as [Hgap2 Hgaps].
  apply Forall_app in Hgaps as [Hg3 Hg4].
  destruct (bullets_facts planned Hplanned Hall1) as (Hhead1 & Htrim1 & Hfree1 & _).
  destruct (bullets_facts deferred Hdeferred Hall2) as (Hhead2 & Htrim2 & Hfree2 & _).
  assert (Hclean : forall items rest, head (SprintPlanView.bullets items) = Some 45 ->
            forall g, Forall (fun c => isWhiteSpace c = true) g ->
            trimStart (g ++ SprintPlanView.bullets items ++ rest)
            = SprintPlanView.bullets items ++ rest).
  { intros items rest Hhead g Hg. rewrite trimStart_white by done.
    destruct (SprintPlanView.bullets items) as [|c t]; [done|].
    by injection Hhead as ->. }
  assert (Hsection1 : includes (lit "##") ((SprintPlanView.bullets planned ++ g2) ++ [35])
                      = false).
  { rewrite <- app_assoc. apply hashFree_app; [done| |].
    - apply hashFree_app; [by apply white_hashFree|done|]. left. by apply white_last.
    - right. destruct g2 as [|c g2]; [done|]. by apply (white_head (c :: g2)). }
  split; [|split].
  - subst planText. by apply includes_app_l.
  - unfold SprintPlanView.parseSprintPlanSection, SprintPlanView.sectionRegex_match.
    subst planText. change (lit "## " ++ lit "Sprint Plan") with (lit "## Sprint Plan").
    rewrite (findLiteral_here _ _ _ (matchLiteral_refl _ _)). cbn [mbind option_bind].
    rewrite Hclean by done.
    change (lit "## Deferred Tasks") with (lit "##" ++ lit " Deferred Tasks").
    rewrite <- (app_assoc (lit "##")), (app_assoc (SprintPlanView.bullets planned) g2).
    rewrite upToHashes_app by done.
    rewrite listItems_bullets by done.
    by destruct (SprintPlanView.bullets planned).
  - unfold SprintPlanView.parseSprintPlanSection, SprintPlanView.sectionRegex_match.
    subst planText. change (lit "## " ++ lit "Deferred Tasks") with (lit "## Deferred Tasks").
    change (lit "## Sprint Plan") with (35 :: lit "# Sprint Plan"). cbn [app].
    rewrite findLiteral_next by reflexivity.
    change (lit "## Deferred Tasks") with (lit "##" ++ lit " Deferred Tasks") at 1.
    change (lit "## Deferred Tasks") with (35 :: lit "# Deferred Tasks").
    rewrite !(app_assoc _ _ ((35 :: _) ++ _)). cbn [app].
    rewrite findLiteral_skip.
    + change (lit "##" ++ lit " Deferred Tasks") with (lit "## Deferred Tasks").
      change (35 :: lit "# Deferred Tasks" ++ ?r) with (lit "## Deferred Tasks" ++ r).
      rewrite (findLiteral_here _ _ _ (matchLiteral_refl _ _)). cbn [mbind option_bind].
      rewrite Hclean by done.
      rewrite upToHashes_fixed.
      * rewrite listItems_bullets by done. by destruct (SprintPlanView.bullets deferred).
      * apply hashFree_app; [done|by apply white_hashFree|]. right. by apply white_head.
    + rewrite <- !app_assoc. apply hashFree_app; [reflexivity| |by left].
      apply hashFree_app; [by apply white_hashFree| |left; by apply white_last].
      by rewrite app_assoc.
Qed.


Lemma includes_findLiteral (pattern s : jsstring) :
  includes pattern s = true -> is_Some (SprintPlanView.findLiteral pattern s).
Proof.
  assert (Hstart : forall p t, startsWith p t = true ->
            is_Some (SprintPlanView.matchLiteral p t)).
  { induction p as [|c p IH]; intros [|d t]; simpl; try done.
    intros [->%N.eqb_eq Hp]%andb_true_iff. rewrite N.eqb_refl. by apply IH. }
  induction s as [|c s IH]; cbn [includes SprintPlanView.findLiteral].
  - rewrite orb_false_r. intros [rest ->]%Hstart. done.
  - intros [[rest ->]%Hstart|Hlater]%orb_true_iff; [done|].
    destruct (SprintPlanView.matchLiteral _ _); [done|by apply IH].
Qed.

Section PlanOnThePage.
Context {num : Type} `{JsNumber num}.

(** X13.  A plan that the sprint-planner page holds after a
    submission has a "Sprint Plan" section which the regular
    expression of [parseSprintPlanSection] finds: the flow lets no
    other plan through. *)
Theorem plan_on_the_page_has_its_section
    (model : Model SprintPlannerFlow.SprintPlanOutput)
    (data : SprintPlannerFlow.SprintPlanInput num)
    (st : SprintPlannerPage.PageState num)
    (response : SprintPlannerFlow.SprintPlanOutput) :
  SprintPlannerPage.aiResponse (fst (SprintPlannerPage.onSubmit model data st))
    = Some response ->
  exists group,
    SprintPlanView.sectionRegex_match (lit "Sprint Plan")
      (SprintPlannerFlow.sprintPlan response) = Some group.
Proof.
  unfold SprintPlannerPage.onSubmit. cbn [fst].
  rewrite suggestSprintPlan_unfold, sprintPlannerFlow_settled.
  destruct (model _) as [error| |output]; [by rewrite onSubmit_settle_rejected..|].
  destruct (includes _ _) eqn:Hheading; [|by rewrite onSubmit_settle_rejected].
  intros [= <-]. unfold SprintPlanView.sectionRegex_match.
  change (lit "## " ++ lit "Sprint Plan") with (lit "## Sprint Plan").
  destruct (includes_findLiteral _ _ Hheading) as [rest ->]. by eexists.
Qed.
End PlanOnThePage.


Lemma plan_in_the_asked_format_witness :
  SprintPlanView.parseSprintPlanSection
    (lit "## Sprint Plan" ++ nl
     ++ SprintPlanView.bullets [Samples.taskLine "Fix bug" "High" "3"; lit "Write docs"]
     ++ (nl ++ nl) ++ lit "## Deferred Tasks" ++ nl ++ SprintPlanView.bullets [lit "None"] ++ [])
    (lit "Deferred Tasks") = [lit "None"].
Proof.
  refine (proj2 (proj2 (plan_in_the_asked_format_is_listed
           [Samples.taskLine "Fix bug" "High" "3"; lit "Write docs"] [lit "None"]
           nl (nl ++ nl) nl [] _ _ _ _ _ _))); try done.
  - repeat constructor; try done; refine (bool_decide_unpack _ _); vm_compute; exact I.
  - repeat constructor; try done; refine (bool_decide_unpack _ _); vm_compute; exact I.
  - refine (bool_decide_unpack _ _). vm_compute. exact I.
Defined.

Lemma plan_on_the_page_witness :
  exists group,
    SprintPlanView.sectionRegex_match (lit "Sprint Plan")
      (SprintPlannerFlow.sprintPlan Samples.planWithHeading) = Some group.
Proof.
  apply (plan_on_the_page_has_its_section
           (Samples.answers (Output Samples.planWithHeading)) Samples.scenario1
           Samples.freshPage).
  reflexivity.
Defined.

(** The sample plan as the page lists it; the heading is found in any
    case of its letters. *)
Example parse_examples :
  SprintPlanView.parseSprintPlanSection
    (SprintPlannerFlow.sprintPlan Samples.planWithHeading) (lit "Sprint Plan")
  = [lit "Fix bug"]
  /\ SprintPlanView.parseSprintPlanSection
       (SprintPlannerFlow.sprintPlan Samples.planWithHeading) (lit "Deferred Tasks")
     = [lit "None"]
  /\ SprintPlanView.parseSprintPlanSection
       (lit "## SPRINT PLAN" ++ nl ++ lit "Fix bug" ++ nl ++ lit "  - Write docs  ")
       (lit "Sprint Plan")
     = [lit "Fix bug"; lit "- Write docs"]
  /\ SprintPlanView.parseWarningsOrSuggestions
       (Some (lit "## Warnings & Suggestions" ++ nl ++ lit "- Split the epic" ++ nl ++ nl
              ++ lit "- Clarify priorities"))
     = [lit "Split the epic"; lit "Clarify priorities"].
Proof. vm_compute. repeat split. Qed.

(** ** Loading the project's tasks: what stays as it was *)

Section LoadTasksFrame.
Context {num : Type} `{JsNumber num}.

Lemma loadProjectTasks_frame (projectTasks : list (Types.Task num))
    (st : SprintPlannerPage.PageState num) :
  let st' := SprintPlannerPage.loadProjectTasks projectTasks st in
  SprintPlannerPage.aiResponse st' = SprintPlannerPage.aiResponse st
  /\ SprintPlannerPage.isSubmittingToAI st' = SprintPlannerPage.isSubmittingToAI st
  /\ SprintPlannerPage.isFetchingProjectTasks st'
     = SprintPlannerPage.isFetchingProjectTasks st
  /\ SprintPlannerPage.formErrors st' = SprintPlannerPage.formErrors st
  /\ SprintPlannerPage.form st'
     = SprintPlannerFlow.withTasksText (SprintPlannerPage.form st)
         (SprintPlannerFlow.tasksText (SprintPlannerPage.form st'))
  /\ exists t, SprintPlannerPage.toasts st' = SprintPlannerPage.toasts st ++ [t]
               /\ UseToast.variant t = UseToast.default
               /\ t <> {| UseToast.variant := UseToast.destructive;
                          UseToast.title := lit "Error Loading Tasks";
                          UseToast.description := lit "Could not load tasks. Check console logs." |}.
Proof.
  unfold SprintPlannerPage.loadProjectTasks.
  destruct (0 <? length projectTasks)%nat; [destruct (0 <? length _)%nat|];
    cbn; repeat split; try done; by eexists.
Qed.

(** X14.  Whoever is logged in, whatever is stored as the active
    project and however the fetch of the tasks ends, "load tasks" on
    the sprint-planner page raises exactly one toast, leaves the shown
    plan, the submission flag, the form's errors and every form field
    but the task list as they were, ends with the busy flag down for a
    logged-in user, and leaves the task list as it was whenever the
    toast is a destructive one. *)
Theorem load_tasks_changes_the_task_list_only
    (user : option AuthContext.User) (localStorage : gmap jsstring jsstring)
    (getTasksByProjectId : jsstring -> jsstring -> Settled (list (Types.Task num)))
    (st : SprintPlannerPage.PageState num) :
  let st' :=
    SprintPlannerPage.handleFetchProjectTasks user localStorage getTasksByProjectId st in
  let loggedIn :=
    match user with Some user => nonEmpty (AuthContext.id user) | None => false end in
  SprintPlannerPage.aiResponse st' = SprintPlannerPage.aiResponse st
  /\ SprintPlannerPage.isSubmittingToAI st' = SprintPlannerPage.isSubmittingToAI st
  /\ SprintPlannerPage.formErrors st' = SprintPlannerPage.formErrors st
  /\ SprintPlannerPage.isFetchingProjectTasks st'
     = (if loggedIn then false else SprintPlannerPage.isFetchingProjectTasks st)
  /\ SprintPlannerPage.form st'
     = SprintPlannerFlow.withTasksText (SprintPlannerPage.form st)
         (SprintPlannerFlow.tasksText (SprintPlannerPage.form st'))
  /\ exists t, SprintPlannerPage.toasts st' = SprintPlannerPage.toasts st ++ [t]
               /\ (UseToast.variant t = UseToast.destructive ->
                   SprintPlannerPage.form st' = SprintPlannerPage.form st).
Proof.
  intros st' loggedIn. subst st' loggedIn.
  assert (Hsame : forall input : SprintPlannerFlow.SprintPlanInput num,
            input = SprintPlannerFlow.withTasksText input (SprintPlannerFlow.tasksText input))
    by by intros [].
  unfold SprintPlannerPage.handleFetchProjectTasks.
  destruct user as [user|]; [|cbn; repeat split; try done; by eexists].
  destruct (nonEmpty (AuthContext.id user)); cbn [negb];
    [|cbn; repeat split; try done; by eexists].
  destruct (localStorage !! _) as [activeProjectId|];
    [|cbn; repeat split; try done; by eexists].
  destruct (nonEmpty activeProjectId); [|cbn; repeat split; try done; by eexists].
  destruct (getTasksByProjectId _ _) as [projectTasks|error];
    [|cbn; repeat split; try done; by eexists].
  destruct (loadProjectTasks_frame projectTasks
              (SprintPlannerPage.setIsFetchingProjectTasks true st))
    as (Hresponse & Hsubmitting & _ & Herrors & Hform & t & Htoasts & Hvariant & _).
  cbn in *. repeat split; try done.
  exists t. split; [done|]. intros Hdestructive. congruence.
Qed.

Lemma getTasksByProjectId_completes (w : TaskActions.World num)
    (projectId userId : jsstring) :
  exists result,
    fst (TaskActions.getTasksByProjectId projectId userId w) = Normal result.
Proof.
  rewrite getTasksByProjectId_run.
  destruct (_ || _ || _); [by eexists|]. cbv zeta.
  destruct (_ || _); [by eexists|]. destruct (TaskActionsAdd.nextFails _); by eexists.
Qed.

(** X15.  With the server's own [getTasksByProjectId] behind it, "load
    tasks" never raises the "Error Loading Tasks" toast, since the
    action does not throw.  When the user is logged in and an active
    project is stored but the action gives no tasks - the database
    cannot be reached, the user does not own the project, a request
    fails, or the project is empty - the task list of the form is
    emptied and the toast is the plain "No Tasks Found". *)
Theorem load_tasks_on_the_server
    (w : TaskActions.World num)
    (user : AuthContext.User) (localStorage : gmap jsstring jsstring)
    (st : SprintPlannerPage.PageState num) (activeProjectId : jsstring) :
  nonEmpty (AuthContext.id user) = true ->
  localStorage !! getUserScopedKey (lit "taskMasterActiveProjectId")
                    (Some (AuthContext.id user)) = Some activeProjectId ->
  nonEmpty activeProjectId = true ->
  let st' :=
    SprintPlannerPage.handleFetchProjectTasks (Some user) localStorage
      (ServerActions.getTasksByProjectId w) st in
  (forall t, t ∈ SprintPlannerPage.toasts st' -> t ∉ SprintPlannerPage.toasts st ->
             UseToast.variant t = UseToast.default)
  /\ (fst (TaskActions.getTasksByProjectId activeProjectId (AuthContext.id user) w)
      = Normal [] ->
      SprintPlannerFlow.tasksText (SprintPlannerPage.form st') = []
      /\ SprintPlannerPage.toasts st'
         = SprintPlannerPage.toasts st
           ++ [ {| UseToast.variant := UseToast.default;
                   UseToast.title := lit "No Tasks Found";
                   UseToast.description :=
                     lit "No tasks found for the active project in Firestore." |} ]).
Proof.
  intros Huser Hactive Hproject st'. subst st'.
  unfold SprintPlannerPage.handleFetchProjectTasks, ServerActions.getTasksByProjectId.
  rewrite Huser. cbn [negb]. rewrite Hactive, Hproject.
  destruct (getTasksByProjectId_completes w activeProjectId (AuthContext.id user))
    as [result Hresult].
  rewrite Hresult. cbn [ServerActions.await].
  destruct (loadProjectTasks_frame result
              (SprintPlannerPage.setIsFetchingProjectTasks true st))
    as (_ & _ & _ & _ & _ & t & Htoasts & Hvariant & _).
  split.
  - intros t' Hin Hold. cbn in Hin, Htoasts. rewrite Htoasts in Hin.
    apply elem_of_app in Hin as [Hin|Hin]; [done|].
    by apply list_elem_of_singleton in Hin as ->.
  - intros [= ->]. done.
Qed.
End LoadTasksFrame.

Lemma load_tasks_on_the_server_witness :
  SprintPlannerFlow.tasksText
    (SprintPlannerPage.form
       (SprintPlannerPage.handleFetchProjectTasks
          (Some {| AuthContext.id := lit "mock-user-bob-at-examplecom";
                   AuthContext.email := lit "bob@example.com";
                   AuthContext.name := lit "bob";
                   AuthContext.avatar := None |})
          {[ getUserScopedKey (lit "taskMasterActiveProjectId")
               (Some (lit "mock-user-bob-at-examplecom")) := lit "proj-1" ]}
          (ServerActions.getTasksByProjectId Samples.server) Samples.pageWithPlan))
  = [].
Proof.
  refine (proj1 (proj2 (load_tasks_on_the_server Samples.server
           {| AuthContext.id := lit "mock-user-bob-at-examplecom";
              AuthContext.email := lit "bob@example.com";
              AuthContext.name := lit "bob";
              AuthContext.avatar := None |}
           {[ getUserScopedKey (lit "taskMasterActiveProjectId")
                (Some (lit "mock-user-bob-at-examplecom")) := lit "proj-1" ]}
           Samples.pageWithPlan (lit "proj-1") eq_refl _ eq_refl) _)).
  - vm_compute. reflexivity.
  - vm_compute. reflexivity.
Defined.

(** ** The id of a mock user *)

Lemma toLowerCase_app (a b : jsstring) :
  toLowerCase (a ++ b) = toLowerCase a ++ toLowerCase b.
Proof. unfold toLowerCase. by rewrite map_app, concat_app. Qed.

Lemma replaceAt_app (a b : jsstring) :
  AuthProvider.replaceAt (a ++ b) = AuthProvider.replaceAt a ++ AuthProvider.replaceAt b.
Proof. unfold AuthProvider.replaceAt. by rewrite map_app, concat_app. Qed.

(** What one code unit of the e-mail address adds to the id. *)
Lemma generatedId_app (a b : jsstring) :
  AuthProvider.generatedId (a ++ b)
  = AuthProvider.generatedId a
    ++ AuthProvider.keepIdCodeUnits (AuthProvider.replaceAt (toLowerCase b)).
Proof.
  unfold AuthProvider.generatedId, AuthProvider.keepIdCodeUnits.
  by rewrite toLowerCase_app, replaceAt_app, List.filter_app, <- app_assoc.
Qed.

Lemma idPart_unread (c : N) :
  AuthProvider.isRead c = false ->
  AuthProvider.keepIdCodeUnits (AuthProvider.replaceAt (toLowerCase [c])) = [].
Proof.
  unfold AuthProvider.isRead, toLowerCase, lowerCodeUnit, AuthProvider.replaceAt,
    AuthProvider.keepIdCodeUnits, AuthProvider.isIdCodeUnit.
  rewrite !orb_false_iff. intros ((((((Hupper & Hlower) & Hdigit) & Hdash) & Hat) & Hi) & Hk).
  cbn [map concat]. rewrite Hupper, Hi, Hk. cbn [app map concat]. rewrite Hat.
  cbn [app List.filter]. by rewrite Hlower, Hdigit, Hdash.
Qed.

Lemma idPart_capital (c : N) :
  (65 <=? c) && (c <=? 90) = true ->
  toLowerCase [c] = [c + 32] /\ toLowerCase [c + 32] = [c + 32].
Proof.
  intros Hupper. unfold toLowerCase, lowerCodeUnit. cbn [map concat].
  rewrite Hupper. apply andb_true_iff in Hupper as [Hlo%N.leb_le Hhi%N.leb_le].
  split; [done|].
  replace (65 <=? c + 32) with true by (symmetry; apply N.leb_le; lia).
  replace (c + 32 <=? 90) with false by (symmetry; apply N.leb_gt; lia).
  replace (c + 32 =? 304) with false by (symmetry; apply N.eqb_neq; lia).
  replace (c + 32 =? 8490) with false by (symmetry; apply N.eqb_neq; lia).
  done.
Qed.

(** X16.  The id given to a user at login or signup is "mock-user-"
    followed by lower-case letters, digits and "-" only.  It does not
    change when a code unit that is no letter, digit, "-" or "@" (a
    dot, say) is put into the e-mail address or taken out of it, nor
    when a capital letter is replaced by its small one: addresses that
    differ in this way are one user to the task actions. *)
Theorem generatedId_reads_letters_and_digits (email a b : jsstring) (c : N) :
  (exists rest,
     AuthProvider.generatedId email = lit "mock-user-" ++ rest
     /\ Forall (fun c => AuthProvider.isIdCodeUnit c = true) rest)
  /\ (AuthProvider.isRead c = false ->
      AuthProvider.generatedId (a ++ c :: b) = AuthProvider.generatedId (a ++ b))
  /\ ((65 <=? c) && (c <=? 90) = true ->
      AuthProvider.generatedId (a ++ c :: b)
      = AuthProvider.generatedId (a ++ (c + 32) :: b)).
Proof.
  split; [|split].
  - eexists. split; [reflexivity|]. unfold AuthProvider.keepIdCodeUnits.
    apply Forall_forall. intros x Hin. by apply list_elem_of_In, filter_In in Hin as [_ ?].
  - intros Hunread. change (c :: b) with ([c] ++ b).
    rewrite app_assoc, (generatedId_app (a ++ [c])), (generatedId_app a [c]).
    rewrite idPart_unread by done. by rewrite app_nil_r, <- generatedId_app.
  - intros Hcapital. destruct (idPart_capital c Hcapital) as [Hupper Hlower].
    change (c :: b) with ([c] ++ b). change ((c + 32) :: b) with ([c + 32] ++ b).
    rewrite !app_assoc, (generatedId_app (a ++ [c])), (generatedId_app (a ++ [c + 32])).
    rewrite (generatedId_app a [c]), (generatedId_app a [c + 32]).
    by rewrite Hupper, Hlower.
Qed.

Lemma generatedId_witness :
  AuthProvider.generatedId (lit "alice.smith@example.com")
  = AuthProvider.generatedId (lit "alicesmith@example.com").
Proof.
  exact (proj1 (proj2 (generatedId_reads_letters_and_digits [] (lit "alice")
                         (lit "smith@example.com") 46)) eq_refl).
Defined.

(** The id of the sample user, and the same id for an address written
    in another way. *)
Example generatedId_examples :
  AuthProvider.generatedId (lit "alice@example.com") = lit "mock-user-alice-at-examplecom"
  /\ AuthProvider.generatedId (lit "Alice@Example.com")
     = AuthProvider.generatedId (lit "alice@examplecom").
Proof. vm_compute. by split. Qed.

(** ** The message shown for a failure *)

Lemma startsWith_prefix (p s : jsstring) :
  startsWith p s = true <-> exists b, s = p ++ b.
Proof.
  revert s. induction p as [|c p IH]; intros s; simpl.
  - split; [by exists s|done].
  - destruct s as [|d s].
    + split; [done|]. by intros [b ?].
    + rewrite andb_true_iff, N.eqb_eq, IH. split.
      * intros [-> [b ->]]. by exists b.
      * intros [b [= -> ->]]. split; [done|]. by exists b.
Qed.

(** [includes]: the pattern stands somewhere in the string. *)
Lemma includes_infix_iff (p s : jsstring) :
  includes p s = true <-> exists a b, s = a ++ p ++ b.
Proof.
  induction s as [|c s IH]; cbn [includes].
  - rewrite orb_false_r, startsWith_prefix. split.
    + intros [b Hb]. by exists [], b.
    + intros (a & b & Heq). destruct a; [by exists b|done].
  - rewrite orb_true_iff, startsWith_prefix, IH. split.
    + intros [[b Hb]|(a & b & ->)]; [by exists [], b|by exists (c :: a), b].
    + intros (a & b & Heq). destruct a as [|d a].
      * left. by exists b.
      * right. injection Heq as -> ->. by exists a, b.
Qed.

Lemma matchWord_prefix (word s m : jsstring) :
  matchWord word s = Some m -> length m = length word /\ exists b, s = m ++ b.
Proof.
  revert s m. induction word as [|p word IH]; intros s m; simpl.
  - intros [= <-]. split; [done|]. by exists s.
  - destruct s as [|c s]; [done|]. destruct (eqIgnoreCase p c); [|done].
    destruct (matchWord word s) as [m'|] eqn:Hmatch; [|done]. intros [= <-].
    destruct (IH _ _ Hmatch) as [Hlength [b ->]]. split; [simpl; by rewrite Hlength|].
    by exists b.
Qed.

Lemma match50x_prefix (s m : jsstring) :
  match50x s = Some m -> m <> [] /\ exists b, s = m ++ b.
Proof.
  unfold match50x. intros Hmatch. repeat case_match; simplify_eq.
  split; [done|]. by eexists.
Qed.

Lemma matchHere_prefix (s m : jsstring) :
  matchHere s = Some m -> m <> [] /\ exists b, s = m ++ b.
Proof.
  unfold matchHere.
  destruct (match50x s) as [m'|] eqn:H50x.
  - intros [= <-]. by apply match50x_prefix.
  - destruct (matchWord (lit "overloaded") s) as [m'|] eqn:Hover.
    + intros [= <-]. destruct (matchWord_prefix _ _ _ Hover) as [Hlength Hb].
      split; [by destruct m'|done].
    + intros Hun. destruct (matchWord_prefix _ _ _ Hun) as [Hlength Hb].
      split; [by destruct m|done].
Qed.

(** The match the regular expression reports is a piece of the
    message, and not an empty one. *)
Lemma serviceErrorMatch_infix (s m : jsstring) :
  serviceErrorMatch s = Some m -> m <> [] /\ exists a b, s = a ++ m ++ b.
Proof.
  induction s as [|c s IH]; cbn [serviceErrorMatch].
  - destruct (matchHere []) as [m'|] eqn:Hhere; [|done]. intros [= <-].
    destruct (matchHere_prefix _ _ Hhere) as [Hne [b Hb]]. split; [done|]. by exists [], b.
  - destruct (matchHere (c :: s)) as [m'|] eqn:Hhere.
    + intros [= <-]. destruct (matchHere_prefix _ _ Hhere) as [Hne [b Hb]].
      split; [done|]. by exists [], b.
    + intros Hlater. destruct (IH Hlater) as [Hne (a & b & ->)].
      split; [done|]. by exists (c :: a), b.
Qed.

Lemma serviceErrorMatch_finds (a b : jsstring) :
  is_Some (matchHere b) -> is_Some (serviceErrorMatch (a ++ b)).
Proof.
  intros Hhere. induction a as [|c a IH].
  - destruct b; cbn [app serviceErrorMatch]; by destruct Hhere as [m ->].
  - cbn [app serviceErrorMatch]. by destruct (matchHere (c :: a ++ b)).
Qed.

(** A word of small letters found in the lower-cased message is
    matched, whatever the case, in the message itself.  The two code
    units outside ASCII that [toLowerCase] turns into letters, U+0130
    and U+212A, stand in the way for words with "k" or a last "i"
    only. *)
Lemma matchWord_of_lowered (word s b : jsstring) :
  Forall (fun p => p <> 0x307 /\ p <> 0x6B) word ->
  last word <> Some 0x69 ->
  toLowerCase s = word ++ b ->
  is_Some (matchWord word s).
Proof.
  revert s. induction word as [|p word IH]; intros s Hplain Hlast; [by destruct s|].
  inversion Hplain as [|? ? (Hp1 & Hp2) Hplain']; subst.
  destruct s as [|c s]; [done|].
  unfold toLowerCase. cbn [map concat matchWord]. fold (toLowerCase s).
  assert (Hlast' : word <> [] -> last word <> Some 105) by (by destruct word).
  unfold lowerCodeUnit, eqIgnoreCase.
  destruct ((65 <=? c) && (c <=? 90)) eqn:Hupper.
  - apply andb_true_iff in Hupper as [Hlo%N.leb_le Hhi%N.leb_le].
    intros [= <- Hrest].
    replace (c =? c + 32) with false by (symmetry; apply N.eqb_neq; lia).
    replace (97 <=? c + 32) with true by (symmetry; apply N.leb_le; lia).
    replace (c + 32 <=? 122) with true by (symmetry; apply N.leb_le; lia).
    replace (c =? c + 32 - 32) with true by (symmetry; apply N.eqb_eq; lia).
    cbn [andb orb]. destruct word as [|p' word']; [done|].
    destruct (IH s Hplain' (Hlast' ltac:(done)) Hrest) as [m ->]. done.
  - destruct (N.eqb_spec c 0x130) as [->|Hi].
    + intros [= <- Hrest]. destruct word as [|p' word']; [done|].
      injection Hrest as <- _. by inversion Hplain' as [|? ? [? _] _].
    + destruct (N.eqb_spec c 0x212A) as [->|Hk]; [by intros [= <- _]|].
      intros [= <- Hrest]. rewrite N.eqb_refl. cbn [orb].
      destruct word as [|p' word']; [done|].
      destruct (IH s Hplain' (Hlast' ltac:(done)) Hrest) as [m ->]. done.
Qed.

Lemma lowered_infix (word s a b : jsstring) :
  Forall (fun p => p <> 0x307 /\ p <> 0x6B) word -> word <> [] ->
  last word <> Some 0x69 ->
  toLowerCase s = a ++ word ++ b ->
  exists a' b', s = a' ++ b' /\ is_Some (matchWord word b').
Proof.
  intros Hplain Hne Hlast. revert a. induction s as [|c s IH]; intros a.
  - destruct a, word; done.
  - destruct a as [|x a].
    + intros Hlowered. exists [], (c :: s). split; [done|].
      by apply (matchWord_of_lowered word (c :: s) b).
    + unfold toLowerCase. cbn [map concat]. fold (toLowerCase s).
      assert (Hnext : forall a1, toLowerCase s = a1 ++ word ++ b ->
                exists a' b', c :: s = a' ++ b' /\ is_Some (matchWord word b')).
      { intros a1 (a' & b' & -> & Hmatch)%IH. by exists (c :: a'), b'. }
      unfold lowerCodeUnit. repeat case_match; intros [= _ Hrest]; try by eapply Hnext.
      destruct a as [|y a].
      * destruct word as [|p word]; [done|]. injection Hrest as <- _.
        by inversion Hplain as [|? ? [? _] _].
      * injection Hrest as _ Hrest. by eapply Hnext.
Qed.

(** A message taken for a service failure holds what the regular
    expression looks for. *)
Lemma isServiceError_match (message : jsstring) :
  isServiceError message = true -> is_Some (serviceErrorMatch message).
Proof.
  assert (Hword : forall word, (word = lit "overloaded" \/ word = lit "unavailable") ->
            forall a b, toLowerCase message = a ++ word ++ b ->
            is_Some (serviceErrorMatch message)).
  { intros word Hword a b Hlowered.
    destruct (lowered_infix word message a b) as (a' & b' & -> & Hmatch); try done.
    - destruct Hword as [-> | ->]; repeat constructor; done.
    - by destruct Hword as [-> | ->].
    - by destruct Hword as [-> | ->].
    - apply serviceErrorMatch_finds. unfold matchHere.
      destruct (match50x b'); [done|].
      destruct Hword as [-> | ->]; [by destruct Hmatch as [m ->]|].
      by destruct (matchWord (lit "overloaded") b'). }
  unfold isServiceError. rewrite !orb_true_iff, !includes_infix_iff.
  intros [[(a & b & ->)|(a & b & Hlowered)]|(a & b & Hlowered)].
  - apply serviceErrorMatch_finds. by eexists.
  - apply (Hword (lit "overloaded") ltac:(by left) (a ++ lit "model is ") b).
    by rewrite Hlowered, <- !app_assoc.
  - apply (Hword (lit "unavailable") ltac:(by right) (a ++ lit "service ") b).
    by rewrite Hlowered, <- !app_assoc.
Qed.

(** X17.  The message the sprint-planner page shows for a failure is
    never empty.  For a failure taken for a service failure it names,
    between the brackets, a piece of the error's own message - the
    status 50x or the word found - and never the stand-in "Error";
    and for an error with a message the page shows what the wrapper
    of the flow would put into the error it throws. *)
Theorem failure_message_names_its_reason (message : jsstring) :
  SprintPlannerPage.errorMessage (JsError message) <> []
  /\ SprintPlannerPage.errorMessage NotAnError <> []
  /\ (message <> [] ->
      SprintPlannerPage.errorMessage (JsError message)
      = SprintPlannerFlow.userFriendlyMessage (JsError message))
  /\ (isServiceError message = true ->
      exists detail a b,
        message = a ++ detail ++ b /\ detail <> []
        /\ serviceErrorMatch message = Some detail
        /\ SprintPlannerPage.errorMessage (JsError message)
           = serviceUnavailableMessage detail).
Proof.
  assert (Hservice : isServiceError message = true ->
            exists detail a b,
              message = a ++ detail ++ b /\ detail <> []
              /\ serviceErrorMatch message = Some detail
              /\ SprintPlannerPage.errorMessage (JsError message)
                 = serviceUnavailableMessage detail
              /\ SprintPlannerFlow.userFriendlyMessage (JsError message)
                 = serviceUnavailableMessage detail).
  { intros Hservice. destruct (isServiceError_match _ Hservice) as [detail Hmatch].
    destruct (serviceErrorMatch_infix _ _ Hmatch) as [Hne (a & b & Heq)].
    exists detail, a, b. repeat split; try done.
    - unfold SprintPlannerPage.errorMessage. rewrite Hservice, Hmatch.
      by destruct detail.
    - unfold SprintPlannerFlow.userFriendlyMessage. by rewrite Hservice, Hmatch. }
  split; [|split; [done|split]].
  - destruct (isServiceError message) eqn:Hkind.
    + by destruct (Hservice eq_refl) as (detail & _ & _ & _ & _ & _ & -> & _).
    + unfold SprintPlannerPage.errorMessage. rewrite Hkind.
      destruct (isTaggedAIError message) eqn:Htagged; [by destruct message|].
      by destruct message.
  - intros Hne. destruct (isServiceError message) eqn:Hkind.
    + destruct (Hservice eq_refl) as (detail & _ & _ & _ & _ & _ & -> & ->). done.
    + unfold SprintPlannerPage.errorMessage, SprintPlannerFlow.userFriendlyMessage.
      rewrite Hkind. destruct (isTaggedAIError message); [done|]. by destruct message.
  - intros Hkind. destruct (Hservice Hkind) as (detail & a & b & ? & ? & ? & ? & _).
    by exists detail, a, b.
Qed.

Lemma failure_message_witness :
  exists detail,
    SprintPlannerPage.errorMessage (JsError (lit "Model is OVERLOADED, status 503"))
    = serviceUnavailableMessage detail
    /\ detail <> [].
Proof.
  destruct (proj2 (proj2 (proj2 (failure_message_names_its_reason
                                   (lit "Model is OVERLOADED, status 503")))) eq_refl)
    as (detail & a & b & _ & Hne & _ & Hmessage).
  by exists detail.
Defined.

(** ** Loading the current tasks into the scope-creep form *)

Section CurrentTasks.
Context {num : Type}.

Lemma scopeCreep_formatTask_facts (task : Types.Task num) :
  ScopeCreepTasks.formatTask task <> []
  /\ (ScopeCreepTasks.isActive task = true ->
      (LF ∉ Types.title task) -> (LF ∉ Types.description task) ->
      LF ∉ ScopeCreepTasks.formatTask task).
Proof.
  unfold ScopeCreepTasks.formatTask. split.
  - intros Hnil. apply (f_equal length) in Hnil. rewrite !length_app in Hnil.
    simpl in Hnil. lia.
  - unfold ScopeCreepTasks.isActive. intros Hactive Htitle Hdescription.
    assert (Hstatus : LF ∉ Types.status task).
    { apply orb_true_iff in Hactive as [Hactive|Hactive];
        [apply orb_true_iff in Hactive as [Hactive|Hactive]|];
        apply bool_decide_eq_true in Hactive; rewrite Hactive;
        refine (bool_decide_unpack _ _); vm_compute; exact I. }
    assert (Hlit : forall s : string, bool_decide (LF ∉ lit s) = true -> LF ∉ lit s)
      by (intros s; apply bool_decide_eq_true).
    rewrite !not_elem_of_app. repeat split; try done; try by apply Hlit.
    destruct (nonEmpty _); [|apply not_elem_of_nil].
    rewrite not_elem_of_app. split; [by apply Hlit|done].
Qed.

Lemma join_not_nil (sep piece : jsstring) (rest : list jsstring) :
  piece <> [] -> join sep (piece :: rest) <> [].
Proof. destruct rest; [done|]. rewrite join_cons. by destruct piece. Qed.

(** X18.  With a user logged in, an active project stored and the
    project's tasks fetched, "load current tasks" on the scope-creep
    page puts into the field of current tasks one text per task in
    "To Do", "In Progress" or "In Review" - title, " - " and the
    description when there is one, and the status in brackets - and
    leaves the other fields of the form alone.  The form then passes
    the page's validation exactly when there was such a task; and
    when no title or description holds a line break, the field has one
    line per task. *)
Theorem load_current_tasks_fills_the_form
    (user : AuthContext.User) (localStorage : gmap jsstring jsstring)
    (getTasksByProjectId : jsstring -> jsstring -> Settled (list (Types.Task num)))
    (st : ScopeCreepTasks.LoadState)
    (activeProjectId : jsstring) (projectTasks : list (Types.Task num)) :
  nonEmpty (AuthContext.id user) = true ->
  localStorage !! getUserScopedKey (lit "taskMasterActiveProjectId")
                    (Some (AuthContext.id user)) = Some activeProjectId ->
  nonEmpty activeProjectId = true ->
  getTasksByProjectId activeProjectId (AuthContext.id user) = Fulfilled projectTasks ->
  let st' :=
    ScopeCreepTasks.handleFetchCurrentProjectTasks (Some user) localStorage
      getTasksByProjectId st in
  let active := List.filter ScopeCreepTasks.isActive projectTasks in
  ScopeCreepTasks.form st'
    = {| ScopeCreepFlow.currentTasksText := join nl (map ScopeCreepTasks.formatTask active);
         ScopeCreepFlow.originalTasksText :=
           ScopeCreepFlow.originalTasksText (ScopeCreepTasks.form st);
         ScopeCreepFlow.sprintGoal := ScopeCreepFlow.sprintGoal (ScopeCreepTasks.form st) |}
  /\ ScopeCreepTasks.isFetchingProjectTasks st' = false
  /\ (ScopeCreepTasks.ScopeCreepClientInputSchema (ScopeCreepTasks.form st') = []
      <-> active <> [])
  /\ (active <> [] ->
      Forall (fun task => (LF ∉ Types.title task) /\ (LF ∉ Types.description task)) active ->
      split LF (ScopeCreepFlow.currentTasksText (ScopeCreepTasks.form st'))
      = map ScopeCreepTasks.formatTask active).
Proof.
  intros Huser Hactive Hproject Hfetch st' active.
  assert (Hform : ScopeCreepTasks.form st'
            = {| ScopeCreepFlow.currentTasksText :=
                   join nl (map ScopeCreepTasks.formatTask active);
                 ScopeCreepFlow.originalTasksText :=
                   ScopeCreepFlow.originalTasksText (ScopeCreepTasks.form st);
                 ScopeCreepFlow.sprintGoal :=
                   ScopeCreepFlow.sprintGoal (ScopeCreepTasks.form st) |}
            /\ ScopeCreepTasks.isFetchingProjectTasks st' = false).
  { subst st'. unfold ScopeCreepTasks.handleFetchCurrentProjectTasks.
    rewrite Huser. cbn [negb]. rewrite Hactive, Hproject, Hfetch. cbn [negb].
    unfold ScopeCreepTasks.loadActiveTasks. fold active.
    by destruct active. }
  destruct Hform as [Hform Hflag]. rewrite Hform.
  unfold ScopeCreepTasks.ScopeCreepClientInputSchema, minLength.
  cbn [ScopeCreepFlow.currentTasksText].
  split; [done|]. split; [done|]. split.
  - destruct active as [|task rest]; [done|]. cbn [map].
    pose proof (join_not_nil nl _ (map ScopeCreepTasks.formatTask rest)
                  (proj1 (scopeCreep_formatTask_facts task))) as Hne.
    destruct (join nl _); done.
  - intros Hne Hlines. unfold nl. apply split_join; [by destruct active|].
    apply Forall_forall. intros line Hin.
    apply list_elem_of_In, in_map_iff in Hin as (task & <- & Hin).
    assert (Hkept : ScopeCreepTasks.isActive task = true).
    { subst active. by apply filter_In in Hin as [_ ?]. }
    rewrite Forall_forall in Hlines.
    destruct (Hlines task) as [Htitle Hdescription]; [by apply list_elem_of_In|].
    by apply scopeCreep_formatTask_facts.
Qed.
End CurrentTasks.

Lemma load_current_tasks_witness :
  ScopeCreepFlow.currentTasksText
    (ScopeCreepTasks.form
       (ScopeCreepTasks.handleFetchCurrentProjectTasks (Some Samples.alice)
          Samples.localStorage Samples.getTasksByProjectId
          {| ScopeCreepTasks.isFetchingProjectTasks := false;
             ScopeCreepTasks.form := Samples.noCurrentTasks;
             ScopeCreepTasks.toasts := [] |}))
  = lit " (Status: To Do)" ++ nl ++ lit "Login page (Status: To Do)".
Proof.
  pose proof (load_current_tasks_fills_the_form Samples.alice Samples.localStorage
                Samples.getTasksByProjectId
                {| ScopeCreepTasks.isFetchingProjectTasks := false;
                   ScopeCreepTasks.form := Samples.noCurrentTasks;
                   ScopeCreepTasks.toasts := [] |}
                (lit "proj-1")
                [Samples.doneTask; Samples.untitledTask; Samples.loginTask]
                eq_refl) as Hload.
  destruct Hload as [Hform _]; [by vm_compute..|].
  by rewrite Hform.
Defined.

(** ** Seeding a project with its first tasks *)

Section Seeding.
Variable toUpperCase : jsstring -> jsstring.
Variable environment : nat -> jsstring * Z * Z.

Abbreviation addInitialTasksForProject :=
  (TaskActionsSeed.addInitialTasksForProject toUpperCase environment).
Abbreviation addEach := (TaskActionsSeed.addEach environment).
Abbreviation seeded := (TaskActionsSeed.seeded environment).
Abbreviation newTaskId := (TaskActionsSeed.newTaskId environment).

(** The snapshot of the category query and the test made on it. *)
Lemma addInitialTasksForProject_run (w : TaskActions.World Z)
    (projectId projectKey userId : jsstring) (userName firstStatus : option jsstring) :
  let rawTasks :=
    TaskActionsSeed.initialRawTasks projectKey
      (TaskActionsSeed.assigneeOf toUpperCase userName)
      (TaskActionsSeed.effectiveFirstStatusOf firstStatus) in
  let snapshot :=
    List.filter
      (fun snap => match Types.category snap.2 with
                   | Some c => bool_decide (c ∈ map TaskActionsSeed.category rawTasks)
                   | None => false
                   end)
      (TaskActions.tasksOf (TaskActions.store w) projectId) in
  addInitialTasksForProject projectId projectKey userId userName firstStatus w
  = if negb (TaskActionsAdd.ready w) || negb (nonEmpty userId)
    then (Normal [], w)
    else
      let w1 := TaskActionsAdd.after (TaskActions.GetProject projectId)
                  (TaskActions.store w) w in
      if TaskActionsAdd.nextFails w
         || TaskActions.notOwnedBy userId
              (TaskActions.projects (TaskActions.store w) !! projectId)
      then (Normal [], w1)
      else
        let w2 := TaskActionsAdd.after (TaskActions.QueryTasks projectId)
                    (TaskActions.store w) w1 in
        if TaskActionsAdd.nextFails w1 then (Normal [], w2)
        else if negb (bool_decide (snapshot = []))
                && existsb (fun snap => TaskActionsSeed.isInitialTask rawTasks snap.2)
                     snapshot
        then (Normal (map (TaskActions.taskOfSnapshot projectId) snapshot), w2)
        else match addEach projectId 0 rawTasks [] w2 with
             | (Normal addedTasks, w') => (Normal addedTasks, w')
             | (Abrupt error, w') => (Normal [], w')
             end.
Proof.
  intros rawTasks snapshot.
  unfold TaskActionsSeed.addInitialTasksForProject, TaskActions.tryCatch, mbind,
    TaskActions.Action_bind, TaskActions._getDbInstance, TaskActionsAdd.ready.
  destruct (TaskActions.areEssentialConfigsPresent _); [|reflexivity].
  destruct (TaskActions.sdkWorks w) eqn:Hsdk; [|reflexivity].
  cbn [negb andb orb].
  destruct (nonEmpty userId); [|reflexivity]. cbn [negb].
  unfold TaskActions.getDoc_project, TaskActions.request at 1, TaskActionsAdd.nextFails at 1.
  destruct (match TaskActions.faults w with b :: _ => b | [] => false end);
    [reflexivity|].
  cbn [orb]. fold (TaskActionsAdd.after (TaskActions.GetProject projectId)
                     (TaskActions.store w) w).
  destruct (TaskActions.notOwnedBy _ _); [reflexivity|].
  unfold TaskActionsSeed.getDocs_tasksByCategory, TaskActions.request at 1,
    TaskActionsAdd.nextFails.
  set (w1 := TaskActionsAdd.after _ _ w).
  destruct (match TaskActions.faults w1 with b :: _ => b | [] => false end);
    [reflexivity|].
  change (TaskActions.store w1) with (TaskActions.store w).
  fold rawTasks. fold snapshot.
  fold (TaskActionsAdd.after (TaskActions.QueryTasks projectId) (TaskActions.store w) w1).
  destruct (negb _ && _); [reflexivity|].
  by destruct (addEach _ _ _ _ _) as [[]].
Qed.

Lemma withTasks_same (fs : TaskActions.Firestore Z) :
  fs = TaskActionsAdd.withTasks fs (TaskActions.tasks fs).
Proof. by destruct fs. Qed.

(** One turn of the loop. *)
Lemma addEach_cons (projectId : jsstring) (i : nat) (rawTask : TaskActionsSeed.RawTask)
    (rest : list TaskActionsSeed.RawTask) (addedTasks : list (Types.Task Z))
    (w : TaskActions.World Z) :
  addEach projectId i (rawTask :: rest) addedTasks w
  = if TaskActionsAdd.nextFails w
    then (Abrupt (JsError (lit "FirebaseError")),
          TaskActionsAdd.after (TaskActions.SetTask projectId (newTaskId i))
            (TaskActions.store w) w)
    else addEach projectId (S i) rest
           (addedTasks
            ++ [TaskActionsSeed.withIdAndCreatedAt rawTask projectId (newTaskId i)
                  (environment i).2])
           (TaskActionsAdd.after (TaskActions.SetTask projectId (newTaskId i))
              (TaskActionsAdd.withTasks (TaskActions.store w)
                 (<[ (projectId, newTaskId i) :=
                       TaskActionsSeed.withIdAndCreatedAt rawTask projectId (newTaskId i)
                         (environment i).1.2 ]>
                    (TaskActions.tasks (TaskActions.store w))))
              w).
Proof.
  cbn [TaskActionsSeed.addEach]. unfold TaskActionsSeed.newTaskId.
  destruct (environment i) as [[uuid serverTime] now]. cbn [fst snd].
  unfold mbind, TaskActions.Action_bind, TaskActionsAdd.setDoc_newTask, TaskActions.request,
    TaskActionsAdd.nextFails.
  by destruct (match TaskActions.faults w with b :: _ => b | [] => false end).
Qed.

Lemma noFaultIn_next (n : nat) (w : TaskActions.World Z) (r : TaskActions.Request)
    (fs : TaskActions.Firestore Z) :
  TaskActionsSeed.noFaultIn (S n) (TaskActions.faults w) ->
  TaskActionsAdd.nextFails w = false
  /\ TaskActionsSeed.noFaultIn n (TaskActions.faults (TaskActionsAdd.after r fs w)).
Proof.
  unfold TaskActionsSeed.noFaultIn, TaskActionsAdd.nextFails. cbn.
  destruct (TaskActions.faults w) as [|b faults]; cbn.
  - intros _. split; [done|]. by destruct n.
  - by intros [-> ?]%Forall_cons.
Qed.

(** The loop when none of its writes fails: every task is written. *)
Lemma addEach_completes (projectId : jsstring) (rawTasks : list TaskActionsSeed.RawTask) :
  forall (i : nat) (addedTasks : list (Types.Task Z)) (w : TaskActions.World Z),
    TaskActionsSeed.noFaultIn (length rawTasks) (TaskActions.faults w) ->
    exists w',
      addEach projectId i rawTasks addedTasks w
      = (Normal (addedTasks ++ TaskActionsSeed.added environment projectId i rawTasks), w')
      /\ TaskActions.store w'
         = TaskActionsAdd.withTasks (TaskActions.store w)
             (seeded projectId i rawTasks (TaskActions.tasks (TaskActions.store w))).
Proof.
  induction rawTasks as [|rawTask rest IH]; intros i addedTasks w Hfaults.
  - exists w. split; [by rewrite app_nil_r|apply withTasks_same].
  - rewrite addEach_cons. cbn [length] in Hfaults.
    eapply noFaultIn_next in Hfaults as [-> Hfaults].
    edestruct (IH (S i)) as (w' & -> & Hstore); [exact Hfaults|].
    exists w'. split; [by rewrite <- app_assoc|done].
Qed.

(** The loop when its write number [k] is the first to fail: the
    writes before it stay. *)
Lemma addEach_breaks (projectId : jsstring) (rawTasks : list TaskActionsSeed.RawTask) :
  forall (k i : nat) (addedTasks : list (Types.Task Z)) (w : TaskActions.World Z)
         (later : list bool),
    (k < length rawTasks)%nat ->
    TaskActions.faults w = replicate k false ++ true :: later ->
    exists error w',
      addEach projectId i rawTasks addedTasks w = (Abrupt error, w')
      /\ TaskActions.store w'
         = TaskActionsAdd.withTasks (TaskActions.store w)
             (seeded projectId i (take k rawTasks) (TaskActions.tasks (TaskActions.store w))).
Proof.
  induction rawTasks as [|rawTask rest IH]; intros k i addedTasks w later Hk Hfaults.
  - simpl in Hk. lia.
  - rewrite addEach_cons. unfold TaskActionsAdd.nextFails at 1. rewrite Hfaults.
    destruct k as [|k]; cbn [replicate length app take].
    + eexists _, _. split; [reflexivity|]. apply withTasks_same.
    + edestruct (IH k (S i)) as (error & w' & -> & Hstore);
        [simpl in Hk; lia|by cbn; rewrite Hfaults|].
      by exists error, w'.
Qed.

Lemma seeded_last (projectId : jsstring) (rawTasks : list TaskActionsSeed.RawTask)
    (rawTask : TaskActionsSeed.RawTask) :
  forall (i : nat) (tasks : gmap (jsstring * jsstring) (Types.Task Z)),
    seeded projectId i (rawTasks ++ [rawTask]) tasks
    = <[ (projectId, newTaskId (i + length rawTasks)) :=
           TaskActionsSeed.withIdAndCreatedAt rawTask projectId
             (newTaskId (i + length rawTasks))
             (environment (i + length rawTasks)).1.2 ]>
        (seeded projectId i rawTasks tasks).
Proof.
  induction rawTasks as [|first rest IH]; intros i tasks; cbn [app length TaskActionsSeed.seeded].
  - by rewrite Nat.add_0_r.
  - rewrite IH. by replace (S i + length rest)%nat with (i + S (length rest))%nat by lia.
Qed.

(** The initial tasks of a project key have their categories and
    titles whoever is the assignee and whatever the first status. *)
Lemma initialRawTasks_same (projectKey a s a' s' : jsstring)
    (rawTask : TaskActionsSeed.RawTask) :
  rawTask ∈ TaskActionsSeed.initialRawTasks projectKey a s ->
  exists rawTask',
    rawTask' ∈ TaskActionsSeed.initialRawTasks projectKey a' s'
    /\ TaskActionsSeed.category rawTask' = TaskActionsSeed.category rawTask
    /\ TaskActionsSeed.title rawTask' = TaskActionsSeed.title rawTask.
Proof.
  intros [i Hi]%list_elem_of_lookup_1.
  assert (Hthere : exists rawTask',
            TaskActionsSeed.initialRawTasks projectKey a' s' !! i = Some rawTask'
            /\ TaskActionsSeed.category rawTask' = TaskActionsSeed.category rawTask
            /\ TaskActionsSeed.title rawTask' = TaskActionsSeed.title rawTask).
  { do 5 (destruct i as [|i]; [injection Hi as <-; by eexists|]). done. }
  destruct Hthere as (rawTask' & Hi' & Hsame). exists rawTask'.
  split; [by eapply list_elem_of_lookup_2|done].
Qed.

(** The test on the snapshot is the test whether the project holds an
    initial task. *)
Lemma snapshot_test (fs : TaskActions.Firestore Z) (projectId projectKey a s : jsstring) :
  let rawTasks := TaskActionsSeed.initialRawTasks projectKey a s in
  let snapshot :=
    List.filter
      (fun snap => match Types.category snap.2 with
                   | Some c => bool_decide (c ∈ map TaskActionsSeed.category rawTasks)
                   | None => false
                   end)
      (TaskActions.tasksOf fs projectId) in
  negb (bool_decide (snapshot = []))
  && existsb (fun snap => TaskActionsSeed.isInitialTask rawTasks snap.2) snapshot = true
  <-> TaskActionsSeed.holdsInitialTask fs projectId projectKey.
Proof.
  intros rawTasks snapshot. rewrite andb_true_iff, existsb_exists. split.
  - intros [_ ([taskId data] & Hin & Hinitial)].
    apply filter_In in Hin as [Hin _]. apply list_elem_of_In, tasksOf_elem in Hin.
    apply existsb_exists in Hinitial as (rawTask & Hraw & Hsame).
    apply andb_true_iff in Hsame as [Hcategory%bool_decide_eq_true Htitle%bool_decide_eq_true].
    apply list_elem_of_In in Hraw.
    destruct (initialRawTasks_same projectKey a s [] [] rawTask Hraw)
      as (rawTask' & Hraw' & Hcategory' & Htitle').
    exists taskId, data, rawTask'. cbn [snd] in *. repeat split; try done; congruence.
  - intros (taskId & data & rawTask' & Hlookup & Hraw' & Hcategory' & Htitle').
    destruct (initialRawTasks_same projectKey [] [] a s rawTask' Hraw')
      as (rawTask & Hraw & Hcategory & Htitle).
    assert (Hin : In (taskId, data) snapshot).
    { apply filter_In. split; [by apply list_elem_of_In, tasksOf_elem|].
      cbv beta. cbn [snd]. rewrite Hcategory', <- Hcategory. apply bool_decide_eq_true.
      apply list_elem_of_In. apply in_map. by apply list_elem_of_In. }
    split.
    + apply negb_true_iff, bool_decide_eq_false. intros Hnil. by rewrite Hnil in Hin.
    + exists (taskId, data). split; [done|]. apply existsb_exists.
      exists rawTask. split; [by apply list_elem_of_In|]. cbv beta. cbn [snd].
      apply andb_true_iff. split; apply bool_decide_eq_true; congruence.
Qed.

(** After a write of the loop the project holds an initial task. *)
Lemma seeded_holds (fs : TaskActions.Firestore Z) (projectId projectKey a s : jsstring)
    (k : nat) :
  (0 < k <= 5)%nat ->
  TaskActionsSeed.holdsInitialTask
    (TaskActionsAdd.withTasks fs
       (seeded projectId 0 (take k (TaskActionsSeed.initialRawTasks projectKey a s))
          (TaskActions.tasks fs)))
    projectId projectKey.
Proof.
  intros Hk.
  assert (Hsub : forall rawTask,
            rawTask ∈ take k (TaskActionsSeed.initialRawTasks projectKey a s) ->
            rawTask ∈ TaskActionsSeed.initialRawTasks projectKey a s).
  { intros rawTask Hin. rewrite <- (take_drop k (TaskActionsSeed.initialRawTasks _ _ _)).
    apply elem_of_app. by left. }
  destruct (take k _) as [|first rest] eqn:Htake using rev_ind.
  - apply (f_equal length) in Htake. rewrite length_take in Htake. simpl in Htake. lia.
  - rewrite seeded_last.
    destruct (initialRawTasks_same projectKey a s [] [] first) as (rawTask' & ? & ? & ?).
    { apply Hsub, elem_of_app. right. by left. }
    eexists _, _, rawTask'. split; [apply lookup_insert_eq|].
    cbn [Types.category Types.title TaskActionsSeed.withIdAndCreatedAt].
    split; [done|]. split; congruence.
Qed.



End Seeding.

Lemma sample_project_is_unseeded :
  ~ TaskActionsSeed.holdsInitialTask Samples.firestore (lit "proj-1") (lit "SL").
Proof. intros Hholds%(snapshot_test _ _ _ [] []). vm_compute in Hholds. discriminate. Qed.




(** Seeding Alice's project: five tasks when all goes well, none
    returned and two written when the third write fails. *)
Example seeding_examples :
  Types.id <$> default []
    (match (TaskActionsSeed.addInitialTasksForProject SeedSamples.toUpperCase
              SeedSamples.environment (lit "proj-1") (lit "SL")
              (AuthContext.id Samples.alice) (Some (lit "alice")) None Samples.server).1
     with Normal tasks => Some tasks | Abrupt _ => None end)
  = [lit "task-initial-0f3a9c1e"; lit "task-initial-1f3a9c1e"; lit "task-initial-2f3a9c1e";
     lit "task-initial-3f3a9c1e"; lit "task-initial-4f3a9c1e"]
  /\ size (TaskActions.tasks
             (TaskActions.store
                (TaskActionsSeed.addInitialTasksForProject SeedSamples.toUpperCase
                   SeedSamples.environment (lit "proj-1") (lit "SL")
                   (AuthContext.id Samples.alice) None None (SeedSamples.flakyServer 2)).2))
     = 5%nat.
Proof. vm_compute. by split. Qed.

(** ** Editing a task through the form *)

Section EditTask.
Context {num : Type} `{JsNumber num}.
Variable toUpperCase : jsstring -> jsstring.

Lemma startsWith_refl (p s : jsstring) : startsWith p (p ++ s) = true.
Proof. apply startsWith_prefix. by exists s. Qed.

Lemma categorySuffixOf_prefixed (projectKey suffix : jsstring) :
  TaskForm.categorySuffixOf (Some (projectKey ++ lit "-" ++ suffix)) projectKey = suffix.
Proof.
  unfold TaskForm.categorySuffixOf.
  rewrite (app_assoc projectKey), startsWith_refl.
  replace (nonEmpty ((projectKey ++ lit "-") ++ suffix)) with true
    by by destruct projectKey.
  cbn [andb]. rewrite drop_app_length'; [done|]. rewrite length_app. simpl. lia.
Qed.

Lemma trimmedOrUndefined_fixed (s : jsstring) :
  s <> [] -> trim s = s -> TaskForm.trimmedOrUndefined (Some s) = Some s.
Proof. intros Hne Htrim. unfold TaskForm.trimmedOrUndefined. rewrite Htrim. by destruct s. Qed.

(** X22.  Opening a task in the form and saving it unchanged gives the
    board the task it had, provided the task is in one of the board's
    columns and in the current project, has a priority, has no
    identifier or one made of the project key, "-" and a non-empty
    suffix without white space at its ends that is its own upper
    case, and has no assignee or one that is not empty and has no
    white space at its ends. *)
Theorem unchanged_edit_keeps_the_task
    (taskToEdit : Types.Task num) (currentProject : TaskBoard.Project)
    (availableStatuses : list jsstring) (submission : TaskForm.TaskFormValues num) :
  Types.status taskToEdit ∈ availableStatuses ->
  Types.projectId taskToEdit = TaskBoard.id currentProject ->
  (Types.category taskToEdit = None
   \/ exists suffix,
        Types.category taskToEdit = Some (TaskBoard.key currentProject ++ lit "-" ++ suffix)
        /\ suffix <> [] /\ trim suffix = suffix /\ toUpperCase suffix = suffix) ->
  (Types.assignee taskToEdit = None
   \/ exists a, Types.assignee taskToEdit = Some a /\ a <> [] /\ trim a = a) ->
  is_Some (Types.priority taskToEdit) ->
  TaskForm.form_handleSubmit
    (TaskForm.resetValues (Some taskToEdit) (TaskBoard.key currentProject) availableStatuses)
  = Some submission ->
  TaskBoardEdit.optimisticUpdatedTask taskToEdit
    (TaskBoardEdit.processedData toUpperCase currentProject submission) currentProject
  = taskToEdit.
Proof.
  intros Hstatus Hproject Hcategory Hassignee [p Hpriority].
  unfold TaskForm.form_handleSubmit. destruct (TaskForm.taskFormSchema _); [|done].
  intros [= <-]. destruct taskToEdit as [id title description status category createdAt
                                          assignee projectId priority effort].
  cbn [Types.status Types.projectId Types.category Types.assignee Types.priority]
    in Hstatus, Hproject, Hcategory, Hassignee, Hpriority.
  subst projectId priority.
  unfold TaskBoardEdit.optimisticUpdatedTask, TaskBoardEdit.processedData,
    TaskForm.submissionData, TaskForm.resetValues.
  cbn [TaskForm.title TaskForm.description TaskForm.status TaskForm.category
       TaskForm.assignee TaskForm.priority TaskForm.effort
       Types.id Types.title Types.description Types.status Types.category Types.createdAt
       Types.assignee Types.priority Types.effort].
  rewrite bool_decide_eq_true_2 by done.
  f_equal.
  - destruct Hcategory as [->|(suffix & -> & Hne & Htrim & Hupper)]; [done|].
    rewrite categorySuffixOf_prefixed, trimmedOrUndefined_fixed by done.
    rewrite Hupper. by destruct suffix.
  - destruct Hassignee as [->|(a & -> & Hne & Htrim)]; [done|].
    by apply trimmedOrUndefined_fixed.
Qed.

(** X23.  Whatever task is opened in the form and whatever is then
    typed, a task the board makes of accepted form data keeps the id
    and the creation time of the task edited, belongs to the current
    project, has a title and a description that are not empty, has no
    identifier or one that starts with the project key and "-", and
    has no assignee or one that is not empty and has no white space at
    its ends. *)
Theorem saved_edit_is_normal
    (taskToEdit : Types.Task num) (currentProject : TaskBoard.Project)
    (values submission : TaskForm.TaskFormValues num) :
  TaskForm.form_handleSubmit values = Some submission ->
  let saved :=
    TaskBoardEdit.optimisticUpdatedTask taskToEdit
      (TaskBoardEdit.processedData toUpperCase currentProject submission) currentProject in
  Types.id saved = Types.id taskToEdit
  /\ Types.createdAt saved = Types.createdAt taskToEdit
  /\ Types.projectId saved = TaskBoard.id currentProject
  /\ Types.title saved <> [] /\ Types.description saved <> [] /\ Types.status saved <> []
  /\ (Types.category saved = None
      \/ exists typed,
           typed <> [] /\ trim typed = typed
           /\ Types.category saved
              = Some (TaskBoard.key currentProject ++ lit "-" ++ toUpperCase typed))
  /\ (Types.assignee saved = None
      \/ exists a, Types.assignee saved = Some a /\ a <> [] /\ trim a = a).
Proof.
  unfold TaskForm.form_handleSubmit.
  destruct (TaskForm.taskFormSchema values) eqn:Hschema; [|done].
  intros [= <-]. cbv zeta.
  unfold TaskForm.taskFormSchema in Hschema.
  repeat (apply app_eq_nil in Hschema as [? Hschema]).
  assert (Hmin : forall name message value,
            minLength name 1 message value = [] -> value <> []).
  { intros name message value. unfold minLength. by destruct value. }
  assert (Htrimmed : forall s : option jsstring,
            TaskForm.trimmedOrUndefined s = None
            \/ exists a, TaskForm.trimmedOrUndefined s = Some a /\ a <> [] /\ trim a = a).
  { intros [s|]; [|by left]. unfold TaskForm.trimmedOrUndefined.
    destruct (nonEmpty (trim s)) eqn:Hne; [|by left]. right. exists (trim s).
    split; [done|]. split; [by destruct (trim s)|apply trim_idemp]. }
  cbn [TaskBoardEdit.optimisticUpdatedTask TaskBoardEdit.processedData
       TaskForm.submissionData
       TaskForm.title TaskForm.description TaskForm.status TaskForm.category
       TaskForm.assignee TaskForm.priority TaskForm.effort
       Types.id Types.title Types.description Types.status Types.category Types.createdAt
       Types.assignee Types.projectId Types.priority Types.effort].
  split; [done|]. split; [done|]. split; [done|].
  split; [by eapply Hmin|]. split; [by eapply Hmin|]. split; [by eapply Hmin|].
  split; [|apply Htrimmed].
  destruct (Htrimmed (TaskForm.category values)) as [->|(typed & -> & Hne & Htrim)];
    [by left|].
  right. exists typed. by destruct typed.
Qed.
End EditTask.

Lemma unchanged_edit_witness :
  TaskBoardEdit.optimisticUpdatedTask EditSamples.featureTask
    (TaskBoardEdit.processedData SeedSamples.toUpperCase BoardSamples.project
       (TaskForm.submissionData
          (TaskForm.resetValues (Some EditSamples.featureTask) (lit "SL")
             TaskBoard.DEFAULT_TASK_STATUSES)))
    BoardSamples.project
  = EditSamples.featureTask.
Proof.
  apply (unchanged_edit_keeps_the_task SeedSamples.toUpperCase EditSamples.featureTask
           BoardSamples.project TaskBoard.DEFAULT_TASK_STATUSES).
  - refine (bool_decide_unpack _ _). vm_compute. exact I.
  - reflexivity.
  - right. exists (lit "FEAT-12"). repeat split; try done; vm_compute; reflexivity.
  - right. exists (lit "AL"). repeat split; try done; vm_compute; reflexivity.
  - by eexists.
  - vm_compute. reflexivity.
Defined.

Lemma saved_edit_witness :
  Types.projectId
    (TaskBoardEdit.optimisticUpdatedTask Samples.loginTask
       (TaskBoardEdit.processedData SeedSamples.toUpperCase BoardSamples.project
          (TaskForm.submissionData
             (TaskForm.resetValues (Some EditSamples.featureTask) (lit "SL")
                TaskBoard.DEFAULT_TASK_STATUSES)))
       BoardSamples.project)
  = lit "proj-1".
Proof.
  refine (proj1 (proj2 (proj2 (saved_edit_is_normal SeedSamples.toUpperCase
           Samples.loginTask BoardSamples.project
           (TaskForm.resetValues (Some EditSamples.featureTask) (lit "SL")
              TaskBoard.DEFAULT_TASK_STATUSES) _ _)))).
  vm_compute. reflexivity.
Defined.

(** What the form shows as identifier of a task, and what saving
    makes of a task without priority in a column that is gone. *)
Example edit_examples :
  TaskForm.categorySuffixOf (Some (lit "SL-FEAT-12")) (lit "SL") = lit "FEAT-12"
  /\ TaskForm.categorySuffixOf (Some (lit "SL")) (lit "SL") = []
  /\ TaskForm.categorySuffixOf (Some (lit "OPS-3")) (lit "SL") = lit "OPS-3"
  /\ (TaskForm.priority (TaskForm.resetValues (Some Samples.untitledTask) (lit "SL")
                          [lit "Backlog"; lit "Done"]),
      TaskForm.status (TaskForm.resetValues (Some Samples.untitledTask) (lit "SL")
                         [lit "Backlog"; lit "Done"]))
     = (Some Types.Medium, lit "Backlog")
  /\ TaskForm.form_handleSubmit
       (TaskForm.resetValues (Some Samples.untitledTask) (lit "SL")
          TaskBoard.DEFAULT_TASK_STATUSES) = None.
Proof. vm_compute. repeat split. Qed.

(** ** The requests of the task actions *)

Section TaskRequests.
Context {num : Type}.

Ltac requests_of_run :=
  cbv zeta;
  repeat match goal with
         | |- context [if ?c then _ else _] => destruct c eqn:?
         end;
  cbn [fst snd TaskActions.requests TaskActionsAdd.after];
  rewrite <- ?app_assoc;
  (split; [eexists; split; [try reflexivity; symmetry; apply app_nil_r|tauto]|]);
  try (intros [Hoff|Hoff]; rewrite Hoff in *; try done;
       repeat match goal with
              | Hcase : _ || _ = false |- _ =>
                  apply orb_false_iff in Hcase as [? ?]
              end; done).

(** X24.  A task action makes no request at all when the database
    cannot be reached or no user id is given, and otherwise at most
    two: it first asks for the project - of the id it was given, or of
    the task it was given - and only then reads, writes or deletes. *)
Theorem task_actions_ask_for_the_project_first
    (w : TaskActions.World num) (projectId taskId userId randomUUID : jsstring)
    (taskData : Types.Task num) (newTask : TaskActionsAdd.TaskData num)
    (serverTime now : Z) :
  let shape (run : TaskActions.World num) (p : jsstring) (operation : TaskActions.Request) :=
    (exists sent,
       TaskActions.requests run = TaskActions.requests w ++ sent
       /\ (sent = [] \/ sent = [TaskActions.GetProject p]
           \/ sent = [TaskActions.GetProject p; operation]))
    /\ (TaskActionsAdd.ready w = false \/ nonEmpty userId = false -> run = w) in
  shape (TaskActions.getTasksByProjectId projectId userId w).2 projectId
    (TaskActions.QueryTasks projectId)
  /\ shape (TaskActions.updateTask taskData userId w).2 (Types.projectId taskData)
       (TaskActions.SetTask (Types.projectId taskData) (Types.id taskData))
  /\ shape (TaskActions.deleteTask projectId taskId userId w).2 projectId
       (TaskActions.DeleteTask projectId taskId)
  /\ shape (TaskActionsAdd.addTask newTask userId randomUUID serverTime now w).2
       (TaskActionsAdd.projectId newTask)
       (TaskActions.SetTask (TaskActionsAdd.projectId newTask) (lit "task-" ++ randomUUID)).
Proof.
  intros shape. subst shape. cbv beta.
  rewrite getTasksByProjectId_run, updateTask_run, deleteTask_run, addTask_run.
  split; [|split; [|split]]; requests_of_run.
Qed.
End TaskRequests.

(** ** Storage keys *)

Lemma generatedId_no_underscore (email : jsstring) : 95 ∉ AuthProvider.generatedId email.
Proof.
  unfold AuthProvider.generatedId, AuthProvider.keepIdCodeUnits.
  rewrite not_elem_of_app. split.
  - refine (bool_decide_unpack _ _). vm_compute. exact I.
  - intros Hin. by apply list_elem_of_In, filter_In in Hin as [_ ?].
Qed.

(** Two strings cut at their last "_" . *)
Lemma app_underscore_inv (a b u v : jsstring) :
  (95 ∉ u) -> (95 ∉ v) -> a ++ 95 :: u = b ++ 95 :: v -> a = b /\ u = v.
Proof.
  intros Hu Hv. revert b. induction a as [|c a IH]; intros [|d b] Heq.
  - by injection Heq as ->.
  - injection Heq as <- ->. destruct Hu. apply elem_of_app. right. by left.
  - injection Heq as -> <-. destruct Hv. apply elem_of_app. right. by left.
  - injection Heq as -> Heq. by destruct (IH _ Heq) as [-> ->].
Qed.

(** X25.  The keys under which the browser stores a user's active
    project and a project's columns keep users apart: for ids given at
    login, two users share the key of the active project only if they
    have the same id, no user has the key of the logged-out state, and
    two column keys are equal only for the same project and the same
    user id. *)
Theorem storage_keys_keep_users_apart
    (baseKey projectId1 projectId2 email1 email2 : jsstring) :
  (getUserScopedKey baseKey (Some (AuthProvider.generatedId email1))
   = getUserScopedKey baseKey (Some (AuthProvider.generatedId email2)) ->
   AuthProvider.generatedId email1 = AuthProvider.generatedId email2)
  /\ getUserScopedKey baseKey (Some (AuthProvider.generatedId email1))
     <> getUserScopedKey baseKey None
  /\ (TaskBoard.getProjectColumnsKey projectId1 (AuthProvider.generatedId email1)
      = TaskBoard.getProjectColumnsKey projectId2 (AuthProvider.generatedId email2) ->
      projectId1 = projectId2
      /\ AuthProvider.generatedId email1 = AuthProvider.generatedId email2).
Proof.
  assert (Hkey : forall email,
            getUserScopedKey baseKey (Some (AuthProvider.generatedId email))
            = baseKey ++ lit "-" ++ AuthProvider.generatedId email) by done.
  split; [|split].
  - rewrite !Hkey. by intros ?%app_inv_head%app_inv_head.
  - rewrite Hkey. unfold getUserScopedKey. by intros ?%app_inv_head.
  - unfold TaskBoard.getProjectColumnsKey. intros Heq%app_inv_head.
    by apply app_underscore_inv in Heq; [|apply generatedId_no_underscore..].
Qed.

Lemma storage_keys_witness :
  lit "proj-1" = lit "proj-1"
  /\ AuthProvider.generatedId (lit "Alice@example.com")
     = AuthProvider.generatedId (lit "alice@example.com").
Proof.
  apply (storage_keys_keep_users_apart [] (lit "proj-1") (lit "proj-1")
           (lit "Alice@example.com") (lit "alice@example.com")).
  vm_compute. reflexivity.
Defined.
